(** * SceneManager: texture and material registry, shader-uniform pipeline

    A shallow embedding of [Source/SceneManager.cpp].  The class keeps a
    fixed array of loaded textures with a counter, a vector of materials and
    a pointer to the shader manager through which every uniform is written.

    Conventions of the embedding:
    - [int] and [GLuint] are integers of [Z]; on every defined path the
      texture counter stays within the texture array, so no wrap-around
      arises.
    - [float] and the [glm] vector and matrix types are idealised over the
      real numbers [R]: rounding is not modelled.
    - Behaviour the C++ standard leaves undefined (indexing the texture
      array out of range, calling through a null [m_pShaderManager]) is the
      outcome [Undefined].
    - The collaborators that are not part of the class (the shader manager,
      OpenGL, stb_image, the mesh library) are state components of the
      machine the methods run on; their calls are recorded in traces.
    - Console output ([std::cout]), the vertical-flip flag of stb_image,
      the release of the decoded pixel buffer and the loading of the meshes
      in [PrepareScene] are not observed by any property below and are left
      out. *)

From Stdlib Require Import Reals ZArith Lra.
From stdpp Require Import gmap strings list.

Local Open Scope Z_scope.

(** ** glm: vectors, matrices and the transform constructors *)

Module glm.

Local Open Scope R_scope.

Inductive vec2 := Vec2 (x y : R).
Inductive vec3 := Vec3 (x y z : R).
Inductive vec4 := Vec4 (x y z w : R).

(** A [mat4] is stored column by column, [m[i]] being column [i]. *)
Inductive mat4 := Mat4 (c0 c1 c2 c3 : vec4).

Definition col (m : mat4) (i : nat) : vec4 :=
  match m, i with
  | Mat4 c0 _ _ _, 0%nat => c0
  | Mat4 _ c1 _ _, 1%nat => c1
  | Mat4 _ _ c2 _, 2%nat => c2
  | Mat4 _ _ _ c3, _ => c3
  end.

Definition at4 (v : vec4) (i : nat) : R :=
  match v, i with
  | Vec4 x _ _ _, 0%nat => x
  | Vec4 _ y _ _, 1%nat => y
  | Vec4 _ _ z _, 2%nat => z
  | Vec4 _ _ _ w, _ => w
  end.

Definition at3 (v : vec3) (i : nat) : R :=
  match v, i with
  | Vec3 x _ _, 0%nat => x
  | Vec3 _ y _, 1%nat => y
  | Vec3 _ _ z, _ => z
  end.

(** [v * k] and [a + b] on [vec4]. *)
Definition vmul (v : vec4) (k : R) : vec4 :=
  match v with Vec4 x y z w => Vec4 (x * k) (y * k) (z * k) (w * k) end.

Definition vadd (a b : vec4) : vec4 :=
  match a, b with
  | Vec4 x y z w, Vec4 x' y' z' w' => Vec4 (x + x') (y + y') (z + z') (w + w')
  end.

(** [mat4(1.0f)]: the identity. *)
Definition mat4_1 : mat4 :=
  Mat4 (Vec4 1 0 0 0) (Vec4 0 1 0 0) (Vec4 0 0 1 0) (Vec4 0 0 0 1).

(** [operator*(mat4, mat4)]: column [j] of the result is the combination
    of the columns of [m1] weighted by column [j] of [m2]. *)
Definition mul_col (m1 : mat4) (b : vec4) : vec4 :=
  vadd (vadd (vadd (vmul (col m1 0) (at4 b 0)) (vmul (col m1 1) (at4 b 1)))
             (vmul (col m1 2) (at4 b 2)))
       (vmul (col m1 3) (at4 b 3)).

Definition mul (m1 m2 : mat4) : mat4 :=
  Mat4 (mul_col m1 (col m2 0)) (mul_col m1 (col m2 1))
       (mul_col m1 (col m2 2)) (mul_col m1 (col m2 3)).

(** [operator*(mat4, vec4)]. *)
Definition apply (m : mat4) (v : vec4) : vec4 := mul_col m v.

(** [glm::radians]. *)
Definition radians (degrees : R) : R := degrees * (PI / 180).

(** [glm::normalize] on [vec3]: [v * inversesqrt(dot(v, v))]. *)
Definition dot3 (a b : vec3) : R :=
  at3 a 0 * at3 b 0 + at3 a 1 * at3 b 1 + at3 a 2 * at3 b 2.

Definition normalize (v : vec3) : vec3 :=
  let k := / sqrt (dot3 v v) in
  Vec3 (at3 v 0 * k) (at3 v 1 * k) (at3 v 2 * k).

(** [glm::translate(m, v)]: the last column becomes
    [m[0]*v[0] + m[1]*v[1] + m[2]*v[2] + m[3]]. *)
Definition translate_onto (m : mat4) (v : vec3) : mat4 :=
  Mat4 (col m 0) (col m 1) (col m 2)
       (vadd (vadd (vadd (vmul (col m 0) (at3 v 0)) (vmul (col m 1) (at3 v 1)))
                   (vmul (col m 2) (at3 v 2)))
             (col m 3)).

(** [glm::scale(m, v)]. *)
Definition scale_onto (m : mat4) (v : vec3) : mat4 :=
  Mat4 (vmul (col m 0) (at3 v 0)) (vmul (col m 1) (at3 v 1))
       (vmul (col m 2) (at3 v 2)) (col m 3).

(** [glm::rotate(m, angle, v)]: rotation by [angle] radians about the
    normalised axis [v]. *)
Definition rotate_onto (m : mat4) (angle : R) (v : vec3) : mat4 :=
  let c := cos angle in
  let s := sin angle in
  let axis := normalize v in
  let temp := Vec3 ((1 - c) * at3 axis 0) ((1 - c) * at3 axis 1)
                   ((1 - c) * at3 axis 2) in
  let r00 := c + at3 temp 0 * at3 axis 0 in
  let r01 := at3 temp 0 * at3 axis 1 + s * at3 axis 2 in
  let r02 := at3 temp 0 * at3 axis 2 - s * at3 axis 1 in
  let r10 := at3 temp 1 * at3 axis 0 - s * at3 axis 2 in
  let r11 := c + at3 temp 1 * at3 axis 1 in
  let r12 := at3 temp 1 * at3 axis 2 + s * at3 axis 0 in
  let r20 := at3 temp 2 * at3 axis 0 + s * at3 axis 1 in
  let r21 := at3 temp 2 * at3 axis 1 - s * at3 axis 0 in
  let r22 := c + at3 temp 2 * at3 axis 2 in
  Mat4 (vadd (vadd (vmul (col m 0) r00) (vmul (col m 1) r01)) (vmul (col m 2) r02))
       (vadd (vadd (vmul (col m 0) r10) (vmul (col m 1) r11)) (vmul (col m 2) r12))
       (vadd (vadd (vmul (col m 0) r20) (vmul (col m 1) r21)) (vmul (col m 2) r22))
       (col m 3).

(** The one-argument forms of [glm/gtx/transform.hpp] start from the
    identity. *)
Definition translate (v : vec3) : mat4 := translate_onto mat4_1 v.
Definition rotate (angle : R) (v : vec3) : mat4 := rotate_onto mat4_1 angle v.
Definition scale (v : vec3) : mat4 := scale_onto mat4_1 v.

End glm.

Import glm(vec2, vec3, vec4, mat4, Vec2, Vec3, Vec4, Mat4).

(** ** The structures of [SceneManager.h]

    The header is not among the sources; the structures carry the members
    the methods read and assign. *)

(** [TEXTURE_INFO]: one cell of the texture array, the OpenGL texture name
    and the tag it was registered under. *)
Module TEXTURE_INFO.
Record t := mk { ID : Z; tag : string }.
End TEXTURE_INFO.

(** [OBJECT_MATERIAL]: the five shading values of a material and its tag. *)
Module OBJECT_MATERIAL.
Record t := mk {
  ambientColor : vec3;
  ambientStrength : R;
  diffuseColor : vec3;
  specularColor : vec3;
  shininess : R;
  tag : string }.
End OBJECT_MATERIAL.

(** [m_pShaderManager] is either null or points to the shader manager of
    the machine. *)
Inductive pointer := NULL | shader_manager.

#[global] Instance pointer_eq_dec : EqDecision pointer.
Proof. solve_decision. Defined.

(** The members of the class. [m_textureIDs] is a fixed array (its length
    is the capacity declared in the header), [m_loadedTextures] counts the
    cells in use, [m_objectMaterials] is a [std::vector]. *)
Record SceneManager := mkSceneManager {
  m_pShaderManager : pointer;
  m_textureIDs : list TEXTURE_INFO.t;
  m_loadedTextures : Z;
  m_objectMaterials : list OBJECT_MATERIAL.t }.

(** ** The collaborators *)

(** A value handed to one of the shader manager's setters; the constructor
    records which setter received it. *)
Inductive UniformValue :=
| UBool (b : bool)          (* setBoolValue *)
| UInt (i : Z)              (* setIntValue *)
| UFloat (x : R)            (* setFloatValue *)
| UVec2 (v : vec2)          (* setVec2Value *)
| UVec3 (v : vec3)          (* setVec3Value *)
| UVec4 (v : vec4)          (* setVec4Value *)
| UMat4 (m : mat4)          (* setMat4Value *)
| USampler2D (slot : Z).    (* setSampler2DValue *)

(** The shader manager: the current value of every uniform written so far
    and the sequence of setter calls it received. *)
Record ShaderManager := mkShaderManager {
  uniforms : gmap string UniformValue;
  writes : list (string * UniformValue) }.

Inductive GLenum :=
| GL_TEXTURE_WRAP_S | GL_TEXTURE_WRAP_T | GL_TEXTURE_MIN_FILTER
| GL_TEXTURE_MAG_FILTER | GL_REPEAT | GL_LINEAR
| GL_RGB8 | GL_RGB | GL_RGBA8 | GL_RGBA.

(** The OpenGL calls the class can reach, plus [glDeleteTextures], the
    call by which a texture name is released. All texture calls of the
    class use the target [GL_TEXTURE_2D]. *)
Inductive GLCall :=
| glGenTextures (name : Z)
| glDeleteTextures (name : Z)
| glBindTexture (name : Z)
| glTexParameteri (pname param : GLenum)
| glTexImage2D (internalformat : GLenum) (width height : Z) (format : GLenum)
| glGenerateMipmap
| glActiveTexture (unit : Z).

(** OpenGL: the texture names in use and the calls received. *)
Record OpenGL := mkOpenGL {
  texture_names : gset positive;
  gl_calls : list GLCall }.

(** What [stbi_load] reports for a file it can decode. *)
Record stb_image := mk_stb_image {
  width : Z;
  height : Z;
  colorChannels : Z }.

(** The primitive meshes of [ShapeMeshes]. *)
Inductive Mesh :=
| PlaneMesh | BoxMesh | CylinderMesh | TorusMesh | TaperedCylinderMesh
| SphereMesh.

(** A draw call together with the uniform values it observes. *)
Record DrawCall := mkDrawCall {
  mesh : Mesh;
  seen : gmap string UniformValue }.

(** The machine the methods run on: the object itself and everything it
    talks to. [disk] maps a file name to the image [stbi_load] decodes from
    it; a name outside [disk] cannot be decoded. [indeterminate] holds the
    five values an [OBJECT_MATERIAL] local has before anything is assigned
    to it. *)
Record Machine := mkMachine {
  this : SceneManager;
  shader : ShaderManager;
  gl : OpenGL;
  disk : gmap string stb_image;
  drawn : list DrawCall;
  indeterminate : OBJECT_MATERIAL.t }.

(** ** Outcomes and the monad of methods *)

Inductive outcome (A : Type) :=
| Done (a : A)
| Undefined.
Arguments Done {A} a.
Arguments Undefined {A}.

Definition M (A : Type) : Type := Machine → outcome (A * Machine).

#[global] Instance M_ret : MRet M := λ A a w, Done (a, w).

#[global] Instance M_bind : MBind M := λ A B f m w,
  match m w with
  | Done (a, w') => f a w'
  | Undefined => Undefined
  end.

Definition get : M Machine := λ w, Done (w, w).
Definition put (w : Machine) : M unit := λ _, Done (tt, w).

Definition with_this (f : SceneManager → SceneManager) (w : Machine) : Machine :=
  mkMachine (f (this w)) (shader w) (gl w) (disk w) (drawn w) (indeterminate w).

Definition with_shader (f : ShaderManager → ShaderManager) (w : Machine) : Machine :=
  mkMachine (this w) (f (shader w)) (gl w) (disk w) (drawn w) (indeterminate w).

Definition with_gl (f : OpenGL → OpenGL) (w : Machine) : Machine :=
  mkMachine (this w) (shader w) (f (gl w)) (disk w) (drawn w) (indeterminate w).

Definition with_drawn (f : list DrawCall → list DrawCall) (w : Machine) : Machine :=
  mkMachine (this w) (shader w) (gl w) (disk w) (f (drawn w)) (indeterminate w).

(** ** Calls into the collaborators *)

(** Modelled from the spec: the [ShaderManager] class is not among the
    sources. It is the name-keyed write-only channel of the specification:
    a setter stores the value under the uniform's name, replacing what was
    there, and the call is appended to the trace. *)
Definition set_uniform (name : string) (v : UniformValue) (sm : ShaderManager)
  : ShaderManager :=
  mkShaderManager (<[name := v]> (uniforms sm)) (writes sm ++ [(name, v)]).

(** [m_pShaderManager->setter(name, v)]: undefined through a null pointer. *)
Definition call_shader (name : string) (v : UniformValue) : M unit := λ w,
  match m_pShaderManager (this w) with
  | NULL => Undefined
  | shader_manager => Done (tt, with_shader (set_uniform name v) w)
  end.

Definition setBoolValue (name : string) (b : bool) : M unit := call_shader name (UBool b).
Definition setIntValue (name : string) (i : Z) : M unit := call_shader name (UInt i).
Definition setFloatValue (name : string) (x : R) : M unit := call_shader name (UFloat x).
Definition setVec2Value (name : string) (v : vec2) : M unit := call_shader name (UVec2 v).
Definition setVec3Value (name : string) (v : vec3) : M unit := call_shader name (UVec3 v).
Definition setVec4Value (name : string) (v : vec4) : M unit := call_shader name (UVec4 v).
Definition setMat4Value (name : string) (m : mat4) : M unit := call_shader name (UMat4 m).
Definition setSampler2DValue (name : string) (slot : Z) : M unit :=
  call_shader name (USampler2D slot).

(** An OpenGL call that only needs recording. *)
Definition gl_call (c : GLCall) : M unit := λ w,
  Done (tt, with_gl (λ g, mkOpenGL (texture_names g) (gl_calls g ++ [c])) w).

(** [glGenTextures(1, &id)]: OpenGL hands out a texture name that is not in
    use and marks it as used. *)
Definition gl_gen_texture : M Z := λ w,
  let n := fresh (texture_names (gl w)) in
  Done (Z.pos n,
        with_gl (λ g, mkOpenGL ({[n]} ∪ texture_names g)
                               (gl_calls g ++ [glGenTextures (Z.pos n)])) w).

(** [stbi_load]: the decoded image, or null. *)
Definition stbi_load (filename : string) : M (option stb_image) := λ w,
  Done (disk w !! filename, w).

(** [m_basicMeshes->Draw...Mesh()]: the draw observes the uniforms as they
    stand. *)
Definition draw (m : Mesh) : M unit := λ w,
  Done (tt, with_drawn (λ d, d ++ [mkDrawCall m (uniforms (shader w))]) w).

(** ** Access to the texture array *)

(** Reading [m_textureIDs[index]]. *)
Definition texture_at (index : Z) : M TEXTURE_INFO.t := λ w,
  if decide (0 ≤ index) then
    match m_textureIDs (this w) !! Z.to_nat index with
    | Some e => Done (e, w)
    | None => Undefined
    end
  else Undefined.

(** Assigning to a member of [m_textureIDs[index]]. *)
Definition update_texture_at (index : Z) (f : TEXTURE_INFO.t → TEXTURE_INFO.t)
  : M unit :=
  e ← texture_at index;
  w ← get;
  put (with_this (λ o, mkSceneManager (m_pShaderManager o)
                         (<[Z.to_nat index := f e]> (m_textureIDs o))
                         (m_loadedTextures o) (m_objectMaterials o)) w).

Definition set_loadedTextures (n : Z) : M unit := λ w,
  Done (tt, with_this (λ o, mkSceneManager (m_pShaderManager o) (m_textureIDs o)
                              n (m_objectMaterials o)) w).

Definition push_back_material (m : OBJECT_MATERIAL.t) : M unit := λ w,
  Done (tt, with_this (λ o, mkSceneManager (m_pShaderManager o) (m_textureIDs o)
                              (m_loadedTextures o) (m_objectMaterials o ++ [m])) w).

(** [for (int i = start; i < start + n; i++) body(i)], for a bound that the
    body does not change. *)
Fixpoint for_loop (n : nat) (i : Z) (body : Z → M unit) : M unit :=
  match n with
  | O => mret tt
  | S n' => body i ;; for_loop n' (i + 1) body
  end.

(** ** The uniform names *)

Definition g_ModelName : string := "model".
Definition g_ColorValueName : string := "objectColor".
Definition g_TextureValueName : string := "objectTexture".
Definition g_UseTextureName : string := "bUseTexture".
Definition g_UseLightingName : string := "bUseLighting".

(** ** The methods *)

(** Modelled from the spec: [SceneManager.h] is not among the sources, so
    the capacity of [m_textureIDs] and the initial value of
    [m_loadedTextures] are taken from the specification and from the
    comments of [BindGLTextures] and [LoadSceneTextures]: sixteen texture
    slots, assigned in insertion order starting at 0. *)
Definition SceneManager_new (pShaderManager : pointer) : SceneManager :=
  mkSceneManager pShaderManager (replicate 16 (TEXTURE_INFO.mk 0 "")) 0 [].

(** [CreateGLTexture(filename, tag)]. The two supported channel counts
    differ only in the formats handed to [glTexImage2D]; any other count
    returns [false] right after the texture parameters are set. *)
Definition CreateGLTexture (filename : string) (tag : string) : M bool :=
  image ← stbi_load filename;
  match image with
  | Some img =>
      textureID ← gl_gen_texture;
      gl_call (glBindTexture textureID);;
      gl_call (glTexParameteri GL_TEXTURE_WRAP_S GL_REPEAT);;
      gl_call (glTexParameteri GL_TEXTURE_WRAP_T GL_REPEAT);;
      gl_call (glTexParameteri GL_TEXTURE_MIN_FILTER GL_LINEAR);;
      gl_call (glTexParameteri GL_TEXTURE_MAG_FILTER GL_LINEAR);;
      match (if decide (colorChannels img = 3) then Some (GL_RGB8, GL_RGB)
             else if decide (colorChannels img = 4) then Some (GL_RGBA8, GL_RGBA)
             else None) with
      | Some (internalformat, format) =>
          gl_call (glTexImage2D internalformat (width img) (height img) format);;
          gl_call glGenerateMipmap;;
          gl_call (glBindTexture 0);;
          w ← get;
          update_texture_at (m_loadedTextures (this w))
            (λ e, TEXTURE_INFO.mk textureID (TEXTURE_INFO.tag e));;
          update_texture_at (m_loadedTextures (this w))
            (λ e, TEXTURE_INFO.mk (TEXTURE_INFO.ID e) tag);;
          set_loadedTextures (m_loadedTextures (this w) + 1);;
          mret true
      | None => mret false
      end
  | None => mret false
  end.

(** [BindGLTextures()]. *)
Definition BindGLTextures : M unit :=
  w ← get;
  for_loop (Z.to_nat (m_loadedTextures (this w))) 0 (λ i,
    gl_call (glActiveTexture i);;
    e ← texture_at i;
    gl_call (glBindTexture (TEXTURE_INFO.ID e))).

(** [DestroyGLTextures()]: the loop body is
    [glGenTextures(1, &m_textureIDs[i].ID)]. *)
Definition DestroyGLTextures : M unit :=
  w ← get;
  for_loop (Z.to_nat (m_loadedTextures (this w))) 0 (λ i,
    name ← gl_gen_texture;
    update_texture_at i (λ e, TEXTURE_INFO.mk name (TEXTURE_INFO.tag e))).



Fixpoint FindTextureSlot_scan (tag : string) (n : nat) (index : Z) : M Z :=
  match n with
  | O => mret (-1)
  | S n' =>
      e ← texture_at index;
      if decide (TEXTURE_INFO.tag e = tag) then mret index
      else FindTextureSlot_scan tag n' (index + 1)
  end.

Definition FindTextureSlot (tag : string) : M Z :=
  w ← get;
  FindTextureSlot_scan tag (Z.to_nat (m_loadedTextures (this w))) 0.

(** The five assignments of [FindMaterial] on a match; the tag of the
    output structure is not assigned. *)
Definition assign_values (found material : OBJECT_MATERIAL.t) : OBJECT_MATERIAL.t :=
  OBJECT_MATERIAL.mk
    (OBJECT_MATERIAL.ambientColor found)
    (OBJECT_MATERIAL.ambientStrength found)
    (OBJECT_MATERIAL.diffuseColor found)
    (OBJECT_MATERIAL.specularColor found)
    (OBJECT_MATERIAL.shininess found)
    (OBJECT_MATERIAL.tag material).

(** The loop of [FindMaterial] over the materials from [index] on: the
    first match assigns and ends the loop, a mismatch moves on. *)
Fixpoint FindMaterial_scan (tag : string) (from_index : list OBJECT_MATERIAL.t)
    (material : OBJECT_MATERIAL.t) : OBJECT_MATERIAL.t :=
  match from_index with
  | [] => material
  | m :: rest =>
      if decide (OBJECT_MATERIAL.tag m = tag) then assign_values m material
      else FindMaterial_scan tag rest material
  end.

(** [FindMaterial(tag, material)]: the result and the output structure as
    the call leaves it. *)
Definition FindMaterial (tag : string) (material : OBJECT_MATERIAL.t)
  : M (bool * OBJECT_MATERIAL.t) :=
  w ← get;
  if decide (length (m_objectMaterials (this w)) = 0%nat) then
    mret (false, material)
  else
    mret (true, FindMaterial_scan tag (m_objectMaterials (this w)) material).

(** [SetTransformations(scaleXYZ, Xrot, Yrot, Zrot, positionXYZ)]. *)
Definition SetTransformations (scaleXYZ : vec3)
    (XrotationDegrees YrotationDegrees ZrotationDegrees : R)
    (positionXYZ : vec3) : M unit :=
  let scale := glm.scale scaleXYZ in
  let rotationX := glm.rotate (glm.radians XrotationDegrees) (Vec3 1 0 0) in
  let rotationY := glm.rotate (glm.radians YrotationDegrees) (Vec3 0 1 0) in
  let rotationZ := glm.rotate (glm.radians ZrotationDegrees) (Vec3 0 0 1) in
  let translation := glm.translate positionXYZ in
  let modelView :=
    glm.mul (glm.mul (glm.mul (glm.mul translation rotationX) rotationY)
                     rotationZ) scale in
  w ← get;
  if decide (NULL ≠ m_pShaderManager (this w)) then
    setMat4Value g_ModelName modelView
  else mret tt.

(** [SetShaderColor(r, g, b, a)]; [false] converts to the integer 0. *)
Definition SetShaderColor
    (redColorValue greenColorValue blueColorValue alphaValue : R) : M unit :=
  let currentColor :=
    Vec4 redColorValue greenColorValue blueColorValue alphaValue in
  w ← get;
  if decide (NULL ≠ m_pShaderManager (this w)) then
    setIntValue g_UseTextureName (Z.b2z false);;
    setVec4Value g_ColorValueName currentColor
  else mret tt.

(** [SetShaderTexture(textureTag)]; [true] converts to the integer 1. *)
Definition SetShaderTexture (textureTag : string) : M unit :=
  w ← get;
  if decide (NULL ≠ m_pShaderManager (this w)) then
    setIntValue g_UseTextureName (Z.b2z true);;
    textureID ← FindTextureSlot textureTag;
    setSampler2DValue g_TextureValueName textureID
  else mret tt.

(** [SetTextureUVScale(u, v)]. *)
Definition SetTextureUVScale (u v : R) : M unit :=
  w ← get;
  if decide (NULL ≠ m_pShaderManager (this w)) then
    setVec2Value "UVscale" (Vec2 u v)
  else mret tt.

(** The declaration [OBJECT_MATERIAL material;] without an initialiser:
    the string member is empty, the numeric members hold whatever the
    machine has there. *)
Definition local_material (w : Machine) : OBJECT_MATERIAL.t :=
  OBJECT_MATERIAL.mk
    (OBJECT_MATERIAL.ambientColor (indeterminate w))
    (OBJECT_MATERIAL.ambientStrength (indeterminate w))
    (OBJECT_MATERIAL.diffuseColor (indeterminate w))
    (OBJECT_MATERIAL.specularColor (indeterminate w))
    (OBJECT_MATERIAL.shininess (indeterminate w))
    "".

(** [SetShaderMaterial(materialTag)]. The local [material] starts with
    indeterminate values and an empty tag; the setters are called through
    [m_pShaderManager] without a null test. *)
Definition SetShaderMaterial (materialTag : string) : M unit :=
  w ← get;
  if decide (0 < length (m_objectMaterials (this w)))%nat then
    let material := local_material w in
    '(bReturn, material) ← FindMaterial materialTag material;
    if bReturn : bool then
      setVec3Value "material.ambientColor" (OBJECT_MATERIAL.ambientColor material);;
      setFloatValue "material.ambientStrength" (OBJECT_MATERIAL.ambientStrength material);;
      setVec3Value "material.diffuseColor" (OBJECT_MATERIAL.diffuseColor material);;
      setVec3Value "material.specularColor" (OBJECT_MATERIAL.specularColor material);;
      setFloatValue "material.shininess" (OBJECT_MATERIAL.shininess material)
    else (mret tt : M unit)
  else mret tt.

(** ** The scene *)

Local Open Scope R_scope.

(** [LoadSceneTextures()]: six loads, whose results are not inspected, then
    the binding of what was loaded. *)
Definition LoadSceneTextures : M unit :=
  CreateGLTexture "../../Utilities/textures/stainless.jpg" "stand";;
  CreateGLTexture "../../Utilities/textures/cheese_wheel.jpg" "mug";;
  CreateGLTexture "../../Utilities/textures/drywall.jpg" "screen";;
  CreateGLTexture "../../Utilities/textures/tilesf2.jpg" "handle";;
  CreateGLTexture "../../Utilities/textures/stainless_end.jpg" "base";;
  CreateGLTexture "../../Utilities/textures/knife_handle.jpg" "plane";;
  BindGLTextures.

Definition mugMaterial : OBJECT_MATERIAL.t :=
  OBJECT_MATERIAL.mk (Vec3 0.1 0.1 0.1) 0.2 (Vec3 0.5 0.5 0.5) (Vec3 0.1 0.1 0.1)
    0.3 "cheesy".
Definition screenMaterial : OBJECT_MATERIAL.t :=
  OBJECT_MATERIAL.mk (Vec3 0.4 0.4 0.4) 0.3 (Vec3 0.3 0.3 0.3) (Vec3 0.6 0.6 0.6)
    85 "glassy".
Definition standMaterial : OBJECT_MATERIAL.t :=
  OBJECT_MATERIAL.mk (Vec3 0.2 0.2 0.2) 0.3 (Vec3 0.2 0.2 0.2) (Vec3 0.5 0.5 0.5)
    22 "metal".
Definition baseMaterial : OBJECT_MATERIAL.t :=
  OBJECT_MATERIAL.mk (Vec3 0.2 0.2 0.2) 0.3 (Vec3 0.2 0.2 0.2) (Vec3 0.5 0.5 0.5)
    22 "shiny".
Definition woodMaterial : OBJECT_MATERIAL.t :=
  OBJECT_MATERIAL.mk (Vec3 0.1 0.1 0.1) 0.2 (Vec3 0.3 0.3 0.3) (Vec3 0.1 0.1 0.1)
    0.3 "wood".

(** [DefineObjectMaterials()]. *)
Definition DefineObjectMaterials : M unit :=
  push_back_material mugMaterial;;
  push_back_material screenMaterial;;
  push_back_material standMaterial;;
  push_back_material baseMaterial;;
  push_back_material woodMaterial.

(** [SetupSceneLights()]. *)
Definition SetupSceneLights : M unit :=
  w ← get;
  if decide (NULL ≠ m_pShaderManager (this w)) then
    setBoolValue g_UseLightingName true;;
    setVec3Value "lightSources[0].position" (Vec3 3 5 3);;
    setVec3Value "lightSources[0].ambientColor" (Vec3 0.6 0.6 0.9);;
    setVec3Value "lightSources[0].diffuseColor" (Vec3 0.4 0.4 1);;
    setVec3Value "lightSources[0].specularColor" (Vec3 1 1 1);;
    setFloatValue "lightSources[0].focalStrength" 32;;
    setFloatValue "lightSources[0].specularIntensity" 1;;
    setVec3Value "lightSources[1].position" (Vec3 3 5 (-5));;
    setVec3Value "lightSources[1].ambientColor" (Vec3 0.3 0.3 0.3);;
    setVec3Value "lightSources[1].diffuseColor" (Vec3 1 0.9 0.7);;
    setVec3Value "lightSources[1].specularColor" (Vec3 1 1 1);;
    setFloatValue "lightSources[1].focalStrength" 16;;
    setFloatValue "lightSources[1].specularIntensity" 0.8
  else mret tt.

(** The ten object routines. Each sets its transformation, then either a
    texture with material and UV scale or a flat colour, then draws. *)
Definition RenderPlane : M unit :=
  SetTransformations (Vec3 50 1 50) 0 0 0 (Vec3 0 (-1) 0);;
  SetShaderMaterial "wood";;
  SetShaderTexture "plane";;
  SetTextureUVScale 10 10;;
  draw PlaneMesh.

Definition RenderMugBody : M unit :=
  SetTransformations (Vec3 1 1.5 1) 180 0 0 (Vec3 3 0.5 3);;
  SetShaderTexture "mug";;
  SetShaderMaterial "glassy";;
  SetTextureUVScale 2.25 2.25;;
  draw TaperedCylinderMesh.

Definition RenderMugHandle : M unit :=
  SetTransformations (Vec3 0.5 0.4 0.5) 0 0 0 (Vec3 4 (-0.1) 3.25);;
  SetShaderTexture "handle";;
  SetShaderMaterial "glassy";;
  SetTextureUVScale 1 1;;
  draw TorusMesh.

Definition RenderMonitorScreen : M unit :=
  SetTransformations (Vec3 9 4 0.2) 0 0 0 (Vec3 0 3 0);;
  SetShaderTexture "screen";;
  SetShaderMaterial "glassy";;
  SetTextureUVScale 1 1;;
  draw BoxMesh.

Definition RenderMonitorStand : M unit :=
  SetTransformations (Vec3 1 0.5 1.5) 0 0 0 (Vec3 0 0.75 0);;
  SetShaderTexture "stand";;
  SetShaderMaterial "metal";;
  SetTextureUVScale 4 4;;
  draw BoxMesh.

Definition RenderMonitorBase : M unit :=
  SetTransformations (Vec3 1.25 0.2 2) 0 0 0 (Vec3 0 0.5 0);;
  SetShaderTexture "base";;
  SetShaderMaterial "metal";;
  SetTextureUVScale 5 5;;
  draw TaperedCylinderMesh.

Definition RenderBook1 : M unit :=
  SetTransformations (Vec3 2 0.5 3) 0 0 0 (Vec3 (-6) 0.5 1);;
  SetShaderColor 0.5 0.8 1 1;;
  draw BoxMesh.

Definition RenderBook2 : M unit :=
  SetTransformations (Vec3 2 0.5 3) 0 0 0 (Vec3 (-6) 1 1);;
  SetShaderColor 0.7 0.4 0.1 1;;
  draw BoxMesh.

Definition RenderKeyboard : M unit :=
  SetTransformations (Vec3 7 0.2 1) 0 0 0 (Vec3 0 0.2 2);;
  SetShaderColor 0.7 0.4 0.1 1;;
  draw BoxMesh.

Definition RenderMouse : M unit :=
  SetTransformations (Vec3 0.5 0.3 0.8) 0 0 0 (Vec3 (-3) (-0.5) 2.5);;
  SetShaderColor 0.7 0.4 0.1 1;;
  draw SphereMesh.

(** [RenderScene()]. *)
Definition RenderScene : M unit :=
  RenderPlane;;
  RenderMugBody;;
  RenderMugHandle;;
  RenderMonitorScreen;;
  RenderMonitorBase;;
  RenderMonitorStand;;
  RenderMouse;;
  RenderKeyboard;;
  RenderBook1;;
  RenderBook2.

Local Close Scope R_scope.

(** ** Preparing the scene *)

(** The object together with the meshes [m_basicMeshes] has loaded so far,
    in the order of the [Load...Mesh] calls. *)
Record Program := mkProgram {
  machine : Machine;
  m_basicMeshes : list Mesh }.

(** [PrepareScene()]: textures, lights, materials, then the six meshes. *)
Definition PrepareScene (p : Program) : outcome (unit * Program) :=
  match (LoadSceneTextures;; SetupSceneLights;; DefineObjectMaterials) (machine p) with
  | Done (_, w') =>
      Done (tt, mkProgram w'
                  (m_basicMeshes p
                   ++ [PlaneMesh; BoxMesh; CylinderMesh; TorusMesh;
                       TaperedCylinderMesh; SphereMesh]))
  | Undefined => Undefined
  end.

(** * Vocabulary of the properties *)

(** The class invariant of the texture registry: the counter lies within
    the array. *)
Definition registry_ok (o : SceneManager) : Prop :=
  0 ≤ m_loadedTextures o ≤ Z.of_nat (length (m_textureIDs o)).

(** A sequence of loads, one [CreateGLTexture] per (file name, tag) pair,
    with the result of each. *)
Fixpoint CreateGLTextures (loads : list (string * string)) : M (list bool) :=
  match loads with
  | [] => mret []
  | (filename, tag) :: rest =>
      b ← CreateGLTexture filename tag;
      bs ← CreateGLTextures rest;
      mret (b :: bs)
  end.

(** The tags of the loads that returned [true], in the order of the calls. *)
Fixpoint loaded_tags (loads : list (string * string)) (results : list bool)
  : list string :=
  match loads, results with
  | (_, tag) :: loads', true :: results' => tag :: loaded_tags loads' results'
  | _ :: loads', false :: results' => loaded_tags loads' results'
  | _, _ => []
  end.

(** A machine right after construction: nothing loaded, nothing written,
    nothing drawn. *)
Definition fresh_machine (pShaderManager : pointer)
    (files : gmap string stb_image) : Machine :=
  mkMachine (SceneManager_new pShaderManager) (mkShaderManager ∅ [])
    (mkOpenGL ∅ []) files []
    (OBJECT_MATERIAL.mk (Vec3 0 0 0) 0 (Vec3 0 0 0) (Vec3 0 0 0) 0 "").

(** A disk with one decodable three-channel image. *)
Definition mug_disk : gmap string stb_image :=
  {[ "mug.jpg" := mk_stb_image 64 64 3 ]}.

(** The transformations in their textbook form, on matrices (stored by
    columns) and on points. Angles are in radians. *)
Module textbook.

Local Open Scope R_scope.

Definition translation (t : vec3) : mat4 :=
  match t with
  | Vec3 tx ty tz =>
      Mat4 (Vec4 1 0 0 0) (Vec4 0 1 0 0) (Vec4 0 0 1 0) (Vec4 tx ty tz 1)
  end.

Definition rotationX (a : R) : mat4 :=
  Mat4 (Vec4 1 0 0 0) (Vec4 0 (cos a) (sin a) 0) (Vec4 0 (- sin a) (cos a) 0)
       (Vec4 0 0 0 1).

Definition rotationY (a : R) : mat4 :=
  Mat4 (Vec4 (cos a) 0 (- sin a) 0) (Vec4 0 1 0 0) (Vec4 (sin a) 0 (cos a) 0)
       (Vec4 0 0 0 1).

Definition rotationZ (a : R) : mat4 :=
  Mat4 (Vec4 (cos a) (sin a) 0 0) (Vec4 (- sin a) (cos a) 0 0) (Vec4 0 0 1 0)
       (Vec4 0 0 0 1).

Definition scaling (s : vec3) : mat4 :=
  match s with
  | Vec3 sx sy sz =>
      Mat4 (Vec4 sx 0 0 0) (Vec4 0 sy 0 0) (Vec4 0 0 sz 0) (Vec4 0 0 0 1)
  end.

(** Entry in row [i] of column [j]. *)
Definition entry (m : mat4) (i j : nat) : R := glm.at4 (glm.col m j) i.

(** The matrix product, row by column. *)
Definition row_by_column (a b : mat4) (i j : nat) : R :=
  entry a i 0 * entry b 0 j + entry a i 1 * entry b 1 j
  + entry a i 2 * entry b 2 j + entry a i 3 * entry b 3 j.

Definition product (a b : mat4) : mat4 :=
  let c := row_by_column a b in
  Mat4 (Vec4 (c 0 0) (c 1 0) (c 2 0) (c 3 0))%nat
       (Vec4 (c 0 1) (c 1 1) (c 2 1) (c 3 1))%nat
       (Vec4 (c 0 2) (c 1 2) (c 2 2) (c 3 2))%nat
       (Vec4 (c 0 3) (c 1 3) (c 2 3) (c 3 3))%nat.

(** A point in homogeneous coordinates. *)
Definition point (p : vec3) : vec4 :=
  match p with Vec3 x y z => Vec4 x y z 1 end.

Definition scale_point (s p : vec3) : vec3 :=
  match s, p with Vec3 sx sy sz, Vec3 x y z => Vec3 (sx * x) (sy * y) (sz * z) end.

Definition rotateX_point (a : R) (p : vec3) : vec3 :=
  match p with
  | Vec3 x y z => Vec3 x (y * cos a - z * sin a) (y * sin a + z * cos a)
  end.

Definition rotateY_point (a : R) (p : vec3) : vec3 :=
  match p with
  | Vec3 x y z => Vec3 (x * cos a + z * sin a) y (z * cos a - x * sin a)
  end.

Definition rotateZ_point (a : R) (p : vec3) : vec3 :=
  match p with
  | Vec3 x y z => Vec3 (x * cos a - y * sin a) (x * sin a + y * cos a) z
  end.

Definition translate_point (t p : vec3) : vec3 :=
  match t, p with Vec3 tx ty tz, Vec3 x y z => Vec3 (x + tx) (y + ty) (z + tz) end.

End textbook.

(** The model matrix in the words of the specification:
    translation · rotationX · rotationY · rotationZ · scale, the angles
    given in degrees. *)
Definition model_matrix (scaleXYZ : vec3) (xDegrees yDegrees zDegrees : R)
    (positionXYZ : vec3) : mat4 :=
  textbook.product (textbook.translation positionXYZ)
    (textbook.product (textbook.rotationX (xDegrees * PI / 180))
       (textbook.product (textbook.rotationY (yDegrees * PI / 180))
          (textbook.product (textbook.rotationZ (zDegrees * PI / 180))
             (textbook.scaling scaleXYZ)))).

(** The conditions under which a frame can be rendered without leaving
    defined behaviour: the texture counter lies within the array, and a
    shader manager is attached unless no material is defined
    ([SetShaderMaterial] calls through the pointer unguarded). *)
Definition can_render (o : SceneManager) : Prop :=
  registry_ok o ∧ (m_pShaderManager o ≠ NULL ∨ m_objectMaterials o = []).

(** The ten objects of the scene, with the mesh each routine draws and the
    transformation it sets. *)
Inductive SceneObject :=
| Plane | MugBody | MugHandle | MonitorScreen | MonitorBase | MonitorStand
| Mouse | Keyboard | Book1 | Book2.

#[global] Instance SceneObject_eq_dec : EqDecision SceneObject.
Proof. solve_decision. Defined.

Definition routine (o : SceneObject) : M unit :=
  match o with
  | Plane => RenderPlane
  | MugBody => RenderMugBody
  | MugHandle => RenderMugHandle
  | MonitorScreen => RenderMonitorScreen
  | MonitorBase => RenderMonitorBase
  | MonitorStand => RenderMonitorStand
  | Mouse => RenderMouse
  | Keyboard => RenderKeyboard
  | Book1 => RenderBook1
  | Book2 => RenderBook2
  end.

Definition object_mesh (o : SceneObject) : Mesh :=
  match o with
  | Plane => PlaneMesh
  | MugBody => TaperedCylinderMesh
  | MugHandle => TorusMesh
  | MonitorScreen => BoxMesh
  | MonitorBase => TaperedCylinderMesh
  | MonitorStand => BoxMesh
  | Mouse => SphereMesh
  | Keyboard => BoxMesh
  | Book1 => BoxMesh
  | Book2 => BoxMesh
  end.

Definition object_position (o : SceneObject) : vec3 :=
  match o with
  | Plane => Vec3 0 (-1) 0
  | MugBody => Vec3 3 0.5 3
  | MugHandle => Vec3 4 (-0.1) 3.25
  | MonitorScreen => Vec3 0 3 0
  | MonitorBase => Vec3 0 0.5 0
  | MonitorStand => Vec3 0 0.75 0
  | Mouse => Vec3 (-3) (-0.5) 2.5
  | Keyboard => Vec3 0 0.2 2
  | Book1 => Vec3 (-6) 0.5 1
  | Book2 => Vec3 (-6) 1 1
  end%R.

Definition object_scale (o : SceneObject) : vec3 :=
  match o with
  | Plane => Vec3 50 1 50
  | MugBody => Vec3 1 1.5 1
  | MugHandle => Vec3 0.5 0.4 0.5
  | MonitorScreen => Vec3 9 4 0.2
  | MonitorBase => Vec3 1.25 0.2 2
  | MonitorStand => Vec3 1 0.5 1.5
  | Mouse => Vec3 0.5 0.3 0.8
  | Keyboard => Vec3 7 0.2 1
  | Book1 => Vec3 2 0.5 3
  | Book2 => Vec3 2 0.5 3
  end%R.

Definition object_Xrotation (o : SceneObject) : R :=
  match o with MugBody => 180 | _ => 0 end%R.

Definition object_model (o : SceneObject) : mat4 :=
  model_matrix (object_scale o) (object_Xrotation o) 0 0 (object_position o).

(** The order in which [RenderScene] calls the routines: plane, mug body,
    mug handle, monitor screen, monitor base, monitor stand, mouse,
    keyboard, book 1, book 2. *)
Definition render_order : list SceneObject :=
  [Plane; MugBody; MugHandle; MonitorScreen; MonitorBase; MonitorStand;
   Mouse; Keyboard; Book1; Book2].




(** Routines run one after the other. *)
Fixpoint in_sequence (rs : list (M unit)) : M unit :=
  match rs with
  | [] => mret tt
  | [r] => r
  | r :: rs' => r ;; in_sequence rs'
  end.

(** ** Concrete machines *)

(** The machine a method leaves behind. *)
Definition after {A} (m : M A) (w : Machine) : Machine :=
  match m w with
  | Done (_, w') => w'
  | Undefined => w
  end.

(** A disk with a three-channel image, a four-channel image and a
    single-channel image. *)
Definition demo_disk : gmap string stb_image :=
  {[ "plane.jpg" := mk_stb_image 256 256 3;
     "mug.png" := mk_stb_image 128 128 4;
     "gray.png" := mk_stb_image 32 32 1 ]}.

(** Four loads: two succeed, one meets an unsupported channel count, one a
    file that cannot be decoded. *)
Definition demo_loads : list (string * string) :=
  [("plane.jpg", "plane"); ("gray.png", "gray"); ("missing.jpg", "missing");
   ("mug.png", "mug")].

(** A machine with a shader manager attached, after the four loads and the
    definition of the five materials of the scene. *)
Definition demo_machine : Machine :=
  after DefineObjectMaterials
    (after (CreateGLTextures demo_loads) (fresh_machine shader_manager demo_disk)).

(** Two materials registered under the same tag. *)
Definition twice_glassy : Machine :=
  after (push_back_material woodMaterial;;
         push_back_material screenMaterial;;
         push_back_material
           (OBJECT_MATERIAL.mk (Vec3 1 1 1) 1 (Vec3 1 1 1) (Vec3 1 1 1) 1 "glassy"))
    (fresh_machine shader_manager ∅).

(** ** Sequences of setter calls *)

(** The machine after the shader manager has received the setter calls
    [ws], in order. *)
Definition publish (ws : list (string * UniformValue)) (w : Machine) : Machine :=
  foldl (λ w' nv, with_shader (set_uniform nv.1 nv.2) w') w ws.

(** The value of the last call in [ws] that names the uniform [k]. *)
Fixpoint last_write (k : string) (ws : list (string * UniformValue))
  : option UniformValue :=
  match ws with
  | [] => None
  | (n, v) :: ws' =>
      match last_write k ws' with
      | Some v' => Some v'
      | None => if decide (n = k) then Some v else None
      end
  end.

(** The five setter calls of [SetShaderMaterial] for the values [m]. *)
Definition material_writes (m : OBJECT_MATERIAL.t) : list (string * UniformValue) :=
  [("material.ambientColor", UVec3 (OBJECT_MATERIAL.ambientColor m));
   ("material.ambientStrength", UFloat (OBJECT_MATERIAL.ambientStrength m));
   ("material.diffuseColor", UVec3 (OBJECT_MATERIAL.diffuseColor m));
   ("material.specularColor", UVec3 (OBJECT_MATERIAL.specularColor m));
   ("material.shininess", UFloat (OBJECT_MATERIAL.shininess m))].

(** A step that runs to completion on [w], leaves everything but the
    shader manager alone, and leaves every uniform outside [names] at the
    value it had. *)
Definition touches_only (step : M unit) (names : list string) (w : Machine) : Prop :=
  ∃ w',
    step w = Done (tt, w')
    ∧ this w' = this w
    ∧ gl w' = gl w
    ∧ disk w' = disk w
    ∧ drawn w' = drawn w
    ∧ ∀ k, k ∉ names → uniforms (shader w') !! k = uniforms (shader w) !! k.

(** ** OpenGL traces *)

(** The calls by which [CreateGLTexture] creates and configures the texture
    [id], and those by which it uploads the image and lets go of the
    texture. *)
Definition setup_calls (id : Z) : list GLCall :=
  [glGenTextures id; glBindTexture id;
   glTexParameteri GL_TEXTURE_WRAP_S GL_REPEAT;
   glTexParameteri GL_TEXTURE_WRAP_T GL_REPEAT;
   glTexParameteri GL_TEXTURE_MIN_FILTER GL_LINEAR;
   glTexParameteri GL_TEXTURE_MAG_FILTER GL_LINEAR].

Definition upload_calls (img : stb_image) (formats : GLenum * GLenum) : list GLCall :=
  [glTexImage2D formats.1 (width img) (height img) formats.2;
   glGenerateMipmap; glBindTexture 0].

(** The formats for a channel count, if it is supported. *)
Definition texture_formats (channels : Z) : option (GLenum * GLenum) :=
  if decide (channels = 3) then Some (GL_RGB8, GL_RGB)
  else if decide (channels = 4) then Some (GL_RGBA8, GL_RGBA)
  else None.

(** OpenGL after a texture name has been generated and [calls] recorded. *)
Definition gl_after (calls : list GLCall) (g : OpenGL) : OpenGL :=
  mkOpenGL ({[fresh (texture_names g)]} ∪ texture_names g) (gl_calls g ++ calls).

(** The calls of [BindGLTextures] for the cells [entries], the first of
    them going to texture unit [unit]. *)
Fixpoint bind_calls (entries : list TEXTURE_INFO.t) (unit : Z) : list GLCall :=
  match entries with
  | [] => []
  | e :: rest =>
      glActiveTexture unit :: glBindTexture (TEXTURE_INFO.ID e)
      :: bind_calls rest (unit + 1)
  end.

(** The registered cells: the first [m_loadedTextures] cells of the array. *)
Definition registered (o : SceneManager) : list TEXTURE_INFO.t :=
  take (Z.to_nat (m_loadedTextures o)) (m_textureIDs o).

(** ** Pure views of the two lookups *)

(** The index of the first of [entries] carrying [tag], counting from
    [index], or -1. *)
Fixpoint find_slot (tag : string) (entries : list TEXTURE_INFO.t) (index : Z) : Z :=
  match entries with
  | [] => -1
  | e :: rest =>
      if decide (TEXTURE_INFO.tag e = tag) then index
      else find_slot tag rest (index + 1)
  end.

Definition slot_of (o : SceneManager) (tag : string) : Z :=
  find_slot tag (registered o) 0.

(** What [SetShaderMaterial] hands to the setters for [tag] when at least
    one material is defined: the first match, or the uninitialised local. *)
Definition material_of (w : Machine) (tag : string) : OBJECT_MATERIAL.t :=
  FindMaterial_scan tag (m_objectMaterials (this w)) (local_material w).

(** The files and tags of [LoadSceneTextures], in the order of the calls. *)
Definition scene_loads : list (string * string) :=
  [("../../Utilities/textures/stainless.jpg", "stand");
   ("../../Utilities/textures/cheese_wheel.jpg", "mug");
   ("../../Utilities/textures/drywall.jpg", "screen");
   ("../../Utilities/textures/tilesf2.jpg", "handle");
   ("../../Utilities/textures/stainless_end.jpg", "base");
   ("../../Utilities/textures/knife_handle.jpg", "plane")].

(** The materials of [DefineObjectMaterials], in the order of the
    [push_back] calls. *)
Definition scene_materials : list OBJECT_MATERIAL.t :=
  [mugMaterial; screenMaterial; standMaterial; baseMaterial; woodMaterial].

(** ** The setter calls of the object routines *)

Definition texture_writes (w : Machine) (tag : string) : list (string * UniformValue) :=
  [(g_UseTextureName, UInt 1);
   (g_TextureValueName, USampler2D (slot_of (this w) tag))].

Definition material_part (w : Machine) (tag : string) : list (string * UniformValue) :=
  match m_objectMaterials (this w) with
  | [] => []
  | _ => material_writes (material_of w tag)
  end.

Definition uv_writes (u v : R) : list (string * UniformValue) :=
  [("UVscale", UVec2 (Vec2 u v))].

Definition color_writes (r g b a : R) : list (string * UniformValue) :=
  [(g_UseTextureName, UInt 0); (g_ColorValueName, UVec4 (Vec4 r g b a))].

(** The setter calls an object routine makes through an attached shader
    manager, in order. *)
Definition routine_writes (o : SceneObject) (w : Machine)
  : list (string * UniformValue) :=
  (g_ModelName, UMat4 (object_model o))
  :: match o with
     | Plane =>
         material_part w "wood" ++ texture_writes w "plane" ++ uv_writes 10 10
     | MugBody =>
         texture_writes w "mug" ++ material_part w "glassy" ++ uv_writes 2.25 2.25
     | MugHandle =>
         texture_writes w "handle" ++ material_part w "glassy" ++ uv_writes 1 1
     | MonitorScreen =>
         texture_writes w "screen" ++ material_part w "glassy" ++ uv_writes 1 1
     | MonitorBase =>
         texture_writes w "base" ++ material_part w "metal" ++ uv_writes 5 5
     | MonitorStand =>
         texture_writes w "stand" ++ material_part w "metal" ++ uv_writes 4 4
     | Mouse => color_writes 0.7 0.4 0.1 1
     | Keyboard => color_writes 0.7 0.4 0.1 1
     | Book1 => color_writes 0.5 0.8 1 1
     | Book2 => color_writes 0.7 0.4 0.1 1
     end.

(** The draw an object routine ends with, and the machine it leaves. *)
Definition routine_frame (o : SceneObject) (w : Machine) : DrawCall :=
  mkDrawCall (object_mesh o) (uniforms (shader (publish (routine_writes o w) w))).

Definition after_routine (o : SceneObject) (w : Machine) : Machine :=
  with_drawn (λ d, d ++ [routine_frame o w]) (publish (routine_writes o w) w).

(** The setter calls of the first [n] routines of a frame, and of a whole
    frame. *)
Definition frame_writes (n : nat) (w : Machine) : list (string * UniformValue) :=
  concat ((λ o, routine_writes o w) <$> take n render_order).

(** A step that makes the setter calls [ws] and nothing else. *)
Definition runs_as (step : M unit) (ws : list (string * UniformValue))
    (w : Machine) : Prop :=
  step w = Done (tt, publish ws w).

(** Steps that make the setter calls [ws] and end with one draw of [m]. *)
Definition draws_as (rest : M unit) (ws : list (string * UniformValue))
    (m : Mesh) (w : Machine) : Prop :=
  rest w
  = Done (tt, with_drawn
                (λ d, d ++ [mkDrawCall m (uniforms (shader (publish ws w)))])
                (publish ws w)).

(** The draws of one frame: the [n]-th observes the uniforms after the
    setter calls of the routines up to and including its own. *)
Definition scene_frames (w : Machine) : list DrawCall :=
  imap (λ n o, mkDrawCall (object_mesh o)
                 (uniforms (shader (publish (frame_writes (S n) w) w))))
    render_order.

(** What an object routine sets up before it draws: a texture tag, a
    material tag and a UV scale, or a flat colour. *)
Definition object_look (o : SceneObject) : (string * string * vec2) + vec4 :=
  match o with
  | Plane => inl ("plane", "wood", Vec2 10 10)
  | MugBody => inl ("mug", "glassy", Vec2 2.25 2.25)
  | MugHandle => inl ("handle", "glassy", Vec2 1 1)
  | MonitorScreen => inl ("screen", "glassy", Vec2 1 1)
  | MonitorBase => inl ("base", "metal", Vec2 5 5)
  | MonitorStand => inl ("stand", "metal", Vec2 4 4)
  | Mouse => inr (Vec4 0.7 0.4 0.1 1)
  | Keyboard => inr (Vec4 0.7 0.4 0.1 1)
  | Book1 => inr (Vec4 0.5 0.8 1 1)
  | Book2 => inr (Vec4 0.7 0.4 0.1 1)
  end%R.

(** The uniforms a frame can write. *)
Definition frame_uniforms : list string :=
  [g_ModelName; g_UseTextureName; g_TextureValueName; g_ColorValueName;
   "UVscale"; "material.ambientColor"; "material.ambientStrength";
   "material.diffuseColor"; "material.specularColor"; "material.shininess"].

#[global] Instance Mesh_eq_dec : EqDecision Mesh.
Proof. solve_decision. Defined.

(** The setter calls of [SetupSceneLights] through an attached shader
    manager. *)
Definition light_writes : list (string * UniformValue) :=
  [(g_UseLightingName, UBool true);
   ("lightSources[0].position", UVec3 (Vec3 3 5 3));
   ("lightSources[0].ambientColor", UVec3 (Vec3 0.6 0.6 0.9));
   ("lightSources[0].diffuseColor", UVec3 (Vec3 0.4 0.4 1));
   ("lightSources[0].specularColor", UVec3 (Vec3 1 1 1));
   ("lightSources[0].focalStrength", UFloat 32);
   ("lightSources[0].specularIntensity", UFloat 1);
   ("lightSources[1].position", UVec3 (Vec3 3 5 (-5)));
   ("lightSources[1].ambientColor", UVec3 (Vec3 0.3 0.3 0.3));
   ("lightSources[1].diffuseColor", UVec3 (Vec3 1 0.9 0.7));
   ("lightSources[1].specularColor", UVec3 (Vec3 1 1 1));
   ("lightSources[1].focalStrength", UFloat 16);
   ("lightSources[1].specularIntensity", UFloat 0.8)]%R.

(** ** Further concrete machines *)

(** A machine without a shader manager on which the materials of the scene
    have been defined. *)
Definition unattached_machine : Machine :=
  after DefineObjectMaterials (fresh_machine NULL ∅).

(** A machine whose texture array is full: sixteen loads of one file. *)
Definition full_machine : Machine :=
  after (CreateGLTextures (replicate 16 ("mug.jpg", "mug")))
    (fresh_machine shader_manager mug_disk).

(** A disk holding the six texture files of the scene, each a three-channel
    image, and the program right after construction on that disk. *)
Definition scene_disk : gmap string stb_image :=
  list_to_map ((λ load, (load.1, mk_stb_image 512 512 3)) <$> scene_loads).

Definition scene_program : Program :=
  mkProgram (fresh_machine shader_manager scene_disk) [].

(** Evaluation of the side conditions at the concrete machines. *)
Ltac registry_ok_by_evaluation := unfold registry_ok; vm_compute; by split.

Ltac attached_by_evaluation := vm_compute; discriminate.

Ltac scene_files_by_evaluation :=
  let f := fresh "f" in
  let t := fresh "t" in
  let Hin := fresh "Hin" in
  intros f t Hin; unfold scene_loads in Hin;
  repeat (apply elem_of_cons in Hin; destruct Hin as [[= -> ->]|Hin];
          [exists (mk_stb_image 512 512 3); split; [reflexivity|by left]|]);
  by apply elem_of_nil in Hin.

Ltac no_material_by_evaluation :=
  let m0 := fresh "m0" in
  let Hin := fresh "Hin" in
  intros m0 Hin; by apply elem_of_nil in Hin.

(** * Properties *)

(** ** Running monadic code *)

Lemma bind_run {A B} (m : M A) (f : A → M B) (w : Machine) :
  (m ≫= f) w = match m w with Done (a, w') => f a w' | Undefined => Undefined end.
Proof. reflexivity. Qed.

Lemma ret_run {A} (a : A) (w : Machine) : (mret a : M A) w = Done (a, w).
Proof. reflexivity. Qed.

Lemma bind_Done {A B} (m : M A) (f : A → M B) (w w' : Machine) (a : A) :
  m w = Done (a, w') → (m ≫= f) w = f a w'.
Proof. intros H. rewrite bind_run, H. reflexivity. Qed.

Lemma bind_Undefined {A B} (m : M A) (f : A → M B) (w : Machine) :
  m w = Undefined → (m ≫= f) w = Undefined.
Proof. intros H. rewrite bind_run, H. reflexivity. Qed.

Lemma call_shader_Done (name : string) (v : UniformValue) (w : Machine) :
  m_pShaderManager (this w) ≠ NULL →
  call_shader name v w = Done (tt, with_shader (set_uniform name v) w).
Proof. unfold call_shader. destruct (m_pShaderManager (this w)); congruence. Qed.

(** ** The material registry *)

Lemma FindMaterial_scan_miss (tag : string) (l : list OBJECT_MATERIAL.t)
    (material : OBJECT_MATERIAL.t) :
  (∀ m, m ∈ l → OBJECT_MATERIAL.tag m ≠ tag) →
  FindMaterial_scan tag l material = material.
Proof.
  induction l as [|m l IH]; intros Hmiss; simpl; [done|].
  destruct (decide (OBJECT_MATERIAL.tag m = tag)) as [Heq|_].
  - exfalso. apply (Hmiss m); [left | exact Heq].
  - apply IH. intros m' Hm'. apply Hmiss. by right.
Qed.

Lemma FindMaterial_scan_first (tag : string) (before after : list OBJECT_MATERIAL.t)
    (found material : OBJECT_MATERIAL.t) :
  (∀ m, m ∈ before → OBJECT_MATERIAL.tag m ≠ tag) →
  OBJECT_MATERIAL.tag found = tag →
  FindMaterial_scan tag (before ++ found :: after) material
  = assign_values found material.
Proof.
  induction before as [|m l IH]; intros Hmiss Hfound; simpl.
  - by rewrite decide_True.
  - rewrite decide_False.
    + apply IH; [|done]. intros m' Hm'. apply Hmiss. by right.
    + apply Hmiss. left.
Qed.

(** C2. On a registry that is not empty, looking up a tag that no
    registered material carries returns [true] and hands the caller's
    output structure back exactly as it came in; the machine is left as it
    was. *)
Theorem FindMaterial_miss_reports_success (w : Machine) (tag : string)
    (material : OBJECT_MATERIAL.t) :
  m_objectMaterials (this w) ≠ [] →
  (∀ m, m ∈ m_objectMaterials (this w) → OBJECT_MATERIAL.tag m ≠ tag) →
  FindMaterial tag material w = Done ((true, material), w).
Proof.
  intros Hne Hmiss. unfold FindMaterial. rewrite bind_run. simpl.
  destruct (m_objectMaterials (this w)) as [|m l] eqn:E; [done|].
  rewrite decide_False by (simpl; lia).
  by rewrite FindMaterial_scan_miss.
Qed.

(** C6. On an empty registry the lookup returns [false]. On a registry in
    which the tag occurs, it returns [true] and the output structure carries
    the ambient colour, ambient strength, diffuse colour, specular colour
    and shininess of the first entry with that tag in registration order,
    whatever comes after it. *)
Theorem FindMaterial_empty_fails_first_match_wins (w : Machine) (tag : string)
    (material : OBJECT_MATERIAL.t) :
  (m_objectMaterials (this w) = [] →
   FindMaterial tag material w = Done ((false, material), w))
  ∧ (∀ before found after,
       m_objectMaterials (this w) = before ++ found :: after →
       (∀ m, m ∈ before → OBJECT_MATERIAL.tag m ≠ tag) →
       OBJECT_MATERIAL.tag found = tag →
       ∃ out,
         FindMaterial tag material w = Done ((true, out), w)
         ∧ OBJECT_MATERIAL.ambientColor out = OBJECT_MATERIAL.ambientColor found
         ∧ OBJECT_MATERIAL.ambientStrength out = OBJECT_MATERIAL.ambientStrength found
         ∧ OBJECT_MATERIAL.diffuseColor out = OBJECT_MATERIAL.diffuseColor found
         ∧ OBJECT_MATERIAL.specularColor out = OBJECT_MATERIAL.specularColor found
         ∧ OBJECT_MATERIAL.shininess out = OBJECT_MATERIAL.shininess found).
Proof.
  split.
  - intros Hempty. unfold FindMaterial. rewrite bind_run. simpl.
    by rewrite Hempty.
  - intros before found after Hsplit Hmiss Hfound.
    exists (assign_values found material). split; [|done].
    unfold FindMaterial. rewrite bind_run. simpl. rewrite Hsplit.
    rewrite decide_False by (rewrite length_app; simpl; lia).
    by rewrite FindMaterial_scan_first.
Qed.

(** C7. With no material defined, [SetShaderMaterial] leaves the whole
    machine as it was, for every tag and whether or not a shader manager is
    attached: the machine after the call is the machine before it, so no
    setter is called and no uniform changes. *)
Theorem SetShaderMaterial_without_materials_is_noop (w : Machine) (materialTag : string) :
  m_objectMaterials (this w) = [] →
  SetShaderMaterial materialTag w = Done (tt, w).
Proof.
  intros Hempty. unfold SetShaderMaterial. rewrite bind_run. simpl.
  by rewrite Hempty.
Qed.

(** C10. With a null shader manager, [SetTransformations],
    [SetShaderColor], [SetShaderTexture] and [SetTextureUVScale] return
    without touching anything, for all arguments: the machine after the call
    is the machine before it, so the uniforms and the setter trace are
    unchanged. *)
Theorem null_shader_manager_no_write (w : Machine)
    (scaleXYZ positionXYZ : vec3) (rx ry rz r g b a u v : R) (tag : string) :
  m_pShaderManager (this w) = NULL →
  SetTransformations scaleXYZ rx ry rz positionXYZ w = Done (tt, w)
  ∧ SetShaderColor r g b a w = Done (tt, w)
  ∧ SetShaderTexture tag w = Done (tt, w)
  ∧ SetTextureUVScale u v w = Done (tt, w).
Proof.
  intros Hnull.
  unfold SetTransformations, SetShaderColor, SetShaderTexture, SetTextureUVScale.
  rewrite !bind_run. simpl. rewrite Hnull.
  by rewrite decide_False by (intros H; by apply H).
Qed.

(** ** The texture registry *)

Lemma texture_at_Done (w : Machine) (index : Z) (e : TEXTURE_INFO.t) :
  0 ≤ index →
  m_textureIDs (this w) !! Z.to_nat index = Some e →
  texture_at index w = Done (e, w).
Proof.
  intros Hpos Hcell. unfold texture_at.
  rewrite decide_True by done. by rewrite Hcell.
Qed.

Lemma texture_at_inv (w w' : Machine) (index : Z) (e : TEXTURE_INFO.t) :
  texture_at index w = Done (e, w') →
  w' = w ∧ 0 ≤ index ∧ m_textureIDs (this w) !! Z.to_nat index = Some e.
Proof.
  unfold texture_at. destruct (decide (0 ≤ index)); [|done].
  destruct (m_textureIDs (this w) !! Z.to_nat index) eqn:E; [|done].
  intros ?; by simplify_eq.
Qed.

(** The scan over cells [index .. index + n - 1], all inside the array,
    answers with the first cell carrying the tag, or with -1. *)
Lemma FindTextureSlot_scan_first (tag : string) (w : Machine) (n : nat) (index : Z) :
  0 ≤ index →
  index + Z.of_nat n ≤ Z.of_nat (length (m_textureIDs (this w))) →
  ∃ slot,
    FindTextureSlot_scan tag n index w = Done (slot, w)
    ∧ ((slot = -1
        ∧ ∀ j e, index ≤ j < index + Z.of_nat n →
                 m_textureIDs (this w) !! Z.to_nat j = Some e →
                 TEXTURE_INFO.tag e ≠ tag)
       ∨ (index ≤ slot < index + Z.of_nat n
          ∧ (∃ e, m_textureIDs (this w) !! Z.to_nat slot = Some e
                  ∧ TEXTURE_INFO.tag e = tag)
          ∧ ∀ j e, index ≤ j < slot →
                   m_textureIDs (this w) !! Z.to_nat j = Some e →
                   TEXTURE_INFO.tag e ≠ tag)).
Proof.
  revert index. induction n as [|n IH]; intros index Hpos Hfit.
  - exists (-1). split; [done|]. left. split; [done|]. intros; lia.
  - destruct (lookup_lt_is_Some_2 (m_textureIDs (this w)) (Z.to_nat index))
      as [e He]; [lia|].
    cbn [FindTextureSlot_scan]. rewrite (bind_Done _ _ w w e)
      by (by apply texture_at_Done).
    destruct (decide (TEXTURE_INFO.tag e = tag)) as [Heq|Hne].
    + exists index. split; [done|]. right.
      split; [lia|]. split; [by exists e|]. intros; lia.
    + destruct (IH (index + 1)) as (slot & Hrun & Hslot); [lia|lia|].
      exists slot. split; [exact Hrun|].
      destruct Hslot as [[-> Hnone]|(Hrange & Hhit & Hfirst)].
      * left. split; [done|]. intros j e' Hj Hcell.
        destruct (decide (j = index)) as [->|]; [by simplify_eq|].
        apply (Hnone j); [lia|done].
      * right. split; [lia|]. split; [done|]. intros j e' Hj Hcell.
        destruct (decide (j = index)) as [->|]; [by simplify_eq|].
        apply (Hfirst j); [lia|done].
Qed.

Lemma FindTextureSlot_Done (tag : string) (w : Machine) :
  registry_ok (this w) →
  ∃ slot, FindTextureSlot tag w = Done (slot, w).
Proof.
  intros [Hlo Hhi].
  destruct (FindTextureSlot_scan_first tag w
              (Z.to_nat (m_loadedTextures (this w))) 0) as (slot & Hrun & _);
    [lia|lia|].
  exists slot. unfold FindTextureSlot. by rewrite bind_run.
Qed.

(** The scan reads nothing but the members of the class. *)
Lemma FindTextureSlot_scan_this (tag : string) (w1 w2 : Machine) (n : nat)
    (index slot : Z) :
  this w1 = this w2 →
  FindTextureSlot_scan tag n index w1 = Done (slot, w1) →
  FindTextureSlot_scan tag n index w2 = Done (slot, w2).
Proof.
  intros Hthis. revert index. induction n as [|n IH]; intros index.
  - intros [= <-]. reflexivity.
  - cbn [FindTextureSlot_scan]. rewrite !bind_run.
    destruct (texture_at index w1) as [[e w1']|] eqn:E1; [|done].
    apply texture_at_inv in E1 as (-> & Hpos & Hcell).
    rewrite (texture_at_Done w2 index e) by (by rewrite <- ?Hthis).
    destruct (decide (TEXTURE_INFO.tag e = tag)).
    + intros [= <-]. reflexivity.
    + apply IH.
Qed.

Lemma FindTextureSlot_this (tag : string) (w1 w2 : Machine) (slot : Z) :
  this w1 = this w2 →
  FindTextureSlot tag w1 = Done (slot, w1) →
  FindTextureSlot tag w2 = Done (slot, w2).
Proof.
  intros Hthis. unfold FindTextureSlot. rewrite !bind_run. cbn.
  rewrite <- Hthis. by apply FindTextureSlot_scan_this.
Qed.

(** ** The setters on an attached shader manager *)

Lemma not_NULL_decide (w : Machine) {A} (x y : A) :
  m_pShaderManager (this w) ≠ NULL →
  (if decide (NULL ≠ m_pShaderManager (this w)) then x else y) = x.
Proof. intros H. by rewrite decide_True. Qed.

Lemma SetShaderColor_Done (w : Machine) (r g b a : R) :
  m_pShaderManager (this w) ≠ NULL →
  SetShaderColor r g b a w
  = Done (tt, with_shader (set_uniform g_ColorValueName (UVec4 (Vec4 r g b a)))
                (with_shader (set_uniform g_UseTextureName (UInt 0)) w)).
Proof.
  intros Hptr. unfold SetShaderColor. rewrite bind_run. cbn [get].
  rewrite not_NULL_decide by done.
  unfold setIntValue, setVec4Value.
  rewrite (bind_Done _ _ _ _ _ (call_shader_Done _ _ w Hptr)).
  by rewrite call_shader_Done.
Qed.

Lemma SetShaderTexture_Done (w : Machine) (tag : string) (slot : Z) :
  m_pShaderManager (this w) ≠ NULL →
  FindTextureSlot tag w = Done (slot, w) →
  SetShaderTexture tag w
  = Done (tt, with_shader (set_uniform g_TextureValueName (USampler2D slot))
                (with_shader (set_uniform g_UseTextureName (UInt 1)) w)).
Proof.
  intros Hptr Hslot. unfold SetShaderTexture. rewrite bind_run. cbn [get].
  rewrite not_NULL_decide by done.
  unfold setIntValue, setSampler2DValue.
  rewrite (bind_Done _ _ _ _ _ (call_shader_Done _ _ w Hptr)).
  erewrite bind_Done; last by (eapply FindTextureSlot_this; [|exact Hslot]).
  by rewrite call_shader_Done.
Qed.

(** C1. With a shader manager attached and whatever the uniforms held
    before, [SetShaderColor] followed by [SetShaderTexture] ends with the
    uniform "bUseTexture" at 1 (true). The setter trace grows by exactly
    four calls: the flag at 0 and the colour, written by [SetShaderColor],
    then the flag at 1 and the sampler slot, written by [SetShaderTexture];
    the later write of the flag replaces the earlier one. *)
Theorem SetShaderColor_then_SetShaderTexture_uses_texture (w : Machine)
    (r g b a : R) (tag : string) :
  m_pShaderManager (this w) ≠ NULL →
  registry_ok (this w) →
  ∃ w' slot,
    (SetShaderColor r g b a ;; SetShaderTexture tag) w = Done (tt, w')
    ∧ uniforms (shader w') !! g_UseTextureName = Some (UInt 1)
    ∧ writes (shader w')
      = writes (shader w)
        ++ [(g_UseTextureName, UInt 0);
            (g_ColorValueName, UVec4 (Vec4 r g b a));
            (g_UseTextureName, UInt 1);
            (g_TextureValueName, USampler2D slot)].
Proof.
  intros Hptr Hok.
  destruct (FindTextureSlot_Done tag w Hok) as [slot Hslot].
  eexists _, slot. split; [|split].
  - rewrite (bind_Done _ _ _ _ _ (SetShaderColor_Done w r g b a Hptr)).
    apply SetShaderTexture_Done; [done|].
    by eapply FindTextureSlot_this; [|exact Hslot].
  - cbn. rewrite lookup_insert_ne by done. by rewrite lookup_insert_eq.
  - cbn. by rewrite <- !app_assoc.
Qed.

(** ** Loading textures *)

Lemma update_texture_at_inv (w w' : Machine) (index : Z)
    (f : TEXTURE_INFO.t → TEXTURE_INFO.t) :
  update_texture_at index f w = Done (tt, w') →
  0 ≤ index
  ∧ ∃ e, m_textureIDs (this w) !! Z.to_nat index = Some e
         ∧ w' = with_this (λ o, mkSceneManager (m_pShaderManager o)
                                  (<[Z.to_nat index := f e]> (m_textureIDs o))
                                  (m_loadedTextures o) (m_objectMaterials o)) w.
Proof.
  unfold update_texture_at. rewrite bind_run.
  destruct (texture_at index w) as [[e w0]|] eqn:E; [|done].
  apply texture_at_inv in E as (-> & Hpos & Hcell).
  intros [= <-]. split; [done|]. by exists e.
Qed.

(** What one load does to the members of the class: a load that returns
    [false] leaves them alone; a load that returns [true] fills the cell at
    the counter, which lies inside the array, and advances the counter. *)
Lemma CreateGLTexture_inv (w w' : Machine) (filename tag : string) (b : bool) :
  CreateGLTexture filename tag w = Done (b, w') →
  (b = false ∧ this w' = this w)
  ∨ (b = true
     ∧ 0 ≤ m_loadedTextures (this w)
     ∧ m_loadedTextures (this w) < Z.of_nat (length (m_textureIDs (this w)))
     ∧ ∃ id,
         this w' = mkSceneManager (m_pShaderManager (this w))
                     (<[Z.to_nat (m_loadedTextures (this w))
                        := TEXTURE_INFO.mk id tag]> (m_textureIDs (this w)))
                     (m_loadedTextures (this w) + 1)
                     (m_objectMaterials (this w))).
Proof.
  unfold CreateGLTexture. rewrite bind_run. unfold stbi_load.
  destruct (disk w !! filename) as [img|]; [|intros [= <- <-]; by left].
  rewrite bind_run. cbn [gl_gen_texture].
  do 5 (rewrite bind_run; cbn [gl_call]).
  match goal with |- context [Some (GL_RGB8, GL_RGB)] => idtac end.
  match goal with |- (match ?c with _ => _ end) ?w0 = _ → _ =>
    set (w1 := w0); assert (this w1 = this w) as Hthis by reflexivity;
    clearbody w1; destruct c as [[internalformat format]|]
  end; [|intros [= <- <-]; by left].
  do 3 (rewrite bind_run; cbn [gl_call]).
  match goal with |- _ ?w0 = _ → _ =>
    set (w2 := w0); assert (this w2 = this w) as Hthis2 by (by rewrite <- Hthis);
    clearbody w2
  end.
  rewrite bind_run. cbn [get]. rewrite bind_run.
  destruct (update_texture_at _ _ w2) as [[[] w3]|] eqn:E3; [|done].
  apply update_texture_at_inv in E3 as (Hpos & e & Hcell & ->).
  rewrite bind_run.
  destruct (update_texture_at _ _ _) as [[[] w4]|] eqn:E4; [|done].
  apply update_texture_at_inv in E4 as (_ & e' & Hcell' & ->).
  rewrite bind_run. cbn [set_loadedTextures]. intros [= <- <-].
  right. rewrite Hthis2 in *. split; [done|]. split; [done|].
  apply lookup_lt_Some in Hcell. split; [lia|].
  unfold with_this in Hcell' |- *. cbn in Hcell' |- *.
  rewrite Hthis2 in Hcell' |- *.
  rewrite list_lookup_insert_eq in Hcell' by done.
  injection Hcell' as <-.
  eexists. cbn. rewrite list_insert_insert_eq. reflexivity.
Qed.

(** C3. Whatever the registry holds, a file that decodes to an image with
    a channel count other than 3 and 4 makes [CreateGLTexture] return
    [false] with the members of the class untouched: the counter and every
    cell of the texture array are as before the call. *)
Theorem CreateGLTexture_unsupported_channels (w : Machine) (filename tag : string)
    (img : stb_image) :
  disk w !! filename = Some img →
  colorChannels img ≠ 3 →
  colorChannels img ≠ 4 →
  ∃ w',
    CreateGLTexture filename tag w = Done (false, w')
    ∧ m_loadedTextures (this w') = m_loadedTextures (this w)
    ∧ m_textureIDs (this w') = m_textureIDs (this w)
    ∧ this w' = this w.
Proof.
  intros Hdisk H3 H4. unfold CreateGLTexture.
  rewrite bind_run. unfold stbi_load. rewrite Hdisk.
  rewrite bind_run. cbn [gl_gen_texture].
  do 5 (rewrite bind_run; cbn [gl_call]).
  rewrite !decide_False by done.
  eexists. split; [reflexivity|]. done.
Qed.

Lemma update_texture_at_Done (w : Machine) (index : Z)
    (f : TEXTURE_INFO.t → TEXTURE_INFO.t) (e : TEXTURE_INFO.t) :
  0 ≤ index →
  m_textureIDs (this w) !! Z.to_nat index = Some e →
  update_texture_at index f w
  = Done (tt, with_this (λ o, mkSceneManager (m_pShaderManager o)
                                (<[Z.to_nat index := f e]> (m_textureIDs o))
                                (m_loadedTextures o) (m_objectMaterials o)) w).
Proof.
  intros Hpos Hcell. unfold update_texture_at.
  by rewrite (bind_Done _ _ w w e) by (by apply texture_at_Done).
Qed.

(** A decodable image with three or four channels loads whenever the
    counter points into the array. *)
Lemma CreateGLTexture_supported (w : Machine) (filename tag : string)
    (img : stb_image) :
  disk w !! filename = Some img →
  colorChannels img = 3 ∨ colorChannels img = 4 →
  0 ≤ m_loadedTextures (this w) < Z.of_nat (length (m_textureIDs (this w))) →
  ∃ w', CreateGLTexture filename tag w = Done (true, w').
Proof.
  intros Hdisk Hch [Hlo Hhi]. unfold CreateGLTexture.
  rewrite bind_run. unfold stbi_load. rewrite Hdisk.
  rewrite bind_run. cbn [gl_gen_texture].
  do 5 (rewrite bind_run; cbn [gl_call]).
  destruct (lookup_lt_is_Some_2 (m_textureIDs (this w))
              (Z.to_nat (m_loadedTextures (this w)))) as [e He]; [lia|].
  match goal with |- ∃ w', (match ?c with _ => _ end) ?w0 = _ =>
    assert (is_Some c) as [[internalformat format] ->]
      by (destruct Hch as [-> | ->];
          [rewrite decide_True by done
          |rewrite decide_False by done; rewrite decide_True by done];
          eauto);
    set (w1 := w0); assert (this w1 = this w) as Hthis by reflexivity;
    clearbody w1
  end.
  do 3 (rewrite bind_run; cbn [gl_call]).
  match goal with |- ∃ w', _ ?w0 = _ =>
    set (w2 := w0); assert (this w2 = this w) as Hthis2 by (by rewrite <- Hthis);
    clearbody w2
  end.
  rewrite bind_run. cbn [get]. rewrite bind_run.
  erewrite update_texture_at_Done; [|by rewrite Hthis2..].
  rewrite bind_run.
  erewrite update_texture_at_Done; [|by rewrite Hthis2|].
  - eexists. reflexivity.
  - unfold with_this. cbn. rewrite Hthis2.
    apply list_lookup_insert_eq. by eapply lookup_lt_Some.
Qed.

(** A sequence of loads on a well-formed registry: the cells in use before
    are kept, and the loads that return [true] fill the following cells one
    after the other, in the order of the calls. *)
Lemma CreateGLTextures_registry (loads : list (string * string)) :
  ∀ (w w' : Machine) (results : list bool),
    registry_ok (this w) →
    CreateGLTextures loads w = Done (results, w') →
    registry_ok (this w')
    ∧ m_loadedTextures (this w')
      = m_loadedTextures (this w) + Z.of_nat (length (loaded_tags loads results))
    ∧ (∀ j e, (j < Z.to_nat (m_loadedTextures (this w)))%nat →
              m_textureIDs (this w) !! j = Some e →
              m_textureIDs (this w') !! j = Some e)
    ∧ (∀ i t, loaded_tags loads results !! i = Some t →
              ∃ id, m_textureIDs (this w')
                      !! (Z.to_nat (m_loadedTextures (this w)) + i)%nat
                    = Some (TEXTURE_INFO.mk id t)).
Proof.
  induction loads as [|[filename tag] loads IH]; intros w w' results Hok.
  - intros [= <- <-]. cbn. split; [done|]. split; [lia|]. split; [done|].
    intros i t Hi. done.
  - cbn [CreateGLTextures]. rewrite bind_run.
    destruct (CreateGLTexture filename tag w) as [[b w1]|] eqn:E1; [|done].
    rewrite bind_run.
    destruct (CreateGLTextures loads w1) as [[bs w2]|] eqn:E2; [|done].
    intros [= <- <-].
    apply CreateGLTexture_inv in E1
      as [[-> Hthis]|(-> & Hlo & Hhi & id & Hthis)].
    + destruct (IH w1 w2 bs) as (Hok2 & Hcount & Hkeep & Hnew);
        [by rewrite Hthis|done|].
      rewrite Hthis in Hcount, Hkeep, Hnew. cbn [loaded_tags]. done.
    + destruct (IH w1 w2 bs) as (Hok2 & Hcount & Hkeep & Hnew);
        [|done|].
      { rewrite Hthis. unfold registry_ok. cbn. rewrite length_insert. lia. }
      rewrite Hthis in Hcount, Hkeep, Hnew. cbn in Hcount, Hkeep, Hnew.
      cbn [loaded_tags length]. split; [done|]. split; [lia|]. split.
      * intros j e Hj Hcell. apply Hkeep; [lia|].
        rewrite list_lookup_insert_ne by lia. done.
      * intros [|i] t Hi.
        -- injection Hi as <-. exists id. rewrite Nat.add_0_r.
           apply Hkeep; [lia|]. apply list_lookup_insert_eq. lia.
        -- cbn in Hi. destruct (Hnew i t Hi) as [id' Hcell]. exists id'.
           rewrite <- Hcell. f_equal. lia.
Qed.

(** C4. Starting from an empty registry, after any sequence of loads that
    runs to completion, the loads that succeeded occupy the cells 0, 1, 2,
    ... in the order in which they were made: the counter equals their
    number and cell [i] carries the tag of the [i]-th successful load.
    [FindTextureSlot] answers a registered tag with the index of the cell
    that received it (the earliest such cell, should a tag have been loaded
    more than once) and answers -1 for a tag that was never loaded. *)
Theorem slots_follow_insertion_order (w w' : Machine)
    (loads : list (string * string)) (results : list bool) :
  m_loadedTextures (this w) = 0 →
  CreateGLTextures loads w = Done (results, w') →
  m_loadedTextures (this w') = Z.of_nat (length (loaded_tags loads results))
  ∧ (∀ i t, loaded_tags loads results !! i = Some t →
            ∃ id, m_textureIDs (this w') !! i = Some (TEXTURE_INFO.mk id t))
  ∧ (∀ i t, loaded_tags loads results !! i = Some t →
            (∀ j, (j < i)%nat → loaded_tags loads results !! j ≠ Some t) →
            FindTextureSlot t w' = Done (Z.of_nat i, w'))
  ∧ (∀ t, t ∉ loaded_tags loads results →
          FindTextureSlot t w' = Done (-1, w')).
Proof.
  intros Hzero Hrun.
  destruct (CreateGLTextures_registry loads w w' results)
    as ([Hlo Hhi] & Hcount & _ & Hnew0); [unfold registry_ok; lia|done|].
  rewrite Hzero in Hcount, Hnew0. rewrite Z.add_0_l in Hcount.
  set (tags := loaded_tags loads results) in *.
  assert (∀ i t, tags !! i = Some t →
                 ∃ id, m_textureIDs (this w') !! i = Some (TEXTURE_INFO.mk id t))
    as Hnew by exact Hnew0.
  clear Hnew0.
  assert (∀ j e, 0 ≤ j < m_loadedTextures (this w') →
                 m_textureIDs (this w') !! Z.to_nat j = Some e →
                 tags !! Z.to_nat j = Some (TEXTURE_INFO.tag e)) as Hback.
  { intros j e Hj Hcell.
    destruct (lookup_lt_is_Some_2 tags (Z.to_nat j)) as [t Ht]; [lia|].
    destruct (Hnew _ _ Ht) as [id Hid]. by simplify_eq. }
  assert (∀ t, ∃ slot,
    FindTextureSlot t w' = Done (slot, w')
    ∧ ((slot = -1 ∧ ∀ j, tags !! j ≠ Some t)
       ∨ (0 ≤ slot ∧ tags !! Z.to_nat slot = Some t
          ∧ ∀ j, (j < Z.to_nat slot)%nat → tags !! j ≠ Some t))) as Hfind.
  { intros t.
    destruct (FindTextureSlot_scan_first t w'
                (Z.to_nat (m_loadedTextures (this w'))) 0)
      as (slot & Hscan & Hslot); [lia|lia|].
    exists slot. split; [unfold FindTextureSlot; by rewrite bind_run|].
    destruct Hslot as [[-> Hnone]|(Hrange & (e & He & Htag) & Hfirst)].
    - left. split; [done|]. intros j Hj.
      destruct (Hnew _ _ Hj) as [id Hid]. apply lookup_lt_Some in Hj.
      apply (Hnone (Z.of_nat j) (TEXTURE_INFO.mk id t)); [lia| |done].
      by rewrite Nat2Z.id.
    - right. split; [lia|]. split.
      + rewrite <- Htag. apply Hback; [lia|done].
      + intros j Hj Hjt. destruct (Hnew _ _ Hjt) as [id Hid].
        apply (Hfirst (Z.of_nat j) (TEXTURE_INFO.mk id t)); [lia| |done].
        by rewrite Nat2Z.id. }
  split; [done|]. split; [done|]. split.
  - intros i t Hi Hearliest.
    destruct (Hfind t) as (slot & Hslot & [[_ Hnone]|(Hpos & Hhit & Hfirst)]).
    + by destruct (Hnone i).
    + rewrite Hslot. do 2 f_equal.
      destruct (Nat.lt_trichotomy (Z.to_nat slot) i) as [Hlt|[Heq|Hgt]].
      * by destruct (Hearliest _ Hlt).
      * lia.
      * by destruct (Hfirst _ Hgt).
  - intros t Hout.
    destruct (Hfind t) as (slot & Hslot & [[-> _]|(_ & Hhit & _)]); [done|].
    destruct Hout. by eapply list_elem_of_lookup_2.
Qed.

(** ** Tearing the registry down *)

Lemma DestroyGLTextures_loop (n : nat) :
  ∀ (i : Z) (w : Machine),
    0 ≤ i →
    i + Z.of_nat n ≤ Z.of_nat (length (m_textureIDs (this w))) →
    ∃ w' names,
      for_loop n i (λ i,
        name ← gl_gen_texture;
        update_texture_at i (λ e, TEXTURE_INFO.mk name (TEXTURE_INFO.tag e))) w
      = Done (tt, w')
      ∧ gl_calls (gl w') = gl_calls (gl w) ++ map glGenTextures names
      ∧ length names = n
      ∧ texture_names (gl w) ⊆ texture_names (gl w')
      ∧ length (m_textureIDs (this w')) = length (m_textureIDs (this w)).
Proof.
  induction n as [|n IH]; intros i w Hpos Hfit.
  - exists w, []. cbn. rewrite app_nil_r. done.
  - destruct (lookup_lt_is_Some_2 (m_textureIDs (this w)) (Z.to_nat i))
      as [e He]; [lia|].
    cbn [for_loop]. rewrite !bind_run. cbn [gl_gen_texture].
    erewrite update_texture_at_Done; [|done|exact He].
    match goal with |- ∃ w' names, for_loop _ _ _ ?w0 = _ ∧ _ =>
      destruct (IH (i + 1) w0) as (w' & names & Hrun & Hcalls & Hlen & Hsub & Harr)
    end; [lia|cbn; rewrite length_insert; lia|].
    exists w', (Z.pos (fresh (texture_names (gl w))) :: names).
    split; [exact Hrun|]. cbn in Hcalls, Hsub, Harr.
    split; [by rewrite Hcalls, <- app_assoc|].
    split; [cbn; lia|]. split; [set_solver|].
    by rewrite Harr, length_insert.
Qed.

(** On a well-formed registry the teardown runs to completion, and every
    OpenGL call it makes is a [glGenTextures]: one per registered texture.
    No texture name is released. *)
Lemma DestroyGLTextures_only_generates (w : Machine) :
  registry_ok (this w) →
  ∃ w' names,
    DestroyGLTextures w = Done (tt, w')
    ∧ gl_calls (gl w') = gl_calls (gl w) ++ map glGenTextures names
    ∧ Z.of_nat (length names) = m_loadedTextures (this w)
    ∧ texture_names (gl w) ⊆ texture_names (gl w').
Proof.
  intros [Hlo Hhi]. unfold DestroyGLTextures. rewrite bind_run. cbn [get].
  destruct (DestroyGLTextures_loop (Z.to_nat (m_loadedTextures (this w))) 0 w)
    as (w' & names & Hrun & Hcalls & Hlen & Hsub & _); [lia|lia|].
  exists w', names. split; [exact Hrun|]. split; [done|]. split; [lia|done].
Qed.

(** C9. A registry holding one texture, loaded from a fresh machine, whose
    OpenGL name is 1. Tearing it down makes a single OpenGL call,
    [glGenTextures], which hands out the new name 2 and stores it over the
    entry's name. No [glDeleteTextures] is issued for name 1, which remains
    in use. *)
Theorem DestroyGLTextures_releases_nothing :
  ∃ w1 w2,
    CreateGLTexture "mug.jpg" "mug" (fresh_machine shader_manager mug_disk)
    = Done (true, w1)
    ∧ m_loadedTextures (this w1) = 1
    ∧ m_textureIDs (this w1) !! 0%nat = Some (TEXTURE_INFO.mk 1 "mug")
    ∧ DestroyGLTextures w1 = Done (tt, w2)
    ∧ gl_calls (gl w2) = gl_calls (gl w1) ++ [glGenTextures 2]
    ∧ (glDeleteTextures 1 ∉ gl_calls (gl w2))
    ∧ (1%positive ∈ texture_names (gl w2))
    ∧ m_textureIDs (this w2) !! 0%nat = Some (TEXTURE_INFO.mk 2 "mug").
Proof.
  eexists _, _.
  split; [vm_compute; reflexivity|].
  split; [reflexivity|].
  split; [reflexivity|].
  split; [vm_compute; reflexivity|].
  split; [reflexivity|].
  split; [|split; [|reflexivity]].
  - cbn. intros H.
    repeat (apply elem_of_cons in H; destruct H as [H|H]; [discriminate H|]).
    by apply elem_of_nil in H.
  - cbn. set_solver.
Qed.

(** ** The model matrix *)

Section transform.

Local Open Scope R_scope.

Ltac glm_unfold :=
  unfold glm.translate, glm.scale, glm.rotate, glm.translate_onto,
    glm.scale_onto, glm.rotate_onto, glm.mul, glm.apply, glm.mul_col,
    glm.mat4_1, textbook.product, textbook.row_by_column, textbook.entry,
    textbook.translation,
    textbook.rotationX, textbook.rotationY, textbook.rotationZ,
    textbook.scaling;
  cbn [glm.col glm.at4 glm.at3 glm.vmul glm.vadd].

Ltac by_entries := f_equal; f_equal; ring.

Lemma normalize_unit_x : glm.normalize (Vec3 1 0 0) = Vec3 1 0 0.
Proof.
  unfold glm.normalize, glm.dot3. cbn [glm.at3].
  replace (1 * 1 + 0 * 0 + 0 * 0) with 1 by ring.
  rewrite sqrt_1, Rinv_1. f_equal; ring.
Qed.

Lemma normalize_unit_y : glm.normalize (Vec3 0 1 0) = Vec3 0 1 0.
Proof.
  unfold glm.normalize, glm.dot3. cbn [glm.at3].
  replace (0 * 0 + 1 * 1 + 0 * 0) with 1 by ring.
  rewrite sqrt_1, Rinv_1. f_equal; ring.
Qed.

Lemma normalize_unit_z : glm.normalize (Vec3 0 0 1) = Vec3 0 0 1.
Proof.
  unfold glm.normalize, glm.dot3. cbn [glm.at3].
  replace (0 * 0 + 0 * 0 + 1 * 1) with 1 by ring.
  rewrite sqrt_1, Rinv_1. f_equal; ring.
Qed.

Lemma glm_translate_textbook (t : vec3) :
  glm.translate t = textbook.translation t.
Proof. destruct t. glm_unfold. by_entries. Qed.

Lemma glm_scale_textbook (s : vec3) : glm.scale s = textbook.scaling s.
Proof. destruct s. glm_unfold. by_entries. Qed.

Lemma glm_rotate_x_textbook (a : R) :
  glm.rotate a (Vec3 1 0 0) = textbook.rotationX a.
Proof.
  unfold glm.rotate, glm.rotate_onto. rewrite normalize_unit_x.
  glm_unfold. by_entries.
Qed.

Lemma glm_rotate_y_textbook (a : R) :
  glm.rotate a (Vec3 0 1 0) = textbook.rotationY a.
Proof.
  unfold glm.rotate, glm.rotate_onto. rewrite normalize_unit_y.
  glm_unfold. by_entries.
Qed.

Lemma glm_rotate_z_textbook (a : R) :
  glm.rotate a (Vec3 0 0 1) = textbook.rotationZ a.
Proof.
  unfold glm.rotate, glm.rotate_onto. rewrite normalize_unit_z.
  glm_unfold. by_entries.
Qed.

(** [operator*] of glm is the matrix product. *)
Lemma glm_mul_product (a b : mat4) : glm.mul a b = textbook.product a b.
Proof.
  destruct a as [[] [] [] []], b as [[] [] [] []]. glm_unfold. by_entries.
Qed.

Lemma product_assoc (a b c : mat4) :
  textbook.product (textbook.product a b) c
  = textbook.product a (textbook.product b c).
Proof.
  destruct a as [[] [] [] []], b as [[] [] [] []], c as [[] [] [] []].
  glm_unfold. by_entries.
Qed.

(** The matrix [SetTransformations] computes is the model matrix of the
    specification. *)
Lemma modelView_model_matrix (scaleXYZ positionXYZ : vec3) (rx ry rz : R) :
  glm.mul (glm.mul (glm.mul (glm.mul (glm.translate positionXYZ)
                      (glm.rotate (glm.radians rx) (Vec3 1 0 0)))
             (glm.rotate (glm.radians ry) (Vec3 0 1 0)))
    (glm.rotate (glm.radians rz) (Vec3 0 0 1))) (glm.scale scaleXYZ)
  = model_matrix scaleXYZ rx ry rz positionXYZ.
Proof.
  rewrite glm_translate_textbook, glm_scale_textbook, glm_rotate_x_textbook,
    glm_rotate_y_textbook, glm_rotate_z_textbook, !glm_mul_product.
  rewrite !product_assoc. unfold model_matrix, glm.radians.
  by replace (rx * (PI / 180)) with (rx * PI / 180) by field;
     replace (ry * (PI / 180)) with (ry * PI / 180) by field;
     replace (rz * (PI / 180)) with (rz * PI / 180) by field.
Qed.

Lemma apply_product (a b : mat4) (v : vec4) :
  glm.apply (textbook.product a b) v = glm.apply a (glm.apply b v).
Proof.
  destruct a as [[] [] [] []], b as [[] [] [] []], v. glm_unfold.
  f_equal; ring.
Qed.

Ltac on_point :=
  glm_unfold;
  unfold textbook.point, textbook.translate_point, textbook.rotateX_point,
    textbook.rotateY_point, textbook.rotateZ_point, textbook.scale_point;
  cbn [glm.at4]; f_equal; ring.

Lemma apply_translation (t p : vec3) :
  glm.apply (textbook.translation t) (textbook.point p)
  = textbook.point (textbook.translate_point t p).
Proof. destruct t, p. on_point. Qed.

Lemma apply_rotationX (a : R) (p : vec3) :
  glm.apply (textbook.rotationX a) (textbook.point p)
  = textbook.point (textbook.rotateX_point a p).
Proof. destruct p. on_point. Qed.

Lemma apply_rotationY (a : R) (p : vec3) :
  glm.apply (textbook.rotationY a) (textbook.point p)
  = textbook.point (textbook.rotateY_point a p).
Proof. destruct p. on_point. Qed.

Lemma apply_rotationZ (a : R) (p : vec3) :
  glm.apply (textbook.rotationZ a) (textbook.point p)
  = textbook.point (textbook.rotateZ_point a p).
Proof. destruct p. on_point. Qed.

Lemma apply_scaling (s p : vec3) :
  glm.apply (textbook.scaling s) (textbook.point p)
  = textbook.point (textbook.scale_point s p).
Proof. destruct s, p. on_point. Qed.

(** Applied to a point, the model matrix scales first, then rotates about
    Z, about Y and about X, and translates last. *)
Lemma model_matrix_on_point (scaleXYZ positionXYZ p : vec3) (rx ry rz : R) :
  glm.apply (model_matrix scaleXYZ rx ry rz positionXYZ) (textbook.point p)
  = textbook.point
      (textbook.translate_point positionXYZ
         (textbook.rotateX_point (rx * PI / 180)
            (textbook.rotateY_point (ry * PI / 180)
               (textbook.rotateZ_point (rz * PI / 180)
                  (textbook.scale_point scaleXYZ p))))).
Proof.
  unfold model_matrix.
  by rewrite !apply_product, apply_scaling, apply_rotationZ, apply_rotationY,
    apply_rotationX, apply_translation.
Qed.

Lemma SetTransformations_Done (w : Machine) (scaleXYZ positionXYZ : vec3)
    (rx ry rz : R) :
  m_pShaderManager (this w) ≠ NULL →
  SetTransformations scaleXYZ rx ry rz positionXYZ w
  = Done (tt, with_shader
                (set_uniform g_ModelName
                   (UMat4 (model_matrix scaleXYZ rx ry rz positionXYZ))) w).
Proof.
  intros Hptr. unfold SetTransformations. rewrite bind_run. cbn [get].
  rewrite not_NULL_decide by done. unfold setMat4Value.
  rewrite call_shader_Done by done. by rewrite modelView_model_matrix.
Qed.


End transform.

(** ** Rendering a frame *)











(** The ten objects stand at ten different places, so the model matrix a
    draw observes tells which object it belongs to. *)
Lemma object_position_inj (o1 o2 : SceneObject) :
  object_position o1 = object_position o2 → o1 = o2.
Proof.
  destruct o1, o2; try reflexivity; cbn; intros H; exfalso; inversion H; lra.
Qed.

Lemma model_matrix_origin (scaleXYZ positionXYZ : vec3) (rx ry rz : R) :
  glm.apply (model_matrix scaleXYZ rx ry rz positionXYZ) (Vec4 0 0 0 1)
  = textbook.point positionXYZ.
Proof.
  change (Vec4 0 0 0 1) with (textbook.point (Vec3 0 0 0)).
  rewrite model_matrix_on_point. destruct scaleXYZ, positionXYZ.
  unfold textbook.point, textbook.translate_point, textbook.rotateX_point,
    textbook.rotateY_point, textbook.rotateZ_point, textbook.scale_point.
  f_equal; ring.
Qed.

Lemma object_model_inj (o1 o2 : SceneObject) :
  object_model o1 = object_model o2 → o1 = o2.
Proof.
  intros Heq. apply object_position_inj.
  assert (textbook.point (object_position o1)
          = textbook.point (object_position o2)) as Hpoint.
  { rewrite <- (model_matrix_origin (object_scale o1) (object_position o1)
                  (object_Xrotation o1) 0%R 0%R).
    rewrite <- (model_matrix_origin (object_scale o2) (object_position o2)
                  (object_Xrotation o2) 0%R 0%R).
    unfold object_model in Heq. by rewrite Heq. }
  destruct (object_position o1), (object_position o2).
  by injection Hpoint as -> -> ->.
Qed.

(** Without a shader manager, once a material is defined, the first object
    routine already leaves defined behaviour. *)
Lemma RenderScene_null_with_materials (w : Machine) :
  m_pShaderManager (this w) = NULL →
  m_objectMaterials (this w) ≠ [] →
  RenderScene w = Undefined.
Proof.
  intros Hnull Hsome. unfold RenderScene. apply bind_Undefined.
  unfold RenderPlane.
  rewrite (bind_Done _ _ w w tt).
  - apply bind_Undefined. unfold SetShaderMaterial. rewrite bind_run. cbn [get].
    destruct (m_objectMaterials (this w)) as [|m l] eqn:E; [done|].
    rewrite decide_True by (cbn; lia).
    rewrite bind_run. unfold FindMaterial. rewrite bind_run. cbn [get].
    rewrite E. rewrite decide_False by (cbn; lia). rewrite ret_run.
    cbv beta iota. apply bind_Undefined.
    unfold setVec3Value, call_shader. by rewrite Hnull.
  - unfold SetTransformations. rewrite bind_run. cbn [get]. rewrite Hnull.
    by rewrite decide_False by (intros H; by apply H).
Qed.


(** * The properties at concrete machines *)

Lemma SetShaderColor_then_SetShaderTexture_uses_texture_witness :
  m_pShaderManager (this demo_machine) ≠ NULL
  ∧ registry_ok (this demo_machine)
  ∧ ∃ w' slot,
      (SetShaderColor 0.5 0.8 1 1 ;; SetShaderTexture "mug") demo_machine
      = Done (tt, w')
      ∧ uniforms (shader w') !! g_UseTextureName = Some (UInt 1)
      ∧ writes (shader w')
        = writes (shader demo_machine)
          ++ [(g_UseTextureName, UInt 0);
              (g_ColorValueName, UVec4 (Vec4 0.5 0.8 1 1));
              (g_UseTextureName, UInt 1);
              (g_TextureValueName, USampler2D slot)].
Proof.
  split; [vm_compute; discriminate|].
  split; [unfold registry_ok; vm_compute; by split|].
  apply (SetShaderColor_then_SetShaderTexture_uses_texture demo_machine
           0.5 0.8 1 1 "mug").
  - vm_compute; discriminate.
  - unfold registry_ok; vm_compute; by split.
Defined.

Lemma FindMaterial_miss_reports_success_witness :
  m_objectMaterials (this demo_machine) ≠ []
  ∧ (∀ m, m ∈ m_objectMaterials (this demo_machine) →
          OBJECT_MATERIAL.tag m ≠ "")
  ∧ FindMaterial "" woodMaterial demo_machine
    = Done ((true, woodMaterial), demo_machine).
Proof.
  assert (∀ m, m ∈ m_objectMaterials (this demo_machine) →
               OBJECT_MATERIAL.tag m ≠ "") as Hmiss.
  { intros m Hm. vm_compute in Hm.
    repeat (apply elem_of_cons in Hm; destruct Hm as [->|Hm]; [discriminate|]).
    by apply elem_of_nil in Hm. }
  split; [vm_compute; discriminate|]. split; [exact Hmiss|].
  apply (FindMaterial_miss_reports_success demo_machine "" woodMaterial).
  - vm_compute; discriminate.
  - exact Hmiss.
Defined.

Lemma CreateGLTexture_unsupported_channels_witness :
  disk (fresh_machine shader_manager demo_disk) !! "gray.png"
  = Some (mk_stb_image 32 32 1)
  ∧ colorChannels (mk_stb_image 32 32 1) ≠ 3
  ∧ colorChannels (mk_stb_image 32 32 1) ≠ 4
  ∧ ∃ w',
      CreateGLTexture "gray.png" "gray" (fresh_machine shader_manager demo_disk)
      = Done (false, w')
      ∧ m_loadedTextures (this w')
        = m_loadedTextures (this (fresh_machine shader_manager demo_disk))
      ∧ m_textureIDs (this w')
        = m_textureIDs (this (fresh_machine shader_manager demo_disk))
      ∧ this w' = this (fresh_machine shader_manager demo_disk).
Proof.
  split; [reflexivity|]. split; [discriminate|]. split; [discriminate|].
  apply (CreateGLTexture_unsupported_channels
           (fresh_machine shader_manager demo_disk) "gray.png" "gray"
           (mk_stb_image 32 32 1)).
  - reflexivity.
  - discriminate.
  - discriminate.
Defined.

Lemma slots_follow_insertion_order_witness :
  m_loadedTextures (this (fresh_machine shader_manager demo_disk)) = 0
  ∧ CreateGLTextures demo_loads (fresh_machine shader_manager demo_disk)
    = Done ([true; false; false; true],
            after (CreateGLTextures demo_loads)
              (fresh_machine shader_manager demo_disk))
  ∧ loaded_tags demo_loads [true; false; false; true] = ["plane"; "mug"]
  ∧ FindTextureSlot "plane"
      (after (CreateGLTextures demo_loads) (fresh_machine shader_manager demo_disk))
    = Done (0, after (CreateGLTextures demo_loads)
                 (fresh_machine shader_manager demo_disk))
  ∧ FindTextureSlot "mug"
      (after (CreateGLTextures demo_loads) (fresh_machine shader_manager demo_disk))
    = Done (1, after (CreateGLTextures demo_loads)
                 (fresh_machine shader_manager demo_disk))
  ∧ FindTextureSlot "unknown"
      (after (CreateGLTextures demo_loads) (fresh_machine shader_manager demo_disk))
    = Done (-1, after (CreateGLTextures demo_loads)
                  (fresh_machine shader_manager demo_disk)).
Proof.
  assert (CreateGLTextures demo_loads (fresh_machine shader_manager demo_disk)
          = Done ([true; false; false; true],
                  after (CreateGLTextures demo_loads)
                    (fresh_machine shader_manager demo_disk))) as Hrun
    by (vm_compute; reflexivity).
  destruct (slots_follow_insertion_order
              (fresh_machine shader_manager demo_disk)
              (after (CreateGLTextures demo_loads)
                 (fresh_machine shader_manager demo_disk))
              demo_loads [true; false; false; true] eq_refl Hrun)
    as (_ & _ & Hslot & Hnone).
  split; [reflexivity|]. split; [exact Hrun|]. split; [reflexivity|].
  split; [|split].
  - apply (Hslot 0%nat "plane"); [reflexivity|]. intros j Hj. lia.
  - apply (Hslot 1%nat "mug"); [reflexivity|].
    intros [|j] Hj; [discriminate|lia].
  - apply Hnone. intros Hin. vm_compute in Hin.
    repeat (apply elem_of_cons in Hin; destruct Hin as [Hin|Hin]; [discriminate|]).
    by apply elem_of_nil in Hin.
Defined.


Lemma FindMaterial_empty_fails_first_match_wins_witness :
  m_objectMaterials (this (fresh_machine shader_manager ∅)) = []
  ∧ FindMaterial "glassy" woodMaterial (fresh_machine shader_manager ∅)
    = Done ((false, woodMaterial), fresh_machine shader_manager ∅)
  ∧ ∃ out,
      FindMaterial "glassy" woodMaterial twice_glassy = Done ((true, out), twice_glassy)
      ∧ OBJECT_MATERIAL.shininess out = OBJECT_MATERIAL.shininess screenMaterial
      ∧ OBJECT_MATERIAL.ambientColor out = OBJECT_MATERIAL.ambientColor screenMaterial.
Proof.
  split; [reflexivity|]. split.
  - by apply (FindMaterial_empty_fails_first_match_wins
                (fresh_machine shader_manager ∅) "glassy" woodMaterial).
  - destruct (FindMaterial_empty_fails_first_match_wins twice_glassy "glassy"
                woodMaterial) as [_ Hfirst].
    destruct (Hfirst [woodMaterial] screenMaterial
                [OBJECT_MATERIAL.mk (Vec3 1 1 1) 1 (Vec3 1 1 1) (Vec3 1 1 1) 1
                   "glassy"])
      as (out & Hrun & Hambient & _ & _ & _ & Hshininess).
    + reflexivity.
    + intros m Hm. apply elem_of_cons in Hm. destruct Hm as [->|Hm];
        [discriminate|]. by apply elem_of_nil in Hm.
    + reflexivity.
    + by exists out.
Defined.

Lemma SetShaderMaterial_without_materials_is_noop_witness :
  m_objectMaterials (this (fresh_machine NULL ∅)) = []
  ∧ SetShaderMaterial "wood" (fresh_machine NULL ∅)
    = Done (tt, fresh_machine NULL ∅).
Proof.
  split; [reflexivity|].
  by apply (SetShaderMaterial_without_materials_is_noop (fresh_machine NULL ∅)
              "wood").
Defined.

Lemma null_shader_manager_no_write_witness :
  m_pShaderManager (this (fresh_machine NULL ∅)) = NULL
  ∧ SetTransformations (Vec3 2 1 1) 0 0 0 (Vec3 3 0 0) (fresh_machine NULL ∅)
    = Done (tt, fresh_machine NULL ∅)
  ∧ SetShaderColor 0.5 0.8 1 1 (fresh_machine NULL ∅)
    = Done (tt, fresh_machine NULL ∅)
  ∧ SetShaderTexture "mug" (fresh_machine NULL ∅)
    = Done (tt, fresh_machine NULL ∅)
  ∧ SetTextureUVScale 10 10 (fresh_machine NULL ∅)
    = Done (tt, fresh_machine NULL ∅).
Proof.
  split; [reflexivity|].
  by apply (null_shader_manager_no_write (fresh_machine NULL ∅)
              (Vec3 2 1 1) (Vec3 3 0 0) 0 0 0 0.5 0.8 1 1 10 10 "mug").
Defined.


(** * Further properties of the methods *)

(** ** Sequences of setter calls *)

Lemma publish_app (ws1 ws2 : list (string * UniformValue)) (w : Machine) :
  publish (ws1 ++ ws2) w = publish ws2 (publish ws1 w).
Proof. unfold publish. by rewrite foldl_app. Qed.

Lemma publish_frame (ws : list (string * UniformValue)) (w : Machine) :
  this (publish ws w) = this w
  ∧ gl (publish ws w) = gl w
  ∧ disk (publish ws w) = disk w
  ∧ drawn (publish ws w) = drawn w
  ∧ indeterminate (publish ws w) = indeterminate w
  ∧ writes (shader (publish ws w)) = writes (shader w) ++ ws.
Proof.
  revert w. induction ws as [|[n v] ws IH]; intros w.
  - cbn. by rewrite app_nil_r.
  - change (publish ((n, v) :: ws) w)
      with (publish ws (with_shader (set_uniform n v) w)).
    destruct (IH (with_shader (set_uniform n v) w))
      as (-> & -> & -> & -> & -> & ->).
    cbn. by rewrite <- app_assoc.
Qed.

Lemma publish_this (ws : list (string * UniformValue)) (w : Machine) :
  this (publish ws w) = this w.
Proof. apply publish_frame. Qed.

(** After a sequence of setter calls a uniform holds the value of the last
    call that names it, or what it held before if none does. *)
Lemma publish_lookup (ws : list (string * UniformValue)) (w : Machine) (k : string) :
  uniforms (shader (publish ws w)) !! k
  = match last_write k ws with
    | Some v => Some v
    | None => uniforms (shader w) !! k
    end.
Proof.
  revert w. induction ws as [|[n v] ws IH]; intros w; [done|].
  change (publish ((n, v) :: ws) w)
    with (publish ws (with_shader (set_uniform n v) w)).
  rewrite IH. cbn [last_write]. destruct (last_write k ws); [done|].
  cbn. destruct (decide (n = k)) as [->|Hne].
  - by rewrite lookup_insert_eq.
  - by rewrite lookup_insert_ne.
Qed.

Lemma call_shader_publish (name : string) (v : UniformValue) (w : Machine) :
  m_pShaderManager (this w) ≠ NULL →
  call_shader name v w = Done (tt, publish [(name, v)] w).
Proof. apply call_shader_Done. Qed.

(** Setter calls through an attached shader manager, one after the other. *)
Lemma call_shader_then (name : string) (v : UniformValue) (rest : M unit)
    (ws : list (string * UniformValue)) (w : Machine) :
  m_pShaderManager (this w) ≠ NULL →
  rest (publish [(name, v)] w) = Done (tt, publish ws (publish [(name, v)] w)) →
  (call_shader name v ;; rest) w = Done (tt, publish ((name, v) :: ws) w).
Proof.
  intros Hptr Hrest.
  rewrite (bind_Done _ _ _ _ _ (call_shader_publish name v w Hptr)).
  by rewrite Hrest.
Qed.

(** ** The setters as sequences of calls *)

Lemma SetTransformations_publish (w : Machine) (scaleXYZ positionXYZ : vec3)
    (rx ry rz : R) :
  m_pShaderManager (this w) ≠ NULL →
  SetTransformations scaleXYZ rx ry rz positionXYZ w
  = Done (tt, publish [(g_ModelName,
                        UMat4 (model_matrix scaleXYZ rx ry rz positionXYZ))] w).
Proof. apply SetTransformations_Done. Qed.

Lemma SetShaderColor_publish (w : Machine) (r g b a : R) :
  m_pShaderManager (this w) ≠ NULL →
  SetShaderColor r g b a w
  = Done (tt, publish [(g_UseTextureName, UInt 0);
                       (g_ColorValueName, UVec4 (Vec4 r g b a))] w).
Proof. apply SetShaderColor_Done. Qed.

Lemma SetShaderTexture_publish (w : Machine) (tag : string) (slot : Z) :
  m_pShaderManager (this w) ≠ NULL →
  FindTextureSlot tag w = Done (slot, w) →
  SetShaderTexture tag w
  = Done (tt, publish [(g_UseTextureName, UInt 1);
                       (g_TextureValueName, USampler2D slot)] w).
Proof. apply SetShaderTexture_Done. Qed.

Lemma SetTextureUVScale_publish (w : Machine) (u v : R) :
  m_pShaderManager (this w) ≠ NULL →
  SetTextureUVScale u v w = Done (tt, publish [("UVscale", UVec2 (Vec2 u v))] w).
Proof.
  intros Hptr. unfold SetTextureUVScale. rewrite bind_run. cbn [get].
  rewrite not_NULL_decide by done. by apply call_shader_Done.
Qed.

Lemma SetShaderMaterial_publish (w : Machine) (tag : string) :
  m_pShaderManager (this w) ≠ NULL →
  m_objectMaterials (this w) ≠ [] →
  SetShaderMaterial tag w
  = Done (tt, publish (material_writes
                         (FindMaterial_scan tag (m_objectMaterials (this w))
                            (local_material w))) w).
Proof.
  intros Hptr Hsome. unfold SetShaderMaterial. rewrite bind_run. cbn [get].
  assert (0 < length (m_objectMaterials (this w)))%nat as Hlen
    by (destruct (m_objectMaterials (this w)); [done|cbn; lia]).
  rewrite decide_True by done.
  rewrite bind_run. unfold FindMaterial at 1. rewrite bind_run. cbn [get].
  rewrite decide_False by lia. rewrite ret_run. cbv beta iota.
  unfold setVec3Value, setFloatValue, material_writes.
  repeat (apply call_shader_then; [by rewrite ?publish_this|]).
  rewrite call_shader_publish by (by rewrite ?publish_this). done.
Qed.

Lemma SetShaderMaterial_empty (w : Machine) (tag : string) :
  m_objectMaterials (this w) = [] → SetShaderMaterial tag w = Done (tt, w).
Proof.
  intros Hempty. unfold SetShaderMaterial. rewrite bind_run. cbn [get].
  by rewrite Hempty.
Qed.

Lemma null_setters (w : Machine) :
  m_pShaderManager (this w) = NULL →
  (∀ s p rx ry rz, SetTransformations s rx ry rz p w = Done (tt, w))
  ∧ (∀ r g b a, SetShaderColor r g b a w = Done (tt, w))
  ∧ (∀ tag, SetShaderTexture tag w = Done (tt, w))
  ∧ (∀ u v, SetTextureUVScale u v w = Done (tt, w)).
Proof.
  intros Hnull.
  unfold SetTransformations, SetShaderColor, SetShaderTexture, SetTextureUVScale.
  repeat split; intros; rewrite bind_run; cbn [get]; rewrite Hnull;
    by rewrite decide_False by (intros H; by apply H).
Qed.

Lemma last_write_None (k : string) (ws : list (string * UniformValue)) :
  k ∉ ws.*1 → last_write k ws = None.
Proof.
  induction ws as [|[n v] ws IH]; intros Hout; [done|].
  cbn in Hout |- *. apply not_elem_of_cons in Hout. destruct Hout as [Hne Hout].
  rewrite IH by done. by rewrite decide_False by congruence.
Qed.

Lemma touches_only_publish (step : M unit) (names : list string)
    (ws : list (string * UniformValue)) (w : Machine) :
  step w = Done (tt, publish ws w) →
  ws.*1 ⊆ names →
  touches_only step names w.
Proof.
  intros Hrun Hnames. exists (publish ws w).
  destruct (publish_frame ws w) as (Hthis & Hgl & Hdisk & Hdrawn & _ & _).
  split; [done|]. split; [done|]. split; [done|]. split; [done|].
  split; [done|]. intros k Hk.
  rewrite publish_lookup, last_write_None; [done|].
  intros Hin. by apply Hk, Hnames.
Qed.

Lemma touches_only_skip (step : M unit) (names : list string) (w : Machine) :
  step w = Done (tt, w) → touches_only step names w.
Proof. intros Hrun. by exists w. Qed.

(** X1. Each setter changes nothing but uniforms of its own: on a machine
    on which a frame can be rendered, [SetTransformations] can change only
    "model", [SetShaderColor] only "bUseTexture" and "objectColor",
    [SetShaderTexture] only "bUseTexture" and "objectTexture",
    [SetTextureUVScale] only "UVscale" and [SetShaderMaterial] only the five
    "material." uniforms. Each runs to completion and leaves the members of
    the class, OpenGL, the disk and the draws made so far as they were. *)
Theorem setters_touch_only_their_uniforms (w : Machine)
    (scaleXYZ positionXYZ : vec3) (rx ry rz r g b a u v : R)
    (textureTag materialTag : string) :
  can_render (this w) →
  touches_only (SetTransformations scaleXYZ rx ry rz positionXYZ)
    [g_ModelName] w
  ∧ touches_only (SetShaderColor r g b a)
      [g_UseTextureName; g_ColorValueName] w
  ∧ touches_only (SetShaderTexture textureTag)
      [g_UseTextureName; g_TextureValueName] w
  ∧ touches_only (SetTextureUVScale u v) ["UVscale"] w
  ∧ touches_only (SetShaderMaterial materialTag)
      ["material.ambientColor"; "material.ambientStrength";
       "material.diffuseColor"; "material.specularColor";
       "material.shininess"] w.
Proof.
  intros [Hok Hdefined].
  destruct (decide (m_pShaderManager (this w) = NULL)) as [Hnull|Hptr].
  - destruct (null_setters w Hnull) as (Ht & Hc & Hx & Hu).
    destruct Hdefined as [Hptr|Hempty]; [done|].
    repeat split; apply touches_only_skip; auto using SetShaderMaterial_empty.
  - destruct (FindTextureSlot_Done textureTag w Hok) as [slot Hslot].
    split; [|split; [|split; [|split]]].
    + eapply touches_only_publish; [by apply SetTransformations_publish|].
      cbn. set_solver.
    + eapply touches_only_publish; [by apply SetShaderColor_publish|].
      cbn. set_solver.
    + eapply touches_only_publish; [by apply SetShaderTexture_publish|].
      cbn. set_solver.
    + eapply touches_only_publish; [by apply SetTextureUVScale_publish|].
      cbn. set_solver.
    + destruct (m_objectMaterials (this w)) as [|m l] eqn:E.
      * by apply touches_only_skip, SetShaderMaterial_empty.
      * eapply touches_only_publish;
          [apply SetShaderMaterial_publish; [done|by rewrite E]|].
        cbn. set_solver.
Qed.

(** ** Materials into the shader *)

(** X2. With a shader manager attached and the tag registered,
    [SetShaderMaterial] makes five setter calls, in the order ambient
    colour, ambient strength, diffuse colour, specular colour, shininess,
    carrying the values of the first material registered under the tag;
    afterwards the five "material." uniforms hold those values. *)
Theorem SetShaderMaterial_publishes_first_match (w : Machine) (tag : string)
    (before after : list OBJECT_MATERIAL.t) (found : OBJECT_MATERIAL.t) :
  m_pShaderManager (this w) ≠ NULL →
  m_objectMaterials (this w) = before ++ found :: after →
  (∀ m, m ∈ before → OBJECT_MATERIAL.tag m ≠ tag) →
  OBJECT_MATERIAL.tag found = tag →
  ∃ w',
    SetShaderMaterial tag w = Done (tt, w')
    ∧ writes (shader w') = writes (shader w) ++ material_writes found
    ∧ uniforms (shader w') !! "material.ambientColor"
      = Some (UVec3 (OBJECT_MATERIAL.ambientColor found))
    ∧ uniforms (shader w') !! "material.ambientStrength"
      = Some (UFloat (OBJECT_MATERIAL.ambientStrength found))
    ∧ uniforms (shader w') !! "material.diffuseColor"
      = Some (UVec3 (OBJECT_MATERIAL.diffuseColor found))
    ∧ uniforms (shader w') !! "material.specularColor"
      = Some (UVec3 (OBJECT_MATERIAL.specularColor found))
    ∧ uniforms (shader w') !! "material.shininess"
      = Some (UFloat (OBJECT_MATERIAL.shininess found)).
Proof.
  intros Hptr Hsplit Hmiss Hfound. eexists. split.
  - apply SetShaderMaterial_publish; [done|].
    rewrite Hsplit. by destruct before.
  - rewrite Hsplit, FindMaterial_scan_first by done.
    split; [apply publish_frame|].
    rewrite !publish_lookup. done.
Qed.

(** X3. With a shader manager attached and at least one material defined,
    a tag that no material carries still makes [SetShaderMaterial] call the
    five setters: [FindMaterial] reports success without assigning, so the
    calls carry the values the uninitialised local [material] happens to
    hold. *)
Theorem SetShaderMaterial_miss_publishes_indeterminate (w : Machine) (tag : string) :
  m_pShaderManager (this w) ≠ NULL →
  m_objectMaterials (this w) ≠ [] →
  (∀ m, m ∈ m_objectMaterials (this w) → OBJECT_MATERIAL.tag m ≠ tag) →
  ∃ w',
    SetShaderMaterial tag w = Done (tt, w')
    ∧ writes (shader w') = writes (shader w) ++ material_writes (indeterminate w)
    ∧ this w' = this w.
Proof.
  intros Hptr Hsome Hmiss. eexists. split.
  - by apply SetShaderMaterial_publish.
  - rewrite FindMaterial_scan_miss by done.
    split; [apply publish_frame|apply publish_this].
Qed.

Lemma SetShaderMaterial_null_dereference (w : Machine) (tag : string) :
  m_pShaderManager (this w) = NULL →
  m_objectMaterials (this w) ≠ [] →
  SetShaderMaterial tag w = Undefined.
Proof.
  intros Hnull Hsome. unfold SetShaderMaterial. rewrite bind_run. cbn [get].
  destruct (m_objectMaterials (this w)) as [|m l] eqn:E; [done|].
  rewrite decide_True by (cbn; lia).
  rewrite bind_run. unfold FindMaterial. rewrite bind_run. cbn [get].
  rewrite E. rewrite decide_False by (cbn; lia). rewrite ret_run.
  cbv beta iota. apply bind_Undefined.
  unfold setVec3Value, call_shader. by rewrite Hnull.
Qed.

(** X4. [SetShaderMaterial] is the one setter that calls through
    [m_pShaderManager] without testing it: with a null pointer and at least
    one material defined its behaviour is undefined, for every tag. *)
Theorem SetShaderMaterial_null_undefined (w : Machine) (tag : string) :
  m_pShaderManager (this w) = NULL →
  m_objectMaterials (this w) ≠ [] →
  SetShaderMaterial tag w = Undefined.
Proof.
  intros Hnull Hsome. unfold SetShaderMaterial. rewrite bind_run. cbn [get].
  destruct (m_objectMaterials (this w)) as [|m l] eqn:E; [done|].
  rewrite decide_True by (cbn; lia).
  rewrite bind_run. unfold FindMaterial. rewrite bind_run. cbn [get].
  rewrite E. rewrite decide_False by (cbn; lia). rewrite ret_run.
  cbv beta iota. apply bind_Undefined.
  unfold setVec3Value, call_shader. by rewrite Hnull.
Qed.

(** ** Textures into the shader *)

(** X5. With a shader manager attached, [SetShaderTexture] sets
    "bUseTexture" to 1 and "objectTexture" to what [FindTextureSlot]
    answers for the tag: the index of a registered cell carrying the tag, or
    -1 when no registered cell carries it. A miss is not an error; the flag
    is set all the same. *)
Theorem SetShaderTexture_publishes_slot (w : Machine) (tag : string) :
  m_pShaderManager (this w) ≠ NULL →
  registry_ok (this w) →
  ∃ w' slot,
    SetShaderTexture tag w = Done (tt, w')
    ∧ FindTextureSlot tag w = Done (slot, w)
    ∧ uniforms (shader w') !! g_UseTextureName = Some (UInt 1)
    ∧ uniforms (shader w') !! g_TextureValueName = Some (USampler2D slot)
    ∧ ((∀ j e, 0 ≤ j < m_loadedTextures (this w) →
               m_textureIDs (this w) !! Z.to_nat j = Some e →
               TEXTURE_INFO.tag e ≠ tag) →
       slot = -1)
    ∧ ((∃ j e, 0 ≤ j < m_loadedTextures (this w)
               ∧ m_textureIDs (this w) !! Z.to_nat j = Some e
               ∧ TEXTURE_INFO.tag e = tag) →
       0 ≤ slot < m_loadedTextures (this w)
       ∧ ∃ e, m_textureIDs (this w) !! Z.to_nat slot = Some e
              ∧ TEXTURE_INFO.tag e = tag).
Proof.
  intros Hptr [Hlo Hhi].
  destruct (FindTextureSlot_scan_first tag w
              (Z.to_nat (m_loadedTextures (this w))) 0)
    as (slot & Hscan & Hslot); [lia|lia|].
  assert (FindTextureSlot tag w = Done (slot, w)) as Hfind
    by (unfold FindTextureSlot; by rewrite bind_run).
  eexists _, slot. split; [by apply SetShaderTexture_publish|].
  split; [done|]. rewrite !publish_lookup. split; [done|]. split; [done|].
  destruct Hslot as [[-> Hnone]|(Hrange & Hhit & _)].
  - split; [done|]. intros (j & e & Hj & Hcell & Htag).
    destruct (Hnone j e); [lia|done|done].
  - split; [|intros _; split; [lia|done]].
    intros Hnone. destruct Hhit as (e & Hcell & Htag).
    destruct (Hnone slot e); [lia|done|done].
Qed.

(** X6. The mirror of colour-then-texture: with a shader manager attached,
    [SetShaderTexture] followed by [SetShaderColor] ends with "bUseTexture"
    at 0, while "objectTexture" keeps the slot the first call wrote:
    [SetShaderColor] does not reset the sampler. *)
Theorem SetShaderTexture_then_SetShaderColor_keeps_sampler (w : Machine)
    (r g b a : R) (tag : string) :
  m_pShaderManager (this w) ≠ NULL →
  registry_ok (this w) →
  ∃ w' slot,
    (SetShaderTexture tag ;; SetShaderColor r g b a) w = Done (tt, w')
    ∧ FindTextureSlot tag w = Done (slot, w)
    ∧ uniforms (shader w') !! g_UseTextureName = Some (UInt 0)
    ∧ uniforms (shader w') !! g_TextureValueName = Some (USampler2D slot)
    ∧ uniforms (shader w') !! g_ColorValueName = Some (UVec4 (Vec4 r g b a)).
Proof.
  intros Hptr Hok.
  destruct (FindTextureSlot_Done tag w Hok) as [slot Hslot].
  eexists _, slot. split.
  - rewrite (bind_Done _ _ _ _ _ (SetShaderTexture_publish w tag slot Hptr Hslot)).
    apply SetShaderColor_publish. by rewrite publish_this.
  - split; [done|]. rewrite <- publish_app, !publish_lookup. done.
Qed.

(** ** One load, case by case *)

Lemma with_gl_with_gl (f g : OpenGL → OpenGL) (w : Machine) :
  with_gl f (with_gl g w) = with_gl (λ x, f (g x)) w.
Proof. reflexivity. Qed.

Lemma update_texture_at_Undefined (w : Machine) (index : Z)
    (f : TEXTURE_INFO.t → TEXTURE_INFO.t) :
  ¬ 0 ≤ index ∨ m_textureIDs (this w) !! Z.to_nat index = None →
  update_texture_at index f w = Undefined.
Proof.
  intros Hout. unfold update_texture_at. apply bind_Undefined.
  unfold texture_at. destruct (decide (0 ≤ index)); [|done].
  destruct Hout as [Hneg|Hnone]; [done|]. by rewrite Hnone.
Qed.

(** Everything [CreateGLTexture] does, by cases on the file, the channel
    count and the room in the array. *)
Lemma CreateGLTexture_run (w : Machine) (filename tag : string) :
  CreateGLTexture filename tag w
  = match disk w !! filename with
    | None => Done (false, w)
    | Some img =>
        let id := Z.pos (fresh (texture_names (gl w))) in
        match texture_formats (colorChannels img) with
        | None => Done (false, with_gl (gl_after (setup_calls id)) w)
        | Some formats =>
            if decide (0 ≤ m_loadedTextures (this w)) then
              match m_textureIDs (this w) !! Z.to_nat (m_loadedTextures (this w)) with
              | Some _ =>
                  Done (true,
                    mkMachine
                      (mkSceneManager (m_pShaderManager (this w))
                         (<[Z.to_nat (m_loadedTextures (this w))
                            := TEXTURE_INFO.mk id tag]> (m_textureIDs (this w)))
                         (m_loadedTextures (this w) + 1)
                         (m_objectMaterials (this w)))
                      (shader w)
                      (gl_after (setup_calls id ++ upload_calls img formats) (gl w))
                      (disk w) (drawn w) (indeterminate w))
              | None => Undefined
              end
            else Undefined
        end
    end.
Proof.
  unfold CreateGLTexture. rewrite bind_run. unfold stbi_load.
  destruct (disk w !! filename) as [img|]; [|done].
  rewrite bind_run. cbn [gl_gen_texture].
  do 5 (rewrite bind_run; cbn [gl_call]).
  rewrite !with_gl_with_gl.
  cbv zeta. unfold texture_formats.
  match goal with |- (match ?c with _ => _ end) _ = _ =>
    destruct c as [[internalformat format]|]
  end.
  - do 3 (rewrite bind_run; cbn [gl_call]).
    rewrite !with_gl_with_gl.
    rewrite bind_run. cbn [get]. rewrite bind_run.
    cbn [this with_gl].
    destruct (decide (0 ≤ m_loadedTextures (this w))) as [Hpos|Hneg].
    2:{ rewrite update_texture_at_Undefined; [done|]. by left. }
    destruct (m_textureIDs (this w) !! Z.to_nat (m_loadedTextures (this w)))
      as [e|] eqn:He.
    2:{ rewrite update_texture_at_Undefined; [done|]. by right. }
    erewrite update_texture_at_Done; [|exact Hpos|exact He].
    rewrite bind_run.
    erewrite update_texture_at_Done; [|exact Hpos|].
    2:{ cbn [this with_this with_gl m_textureIDs].
        apply list_lookup_insert_eq. exact (lookup_lt_Some _ _ _ He). }
    rewrite bind_run. cbn [set_loadedTextures]. rewrite ret_run.
    unfold with_this, with_gl, gl_after, setup_calls, upload_calls.
    cbn [this shader gl disk drawn indeterminate m_pShaderManager m_textureIDs
         m_loadedTextures m_objectMaterials texture_names gl_calls fst snd
         TEXTURE_INFO.ID TEXTURE_INFO.tag].
    rewrite list_insert_insert_eq. rewrite <- !app_assoc. reflexivity.
  - rewrite ret_run. unfold with_gl, gl_after, setup_calls.
    cbn [this shader gl disk drawn indeterminate texture_names gl_calls].
    rewrite <- !app_assoc. reflexivity.
Qed.

Lemma texture_formats_supported (channels : Z) :
  is_Some (texture_formats channels) ↔ channels = 3 ∨ channels = 4.
Proof.
  unfold texture_formats.
  destruct (decide (channels = 3)); [by split; eauto|].
  destruct (decide (channels = 4)); [by split; eauto|].
  split; [by intros [? ?]|by intros [?|?]].
Qed.

(** X7. A file that decodes to an unsupported channel count costs an
    OpenGL texture: before returning [false], [CreateGLTexture] has
    generated a texture name that was not in use, bound it and set its
    four parameters. The name stays in use and bound: nothing deletes or
    unbinds it, and no cell of the registry refers to it. *)
Theorem CreateGLTexture_unsupported_leaks_texture (w : Machine)
    (filename tag : string) (img : stb_image) :
  disk w !! filename = Some img →
  colorChannels img ≠ 3 →
  colorChannels img ≠ 4 →
  ∃ w' n,
    CreateGLTexture filename tag w = Done (false, w')
    ∧ (n ∉ texture_names (gl w))
    ∧ texture_names (gl w') = {[n]} ∪ texture_names (gl w)
    ∧ gl_calls (gl w') = gl_calls (gl w) ++ setup_calls (Z.pos n)
    ∧ this w' = this w
    ∧ shader w' = shader w
    ∧ drawn w' = drawn w.
Proof.
  intros Hdisk H3 H4. exists (with_gl (gl_after (setup_calls
    (Z.pos (fresh (texture_names (gl w)))))) w), (fresh (texture_names (gl w))).
  split.
  - rewrite CreateGLTexture_run, Hdisk. cbv zeta.
    destruct (texture_formats (colorChannels img)) as [formats|] eqn:E; [|done].
    destruct (proj1 (texture_formats_supported (colorChannels img)));
      [by rewrite E| |]; done.
  - split; [apply is_fresh|]. done.
Qed.

(** X8. With room in the array, [CreateGLTexture] always returns, and it
    returns [true] exactly when the file decodes to an image with three or
    four channels. A file that cannot be decoded leaves the whole machine
    as it was: no OpenGL call is made. *)
Theorem CreateGLTexture_succeeds_iff_supported (w : Machine) (filename tag : string) :
  0 ≤ m_loadedTextures (this w) < Z.of_nat (length (m_textureIDs (this w))) →
  ∃ b w',
    CreateGLTexture filename tag w = Done (b, w')
    ∧ (b = true ↔ ∃ img, disk w !! filename = Some img
                         ∧ (colorChannels img = 3 ∨ colorChannels img = 4))
    ∧ (disk w !! filename = None → w' = w).
Proof.
  intros [Hlo Hhi]. rewrite CreateGLTexture_run.
  destruct (disk w !! filename) as [img|] eqn:Hdisk.
  - cbv zeta.
    pose proof (texture_formats_supported (colorChannels img)) as Hsupp.
    destruct (texture_formats (colorChannels img)) as [formats|].
    + rewrite decide_True by done.
      destruct (lookup_lt_is_Some_2 (m_textureIDs (this w))
                  (Z.to_nat (m_loadedTextures (this w)))) as [e ->]; [lia|].
      eexists _, _. split; [done|]. split; [|done].
      split; [|done]. intros _. exists img. split; [done|].
      apply Hsupp. by eexists.
    + eexists _, _. split; [done|]. split; [|done].
      split; [done|]. intros (img' & [= <-] & Hch).
      apply Hsupp in Hch. by destruct Hch.
  - eexists _, _. split; [done|]. split; [|done].
    split; [done|]. by intros (img & ? & _).
Qed.

(** X9. A load that returns [true] has put the new texture in the cell at
    the counter and nowhere else: that cell holds the tag and an OpenGL name
    that was not in use before, the counter is one higher, every other
    cell, the materials and the shader manager pointer are as before, and
    the registry invariant is kept. The OpenGL calls made are the set-up of
    the texture followed by the upload in the format of the channel count
    (RGB for three, RGBA for four), the mipmaps and the unbinding; the
    uniforms, the draws and the disk are untouched. *)
Theorem CreateGLTexture_registers_fresh_texture (w w' : Machine)
    (filename tag : string) :
  CreateGLTexture filename tag w = Done (true, w') →
  ∃ img n formats,
    disk w !! filename = Some img
    ∧ ((colorChannels img = 3 ∧ formats = (GL_RGB8, GL_RGB))
       ∨ (colorChannels img = 4 ∧ formats = (GL_RGBA8, GL_RGBA)))
    ∧ (n ∉ texture_names (gl w))
    ∧ texture_names (gl w') = {[n]} ∪ texture_names (gl w)
    ∧ gl_calls (gl w')
      = gl_calls (gl w) ++ setup_calls (Z.pos n) ++ upload_calls img formats
    ∧ m_textureIDs (this w') !! Z.to_nat (m_loadedTextures (this w))
      = Some (TEXTURE_INFO.mk (Z.pos n) tag)
    ∧ (∀ j, j ≠ Z.to_nat (m_loadedTextures (this w)) →
            m_textureIDs (this w') !! j = m_textureIDs (this w) !! j)
    ∧ length (m_textureIDs (this w')) = length (m_textureIDs (this w))
    ∧ m_loadedTextures (this w') = m_loadedTextures (this w) + 1
    ∧ m_objectMaterials (this w') = m_objectMaterials (this w)
    ∧ m_pShaderManager (this w') = m_pShaderManager (this w)
    ∧ (registry_ok (this w) → registry_ok (this w'))
    ∧ shader w' = shader w
    ∧ drawn w' = drawn w
    ∧ disk w' = disk w.
Proof.
  rewrite CreateGLTexture_run.
  destruct (disk w !! filename) as [img|] eqn:Hdisk; [|done]. cbv zeta.
  destruct (texture_formats (colorChannels img)) as [formats|] eqn:Hf; [|done].
  destruct (decide (0 ≤ m_loadedTextures (this w))) as [Hpos|]; [|done].
  destruct (m_textureIDs (this w) !! Z.to_nat (m_loadedTextures (this w)))
    as [e|] eqn:He; [|done].
  intros [= <-]. exists img, (fresh (texture_names (gl w))), formats.
  apply lookup_lt_Some in He.
  split; [done|]. split.
  { unfold texture_formats in Hf.
    destruct (decide (colorChannels img = 3)); [left; by simplify_eq|].
    destruct (decide (colorChannels img = 4)); [right; by simplify_eq|done]. }
  split; [apply is_fresh|]. split; [done|]. split; [done|].
  cbn [this m_textureIDs m_loadedTextures m_objectMaterials m_pShaderManager].
  split; [by apply list_lookup_insert_eq|].
  split; [intros j Hj; by apply list_lookup_insert_ne|].
  split; [apply length_insert|]. split; [done|]. split; [done|].
  split; [done|]. split; [|done].
  unfold registry_ok. cbn. rewrite length_insert. lia.
Qed.

(** X10. [CreateGLTexture] does not test the counter against the capacity
    of the array: once the array is full, loading one more supported image
    indexes the array out of range, which is undefined behaviour. *)
Theorem CreateGLTexture_full_array_undefined (w : Machine)
    (filename tag : string) (img : stb_image) :
  disk w !! filename = Some img →
  colorChannels img = 3 ∨ colorChannels img = 4 →
  m_loadedTextures (this w) = Z.of_nat (length (m_textureIDs (this w))) →
  CreateGLTexture filename tag w = Undefined.
Proof.
  intros Hdisk Hch Hfull. rewrite CreateGLTexture_run, Hdisk. cbv zeta.
  apply texture_formats_supported in Hch. destruct Hch as [formats ->].
  rewrite decide_True by lia.
  rewrite lookup_ge_None_2; [done|]. lia.
Qed.

(** ** Binding and looking up textures *)

Lemma BindGLTextures_loop (n : nat) :
  ∀ (i : Z) (w : Machine),
    0 ≤ i →
    i + Z.of_nat n ≤ Z.of_nat (length (m_textureIDs (this w))) →
    for_loop n i (λ i,
      gl_call (glActiveTexture i);;
      e ← texture_at i;
      gl_call (glBindTexture (TEXTURE_INFO.ID e))) w
    = Done (tt, with_gl (λ g, mkOpenGL (texture_names g)
                                (gl_calls g
                                 ++ bind_calls (take n (drop (Z.to_nat i)
                                                          (m_textureIDs (this w)))) i))
                  w).
Proof.
  induction n as [|n IH]; intros i w Hpos Hfit.
  - cbn [for_loop take bind_calls]. rewrite ret_run. unfold with_gl.
    rewrite app_nil_r. by destruct w as [? ? []].
  - destruct (lookup_lt_is_Some_2 (m_textureIDs (this w)) (Z.to_nat i))
      as [e He]; [lia|].
    cbn [for_loop]. rewrite !bind_run. cbn [gl_call]. rewrite ?bind_run.
    erewrite texture_at_Done; [|done|exact He].
    cbn [gl_call]. rewrite with_gl_with_gl.
    rewrite IH; [|lia|cbn [this with_gl]; lia].
    rewrite with_gl_with_gl. cbn [this with_gl].
    rewrite (drop_S _ _ _ He). cbn [take bind_calls].
    replace (Z.to_nat (i + 1)) with (S (Z.to_nat i)) by lia.
    unfold with_gl. cbn [texture_names gl_calls]. by rewrite <- !app_assoc.
Qed.

Lemma BindGLTextures_binds_slots (w : Machine) :
  registry_ok (this w) →
  ∃ w',
    BindGLTextures w = Done (tt, w')
    ∧ gl_calls (gl w') = gl_calls (gl w) ++ bind_calls (registered (this w)) 0
    ∧ this w' = this w
    ∧ shader w' = shader w
    ∧ drawn w' = drawn w.
Proof.
  intros [Hlo Hhi]. unfold BindGLTextures. rewrite bind_run. cbn [get].
  rewrite BindGLTextures_loop by lia. by eexists.
Qed.

(** X11. On a well-formed registry [BindGLTextures] binds every registered
    texture to the texture unit of its slot: its OpenGL calls are, for the
    cells 0, 1, 2, ... in turn, [glActiveTexture] of the cell's index
    followed by [glBindTexture] of the cell's texture name, and nothing
    else. The registry, the names in use, the uniforms and the draws are
    untouched; with nothing loaded no call is made. *)
Theorem BindGLTextures_binds_each_slot (w : Machine) :
  registry_ok (this w) →
  ∃ w',
    BindGLTextures w = Done (tt, w')
    ∧ gl_calls (gl w') = gl_calls (gl w) ++ bind_calls (registered (this w)) 0
    ∧ length (bind_calls (registered (this w)) 0)
      = (2 * Z.to_nat (m_loadedTextures (this w)))%nat
    ∧ texture_names (gl w') = texture_names (gl w)
    ∧ this w' = this w
    ∧ shader w' = shader w
    ∧ drawn w' = drawn w.
Proof.
  intros [Hlo Hhi]. unfold BindGLTextures. rewrite bind_run. cbn [get].
  rewrite BindGLTextures_loop by lia.
  eexists. split; [done|]. split; [done|]. split; [|done].
  unfold registered.
  assert (∀ (l : list TEXTURE_INFO.t) u,
            length (bind_calls l u) = (2 * length l)%nat) as Hlen.
  { induction l as [|e l IH]; intros u; [done|]. cbn. rewrite IH. lia. }
  rewrite Hlen, length_take. lia.
Qed.



(** ** The lookup of a slot as a function of the registry *)

Lemma FindTextureSlot_scan_find_slot (tag : string) (w : Machine) (n : nat) :
  ∀ index,
    0 ≤ index →
    index + Z.of_nat n ≤ Z.of_nat (length (m_textureIDs (this w))) →
    FindTextureSlot_scan tag n index w
    = Done (find_slot tag (take n (drop (Z.to_nat index) (m_textureIDs (this w))))
              index, w).
Proof.
  induction n as [|n IH]; intros index Hpos Hfit; [done|].
  destruct (lookup_lt_is_Some_2 (m_textureIDs (this w)) (Z.to_nat index))
    as [e He]; [lia|].
  cbn [FindTextureSlot_scan].
  rewrite (bind_Done _ _ w w e) by (by apply texture_at_Done).
  rewrite (drop_S _ _ _ He). cbn [take find_slot].
  destruct (decide (TEXTURE_INFO.tag e = tag)); [done|].
  rewrite IH by lia. by replace (Z.to_nat (index + 1)) with (S (Z.to_nat index)) by lia.
Qed.

Lemma FindTextureSlot_slot_of (tag : string) (w : Machine) :
  registry_ok (this w) →
  FindTextureSlot tag w = Done (slot_of (this w) tag, w).
Proof.
  intros [Hlo Hhi]. unfold FindTextureSlot. rewrite bind_run. cbn [get].
  by rewrite FindTextureSlot_scan_find_slot by lia.
Qed.

Lemma find_slot_first (tag : string) (entries : list TEXTURE_INFO.t) :
  ∀ index (i : nat) e,
    entries !! i = Some e →
    TEXTURE_INFO.tag e = tag →
    (∀ j e', (j < i)%nat → entries !! j = Some e' → TEXTURE_INFO.tag e' ≠ tag) →
    find_slot tag entries index = index + Z.of_nat i.
Proof.
  induction entries as [|e0 entries IH]; intros index i e Hi Htag Hfirst; [done|].
  destruct i as [|i].
  - injection Hi as ->. cbn. rewrite decide_True by done. lia.
  - cbn. rewrite decide_False by (by apply (Hfirst 0%nat); [lia|]).
    rewrite (IH (index + 1) i e); [lia|done|done|].
    intros j e' Hj. apply (Hfirst (S j)). lia.
Qed.

Lemma find_slot_none (tag : string) (entries : list TEXTURE_INFO.t) :
  ∀ index,
    (∀ e, e ∈ entries → TEXTURE_INFO.tag e ≠ tag) →
    find_slot tag entries index = -1.
Proof.
  induction entries as [|e0 entries IH]; intros index Hnone; [done|].
  cbn. rewrite decide_False by (apply Hnone; left).
  apply IH. intros e He. apply Hnone. by right.
Qed.

(** ** Sequences of loads *)

Lemma CreateGLTexture_frame (w : Machine) (filename tag : string) :
  0 ≤ m_loadedTextures (this w) < Z.of_nat (length (m_textureIDs (this w))) →
  ∃ b w',
    CreateGLTexture filename tag w = Done (b, w')
    ∧ (b = true ↔ ∃ img, disk w !! filename = Some img
                         ∧ (colorChannels img = 3 ∨ colorChannels img = 4))
    ∧ disk w' = disk w
    ∧ shader w' = shader w
    ∧ drawn w' = drawn w
    ∧ indeterminate w' = indeterminate w
    ∧ length (m_textureIDs (this w')) = length (m_textureIDs (this w))
    ∧ m_objectMaterials (this w') = m_objectMaterials (this w)
    ∧ m_pShaderManager (this w') = m_pShaderManager (this w)
    ∧ m_loadedTextures (this w')
      = m_loadedTextures (this w) + (if b then 1 else 0).
Proof.
  intros [Hlo Hhi]. rewrite CreateGLTexture_run.
  destruct (disk w !! filename) as [img|] eqn:Hdisk.
  - cbv zeta.
    pose proof (texture_formats_supported (colorChannels img)) as Hsupp.
    destruct (texture_formats (colorChannels img)) as [formats|].
    + rewrite decide_True by done.
      destruct (lookup_lt_is_Some_2 (m_textureIDs (this w))
                  (Z.to_nat (m_loadedTextures (this w)))) as [e ->]; [lia|].
      eexists _, _. split; [done|]. split.
      { split; [|done]. intros _. exists img. split; [done|].
        apply Hsupp. by eexists. }
      cbn [this disk shader drawn indeterminate m_textureIDs m_objectMaterials
           m_pShaderManager m_loadedTextures].
      by rewrite length_insert.
    + eexists _, _. split; [done|]. split.
      { split; [done|]. intros (img' & [= <-] & Hch).
        apply Hsupp in Hch. by destruct Hch. }
      cbn [this disk shader drawn indeterminate with_gl]. split; [done|].
      split; [done|]. split; [done|]. split; [done|]. split; [done|].
      split; [done|]. split; [done|]. lia.
  - eexists _, _. split; [done|]. split.
    { split; [done|]. by intros (img & ? & _). }
    split; [done|]. split; [done|]. split; [done|]. split; [done|].
    split; [done|]. split; [done|]. split; [done|]. lia.
Qed.

(** A sequence of loads that fits in the array always runs to completion,
    leaving everything but the registry and OpenGL alone. *)
Lemma CreateGLTextures_total (loads : list (string * string)) :
  ∀ w,
    0 ≤ m_loadedTextures (this w) →
    m_loadedTextures (this w) + Z.of_nat (length loads)
    ≤ Z.of_nat (length (m_textureIDs (this w))) →
    ∃ results w',
      CreateGLTextures loads w = Done (results, w')
      ∧ length results = length loads
      ∧ (∀ i f t, loads !! i = Some (f, t) →
           (∃ img, disk w !! f = Some img
                   ∧ (colorChannels img = 3 ∨ colorChannels img = 4)) →
           results !! i = Some true)
      ∧ disk w' = disk w
      ∧ shader w' = shader w
      ∧ drawn w' = drawn w
      ∧ indeterminate w' = indeterminate w
      ∧ m_objectMaterials (this w') = m_objectMaterials (this w)
      ∧ m_pShaderManager (this w') = m_pShaderManager (this w).
Proof.
  induction loads as [|[f t] loads IH]; intros w Hlo Hfit.
  - exists [], w. done.
  - cbn [length] in Hfit.
    destruct (CreateGLTexture_frame w f t)
      as (b & w1 & Hrun & Hb & Hdisk & Hshader & Hdrawn & Hind & Hlen & Hmat
          & Hptr & Hcount); [lia|].
    destruct (IH w1) as (bs & w2 & Hrun2 & Hlen2 & Htrue & Hdisk2 & Hshader2
                         & Hdrawn2 & Hind2 & Hmat2 & Hptr2).
    { rewrite Hcount. destruct b; lia. }
    { rewrite Hcount, Hlen. destruct b; lia. }
    exists (b :: bs), w2. split.
    { cbn [CreateGLTextures]. rewrite (bind_Done _ _ _ _ _ Hrun).
      by rewrite (bind_Done _ _ _ _ _ Hrun2). }
    split; [cbn; lia|]. split.
    { intros [|i] f' t' Hi Hsupp.
      - injection Hi as <- <-. cbn. f_equal. by apply Hb.
      - cbn in Hi |- *. apply (Htrue i f' t' Hi). by rewrite Hdisk. }
    repeat split; congruence.
Qed.

(** [LoadSceneTextures] is the sequence of the six loads followed by the
    binding. *)
Lemma LoadSceneTextures_as_sequence (w : Machine) :
  LoadSceneTextures w = (CreateGLTextures scene_loads ≫= λ _, BindGLTextures) w.
Proof.
  unfold LoadSceneTextures, scene_loads. cbn [CreateGLTextures].
  rewrite !bind_run.
  repeat (match goal with
          | |- context [CreateGLTexture ?f ?t ?w0] =>
              destruct (CreateGLTexture f t w0) as [[? ?]|]; [|done]
          end; rewrite ?bind_run, ?ret_run).
  done.
Qed.


(** When the registered cells carry pairwise different tags, each tag
    resolves to the index of its cell. *)
Lemma slot_of_tags (o : SceneManager) (ts : list string) :
  m_loadedTextures o = Z.of_nat (length ts) →
  (∀ i t, ts !! i = Some t →
          ∃ id, m_textureIDs o !! i = Some (TEXTURE_INFO.mk id t)) →
  NoDup ts →
  ∀ i t, ts !! i = Some t → slot_of o t = Z.of_nat i.
Proof.
  intros Hcount Hcells Hnodup i t Hi.
  destruct (Hcells i t Hi) as [id Hcell].
  pose proof (lookup_lt_Some _ _ _ Hi) as Hlt.
  unfold slot_of, registered. rewrite Hcount, Nat2Z.id.
  rewrite (find_slot_first t _ 0 i (TEXTURE_INFO.mk id t)); [lia| |done|].
  - rewrite lookup_take_lt by done. exact Hcell.
  - intros j e' Hj He' Htag.
    rewrite lookup_take_lt in He' by lia.
    destruct (lookup_lt_is_Some_2 ts j) as [t' Ht']; [lia|].
    destruct (Hcells j t' Ht') as [id' Hcell']. simplify_eq. cbn in Hi.
    pose proof (NoDup_lookup _ _ _ _ Hnodup Hi Ht'). lia.
Qed.


Lemma LoadSceneTextures_all_loaded (w : Machine) :
  m_loadedTextures (this w) = 0 →
  6 ≤ Z.of_nat (length (m_textureIDs (this w))) →
  (∀ f t, (f, t) ∈ scene_loads →
          ∃ img, disk w !! f = Some img
                 ∧ (colorChannels img = 3 ∨ colorChannels img = 4)) →
  ∃ w',
    LoadSceneTextures w = Done (tt, w')
    ∧ registry_ok (this w')
    ∧ m_loadedTextures (this w') = 6
    ∧ TEXTURE_INFO.tag <$> registered (this w')
      = ["stand"; "mug"; "screen"; "handle"; "base"; "plane"]
    ∧ (∀ i t, ["stand"; "mug"; "screen"; "handle"; "base"; "plane"] !! i = Some t →
              slot_of (this w') t = Z.of_nat i)
    ∧ m_pShaderManager (this w') = m_pShaderManager (this w)
    ∧ m_objectMaterials (this w') = m_objectMaterials (this w)
    ∧ shader w' = shader w
    ∧ drawn w' = drawn w
    ∧ indeterminate w' = indeterminate w.
Proof.
  intros Hzero Hcap Hfiles.
  destruct (CreateGLTextures_total scene_loads w)
    as (results & w1 & Hrun & Hlen & Htrue & _ & Hshader & Hdrawn & Hind & Hmat
        & Hptr); [lia|cbn; lia|].
  assert (results = [true; true; true; true; true; true]) as ->.
  { assert (∀ i, (i < 6)%nat → results !! i = Some true) as Hall.
    { intros i Hi.
      destruct (lookup_lt_is_Some_2 scene_loads i) as [[f t] Hft]; [done|].
      apply (Htrue i f t Hft), (Hfiles f t). by eapply list_elem_of_lookup_2. }
    do 6 (destruct results as [|? results]; [done|]).
    destruct results; [|done].
    pose proof (Hall 0%nat) as H0. pose proof (Hall 1%nat) as H1.
    pose proof (Hall 2%nat) as H2. pose proof (Hall 3%nat) as H3.
    pose proof (Hall 4%nat) as H4. pose proof (Hall 5%nat) as H5.
    cbn in H0, H1, H2, H3, H4, H5.
    by rewrite (Some_inj _ _ (H0 ltac:(lia))), (Some_inj _ _ (H1 ltac:(lia))),
      (Some_inj _ _ (H2 ltac:(lia))), (Some_inj _ _ (H3 ltac:(lia))),
      (Some_inj _ _ (H4 ltac:(lia))), (Some_inj _ _ (H5 ltac:(lia))). }
  destruct (CreateGLTextures_registry scene_loads w w1
              [true; true; true; true; true; true])
    as (Hok & Hcount & _ & Hnew); [unfold registry_ok; lia|done|].
  rewrite Hzero in Hcount, Hnew. cbn in Hcount.
  destruct (BindGLTextures_binds_slots w1 Hok)
    as (w2 & Hbind & _ & Hthis & Hshader2 & Hdrawn2).
  assert (indeterminate w2 = indeterminate w1) as Hind2.
  { unfold BindGLTextures in Hbind. rewrite bind_run in Hbind. cbn [get] in Hbind.
    destruct Hok as [Hlo Hhi].
    rewrite BindGLTextures_loop in Hbind by lia. by injection Hbind as <-. }
  set (ts := ["stand"; "mug"; "screen"; "handle"; "base"; "plane"]).
  assert (∀ i t, ts !! i = Some t →
            ∃ id, m_textureIDs (this w1) !! i = Some (TEXTURE_INFO.mk id t))
    as Hcells by exact Hnew.
  assert (NoDup ts) as Hnodup
    by (apply (bool_decide_unpack (NoDup ts)); vm_compute; exact I).
  exists w2.
  rewrite LoadSceneTextures_as_sequence, (bind_Done _ _ _ _ _ Hrun).
  split; [done|]. rewrite Hthis. split; [done|]. split; [done|]. split.
  - unfold registered. rewrite Hcount.
    apply list_eq. intros i. rewrite list_lookup_fmap.
    destruct (decide (i < 6)%nat) as [Hi|Hi].
    + destruct (lookup_lt_is_Some_2 ts i) as [t Ht]; [done|].
      destruct (Hcells i t Ht) as [id Hcell].
      rewrite lookup_take_lt by (cbn; lia). rewrite Hcell. cbn. by rewrite <- Ht.
    + rewrite lookup_take_ge by (cbn; lia).
      symmetry. apply lookup_ge_None_2. cbn. lia.
  - split; [exact (slot_of_tags (this w1) ts Hcount Hcells Hnodup)|].
    repeat split; congruence.
Qed.

(** X14. When the six texture files of the scene decode to supported
    images and the registry starts empty with room for six,
    [LoadSceneTextures] registers all six, in the order of its calls: the
    tags "stand", "mug", "screen", "handle", "base" and "plane" resolve to
    the slots 0 to 5. *)
Theorem LoadSceneTextures_slots (w : Machine) :
  m_loadedTextures (this w) = 0 →
  6 ≤ Z.of_nat (length (m_textureIDs (this w))) →
  (∀ f t, (f, t) ∈ scene_loads →
          ∃ img, disk w !! f = Some img
                 ∧ (colorChannels img = 3 ∨ colorChannels img = 4)) →
  ∃ w',
    LoadSceneTextures w = Done (tt, w')
    ∧ m_loadedTextures (this w') = 6
    ∧ TEXTURE_INFO.tag <$> registered (this w')
      = ["stand"; "mug"; "screen"; "handle"; "base"; "plane"]
    ∧ FindTextureSlot "stand" w' = Done (0, w')
    ∧ FindTextureSlot "mug" w' = Done (1, w')
    ∧ FindTextureSlot "screen" w' = Done (2, w')
    ∧ FindTextureSlot "handle" w' = Done (3, w')
    ∧ FindTextureSlot "base" w' = Done (4, w')
    ∧ FindTextureSlot "plane" w' = Done (5, w').
Proof.
  intros Hzero Hcap Hfiles.
  destruct (LoadSceneTextures_all_loaded w Hzero Hcap Hfiles)
    as (w' & Hrun & Hok & Hcount & Htags & Hslots & _).
  exists w'. split; [exact Hrun|]. split; [done|]. split; [done|].
  rewrite !(FindTextureSlot_slot_of _ w' Hok).
  by rewrite (Hslots 0%nat "stand"), (Hslots 1%nat "mug"),
    (Hslots 2%nat "screen"), (Hslots 3%nat "handle"), (Hslots 4%nat "base"),
    (Hslots 5%nat "plane").
Qed.

(** ** Defining materials *)

Lemma DefineObjectMaterials_run (w : Machine) :
  DefineObjectMaterials w
  = Done (tt, with_this (λ o, mkSceneManager (m_pShaderManager o) (m_textureIDs o)
                                (m_loadedTextures o)
                                (m_objectMaterials o ++ scene_materials)) w).
Proof.
  unfold DefineObjectMaterials, scene_materials.
  do 4 (rewrite bind_run; cbn [push_back_material]; unfold with_this;
        cbn [this shader gl disk drawn indeterminate m_pShaderManager
             m_textureIDs m_loadedTextures m_objectMaterials]).
  unfold push_back_material, with_this.
  cbn [this shader gl disk drawn indeterminate m_pShaderManager m_textureIDs
       m_loadedTextures m_objectMaterials].
  by rewrite <- !app_assoc.
Qed.

(** Looking a tag up in a list followed by another: the first list decides
    whenever it has the tag. *)
Lemma FindMaterial_scan_app (tag : string) (l l' : list OBJECT_MATERIAL.t)
    (material : OBJECT_MATERIAL.t) :
  FindMaterial_scan tag (l ++ l') material
  = if decide (tag ∈ OBJECT_MATERIAL.tag <$> l)
    then FindMaterial_scan tag l material
    else FindMaterial_scan tag l' material.
Proof.
  induction l as [|m l IH]; [done|]. cbn.
  destruct (decide (OBJECT_MATERIAL.tag m = tag)) as [Heq|Hne].
  - rewrite decide_True; [done|]. rewrite <- Heq. left.
  - rewrite IH. destruct (decide (tag ∈ OBJECT_MATERIAL.tag <$> l)) as [Hin|Hout].
    + rewrite decide_True; [done|]. by right.
    + rewrite decide_False; [done|].
      intros Hin. apply elem_of_cons in Hin. destruct Hin as [Heq|Hin]; auto.
Qed.

Lemma FindMaterial_run (w : Machine) (tag : string) (material : OBJECT_MATERIAL.t) :
  FindMaterial tag material w
  = Done (match m_objectMaterials (this w) with
          | [] => (false, material)
          | _ => (true, FindMaterial_scan tag (m_objectMaterials (this w)) material)
          end, w).
Proof.
  unfold FindMaterial. rewrite bind_run. cbn [get].
  by destruct (m_objectMaterials (this w)).
Qed.

(** X15. After [DefineObjectMaterials] on a registry in which none of the
    five tags was in use, every one of "cheesy", "glassy", "metal", "shiny"
    and "wood" is found, with the five values given in the source; the
    lookup hands back the caller's own tag field untouched. The textures,
    the uniforms and the draws are as before. *)
Theorem DefineObjectMaterials_then_FindMaterial (w : Machine)
    (m material : OBJECT_MATERIAL.t) :
  (∀ m0, m0 ∈ m_objectMaterials (this w) →
         OBJECT_MATERIAL.tag m0 ∉ OBJECT_MATERIAL.tag <$> scene_materials) →
  m ∈ scene_materials →
  ∃ w',
    DefineObjectMaterials w = Done (tt, w')
    ∧ FindMaterial (OBJECT_MATERIAL.tag m) material w'
      = Done ((true, assign_values m material), w')
    ∧ m_objectMaterials (this w') = m_objectMaterials (this w) ++ scene_materials
    ∧ m_textureIDs (this w') = m_textureIDs (this w)
    ∧ m_loadedTextures (this w') = m_loadedTextures (this w)
    ∧ shader w' = shader w
    ∧ drawn w' = drawn w.
Proof.
  intros Hfree Hm. eexists. split; [apply DefineObjectMaterials_run|].
  split; [|done]. rewrite FindMaterial_run.
  cbn [this with_this m_objectMaterials].
  destruct (m_objectMaterials (this w) ++ scene_materials) eqn:E.
  { by destruct (m_objectMaterials (this w)). }
  rewrite <- E. do 2 f_equal. rewrite FindMaterial_scan_app.
  rewrite decide_False.
  - unfold scene_materials in Hm |- *.
    repeat (apply elem_of_cons in Hm; destruct Hm as [->|Hm]; [done|]).
    by apply elem_of_nil in Hm.
  - intros Hin. apply list_elem_of_fmap in Hin. destruct Hin as (m0 & Htag & Hm0).
    apply (Hfree m0 Hm0). rewrite <- Htag. apply list_elem_of_fmap. by exists m.
Qed.

(** X16. Materials are only ever appended and the first match wins, so
    defining the scene's materials a second time changes no lookup: for
    every tag and every output structure, [FindMaterial] answers after two
    calls of [DefineObjectMaterials] what it answers after one. *)
Theorem DefineObjectMaterials_twice_same_lookups (w : Machine) (tag : string)
    (material : OBJECT_MATERIAL.t) :
  ∃ w1 w2 answer,
    DefineObjectMaterials w = Done (tt, w1)
    ∧ DefineObjectMaterials w1 = Done (tt, w2)
    ∧ FindMaterial tag material w1 = Done (answer, w1)
    ∧ FindMaterial tag material w2 = Done (answer, w2)
    ∧ length (m_objectMaterials (this w2))
      = (length (m_objectMaterials (this w)) + 10)%nat.
Proof.
  eexists _, _, _. split; [apply DefineObjectMaterials_run|].
  split; [apply DefineObjectMaterials_run|].
  split; [apply FindMaterial_run|]. split.
  - rewrite FindMaterial_run. f_equal.
    cbn [this with_this m_objectMaterials].
    set (l := m_objectMaterials (this w) ++ scene_materials).
    assert (l ≠ []) as Hl by (unfold l; by destruct (m_objectMaterials (this w))).
    destruct l as [|m0 l0] eqn:El; [done|]. rewrite <- El.
    destruct (l ++ scene_materials) eqn:E; [by rewrite El in E|]. rewrite <- E.
    f_equal. rewrite (FindMaterial_scan_app tag l scene_materials).
    destruct (decide (tag ∈ OBJECT_MATERIAL.tag <$> l)) as [Hin|Hout]; [done|].
    assert (tag ∉ OBJECT_MATERIAL.tag <$> scene_materials) as Hout'.
    { intros Hin. apply Hout. unfold l. rewrite fmap_app.
      apply elem_of_app. by right. }
    rewrite !FindMaterial_scan_miss; [done| |].
    + intros m Hm Htag. apply Hout. apply list_elem_of_fmap. by exists m.
    + intros m Hm Htag. apply Hout'. apply list_elem_of_fmap. by exists m.
  - cbn [this with_this m_objectMaterials]. rewrite !length_app. cbn. lia.
Qed.

(** ** What the teardown leaves behind *)

Lemma DestroyGLTextures_loop_cells (n : nat) :
  ∀ (i : Z) (w : Machine),
    0 ≤ i →
    i + Z.of_nat n ≤ Z.of_nat (length (m_textureIDs (this w))) →
    ∃ w' (names : list positive),
      for_loop n i (λ i,
        name ← gl_gen_texture;
        update_texture_at i (λ e, TEXTURE_INFO.mk name (TEXTURE_INFO.tag e))) w
      = Done (tt, w')
      ∧ gl_calls (gl w')
        = gl_calls (gl w) ++ ((λ x, glGenTextures (Z.pos x)) <$> names)
      ∧ length names = n
      ∧ texture_names (gl w) ⊆ texture_names (gl w')
      ∧ (∀ x, x ∈ names →
              (x ∉ texture_names (gl w)) ∧ (x ∈ texture_names (gl w')))
      ∧ TEXTURE_INFO.tag <$> m_textureIDs (this w')
        = TEXTURE_INFO.tag <$> m_textureIDs (this w)
      ∧ (∀ k, (k < n)%nat →
           ∃ e x, m_textureIDs (this w') !! (Z.to_nat i + k)%nat = Some e
                  ∧ names !! k = Some x
                  ∧ TEXTURE_INFO.ID e = Z.pos x)
      ∧ (∀ j, (j < Z.to_nat i)%nat →
              m_textureIDs (this w') !! j = m_textureIDs (this w) !! j)
      ∧ m_loadedTextures (this w') = m_loadedTextures (this w)
      ∧ m_objectMaterials (this w') = m_objectMaterials (this w)
      ∧ m_pShaderManager (this w') = m_pShaderManager (this w)
      ∧ shader w' = shader w
      ∧ drawn w' = drawn w.
Proof.
  induction n as [|n IH]; intros i w Hpos Hfit.
  - exists w, []. cbn. rewrite app_nil_r.
    split; [done|]. split; [done|]. split; [done|]. split; [done|].
    split; [intros x Hx; by apply elem_of_nil in Hx|].
    split; [done|]. split; [intros k Hk; lia|]. done.
  - destruct (lookup_lt_is_Some_2 (m_textureIDs (this w)) (Z.to_nat i))
      as [e He]; [lia|].
    cbn [for_loop]. rewrite !bind_run. cbn [gl_gen_texture].
    erewrite update_texture_at_Done; [|done|exact He].
    set (x0 := fresh (texture_names (gl w))).
    match goal with |- ∃ w' names, for_loop _ _ _ ?w0 = _ ∧ _ =>
      set (w1 := w0);
      destruct (IH (i + 1) w1)
        as (w' & names & Hrun & Hcalls & Hlen & Hsub & Hfresh & Htags & Hcells
            & Hbefore & Hcount & Hmat & Hptr & Hshader & Hdrawn)
    end; [lia|unfold w1; cbn; rewrite length_insert; lia|].
    assert (texture_names (gl w1) = {[x0]} ∪ texture_names (gl w)) as Hnames1
      by reflexivity.
    assert (m_textureIDs (this w1)
            = <[Z.to_nat i := TEXTURE_INFO.mk (Z.pos x0) (TEXTURE_INFO.tag e)]>
                (m_textureIDs (this w))) as Harr1 by reflexivity.
    assert (gl_calls (gl w1) = gl_calls (gl w) ++ [glGenTextures (Z.pos x0)])
      as Hcalls1 by reflexivity.
    exists w', (x0 :: names). split; [exact Hrun|].
    split; [by rewrite Hcalls, Hcalls1, <- app_assoc|].
    split; [cbn; lia|].
    split.
    { intros y Hy. apply Hsub. rewrite Hnames1. apply elem_of_union. by right. }
    split.
    { intros x Hx. apply elem_of_cons in Hx. destruct Hx as [->|Hx].
      - split; [apply is_fresh|]. apply Hsub. rewrite Hnames1.
        apply elem_of_union. left. by apply elem_of_singleton.
      - destruct (Hfresh x Hx) as [Hnew Hin]. split; [|done].
        intros Hold. apply Hnew. rewrite Hnames1. apply elem_of_union. by right. }
    split.
    { rewrite Htags, Harr1. rewrite list_fmap_insert. cbn.
      apply list_insert_id. by rewrite list_lookup_fmap, He. }
    split.
    { intros [|k] Hk.
      - exists (TEXTURE_INFO.mk (Z.pos x0) (TEXTURE_INFO.tag e)), x0.
        rewrite Nat.add_0_r. split; [|done].
        rewrite Hbefore by lia. rewrite Harr1.
        apply list_lookup_insert_eq. by eapply lookup_lt_Some.
      - destruct (Hcells k) as (e' & x & Hcell & Hname & Hid); [lia|].
        exists e', x. split; [|done].
        rewrite <- Hcell. f_equal. lia. }
    split.
    { intros j Hj. rewrite Hbefore by lia. rewrite Harr1.
      apply list_lookup_insert_ne. lia. }
    done.
Qed.

Lemma find_slot_tags (tag : string) (l l' : list TEXTURE_INFO.t) :
  TEXTURE_INFO.tag <$> l = TEXTURE_INFO.tag <$> l' →
  ∀ index, find_slot tag l index = find_slot tag l' index.
Proof.
  revert l'. induction l as [|e l IH]; intros [|e' l'] Htags index; try done.
  cbn in Htags. injection Htags as Htag Htags. cbn. rewrite Htag.
  destruct (decide (TEXTURE_INFO.tag e' = tag)); [done|]. by apply IH.
Qed.

(** X17. [DestroyGLTextures] releases nothing and forgets nothing, on every
    well-formed registry: it makes one [glGenTextures] call per registered
    texture and no other OpenGL call, every name that was in use stays in
    use, and each registered cell now holds a newly generated name in place
    of the name of its texture. The counter and the tags are unchanged, so
    every tag still resolves to the slot it had. *)
Theorem DestroyGLTextures_keeps_registry_and_names (w : Machine) :
  registry_ok (this w) →
  ∃ w' (names : list positive),
    DestroyGLTextures w = Done (tt, w')
    ∧ gl_calls (gl w')
      = gl_calls (gl w) ++ ((λ x, glGenTextures (Z.pos x)) <$> names)
    ∧ Z.of_nat (length names) = m_loadedTextures (this w)
    ∧ texture_names (gl w) ⊆ texture_names (gl w')
    ∧ (∀ k, (k < length names)%nat →
         ∃ e x, m_textureIDs (this w') !! k = Some e
                ∧ names !! k = Some x
                ∧ TEXTURE_INFO.ID e = Z.pos x
                ∧ x ∉ texture_names (gl w))
    ∧ m_loadedTextures (this w') = m_loadedTextures (this w)
    ∧ TEXTURE_INFO.tag <$> m_textureIDs (this w')
      = TEXTURE_INFO.tag <$> m_textureIDs (this w)
    ∧ (∀ tag, FindTextureSlot tag w' = Done (slot_of (this w) tag, w')).
Proof.
  intros [Hlo Hhi]. unfold DestroyGLTextures. rewrite bind_run. cbn [get].
  destruct (DestroyGLTextures_loop_cells
              (Z.to_nat (m_loadedTextures (this w))) 0 w)
    as (w' & names & Hrun & Hcalls & Hlen & Hsub & Hfresh & Htags & Hcells
        & _ & Hcount & _); [lia|lia|].
  assert (length (m_textureIDs (this w')) = length (m_textureIDs (this w)))
    as Harr by (by rewrite <- (length_fmap TEXTURE_INFO.tag), Htags, length_fmap).
  exists w', names. split; [exact Hrun|]. split; [done|]. split; [lia|].
  split; [done|]. split.
  { intros k Hk. destruct (Hcells k) as (e & x & Hcell & Hname & Hid); [lia|].
    exists e, x. split; [exact Hcell|]. split; [done|]. split; [done|].
    apply Hfresh. by eapply list_elem_of_lookup_2. }
  split; [done|]. split; [done|].
  intros tag. rewrite FindTextureSlot_slot_of by (unfold registry_ok; lia).
  do 2 f_equal. unfold slot_of, registered. rewrite Hcount.
  apply find_slot_tags. by rewrite !fmap_take, Htags.
Qed.

(** ** The object routines as sequences of setter calls *)

Lemma draws_as_draw (m : Mesh) (w : Machine) : draws_as (draw m) [] m w.
Proof. reflexivity. Qed.

Lemma draws_as_seq (step rest : M unit) (ws1 ws2 : list (string * UniformValue))
    (m : Mesh) (w : Machine) :
  runs_as step ws1 w →
  draws_as rest ws2 m (publish ws1 w) →
  draws_as (step ;; rest) (ws1 ++ ws2) m w.
Proof.
  unfold runs_as, draws_as. intros Hstep Hrest.
  rewrite (bind_Done _ _ _ _ _ Hstep), Hrest. by rewrite !publish_app.
Qed.

Lemma texture_writes_publish (ws : list (string * UniformValue)) (w : Machine)
    (tag : string) :
  texture_writes (publish ws w) tag = texture_writes w tag.
Proof. unfold texture_writes. by rewrite publish_this. Qed.

Lemma material_part_publish (ws : list (string * UniformValue)) (w : Machine)
    (tag : string) :
  material_part (publish ws w) tag = material_part w tag.
Proof.
  destruct (publish_frame ws w) as (Hthis & _ & _ & _ & Hind & _).
  unfold material_part, material_of, local_material. by rewrite Hthis, Hind.
Qed.

Lemma draws_as_seq_at (step rest : M unit)
    (ws0 ws1 ws2 : list (string * UniformValue)) (m : Mesh) (w : Machine) :
  runs_as step ws1 (publish ws0 w) →
  draws_as rest ws2 m (publish (ws0 ++ ws1) w) →
  draws_as (step ;; rest) (ws1 ++ ws2) m (publish ws0 w).
Proof.
  intros Hstep Hrest. apply draws_as_seq; [done|]. by rewrite <- publish_app.
Qed.

Lemma draws_as_last (step : M unit) (ws0 ws1 : list (string * UniformValue))
    (m : Mesh) (w : Machine) :
  runs_as step ws1 (publish ws0 w) →
  draws_as (step ;; draw m) ws1 m (publish ws0 w).
Proof.
  intros Hstep. rewrite <- (app_nil_r ws1).
  apply draws_as_seq; [done|]. apply draws_as_draw.
Qed.

Lemma runs_as_texture (ws0 : list (string * UniformValue)) (w : Machine)
    (tag : string) :
  m_pShaderManager (this w) ≠ NULL →
  registry_ok (this w) →
  runs_as (SetShaderTexture tag) (texture_writes w tag) (publish ws0 w).
Proof.
  intros Hptr Hok. rewrite <- (texture_writes_publish ws0).
  apply SetShaderTexture_publish; [by rewrite publish_this|].
  apply FindTextureSlot_slot_of. by rewrite publish_this.
Qed.

Lemma runs_as_material (ws0 : list (string * UniformValue)) (w : Machine)
    (tag : string) :
  m_pShaderManager (this w) ≠ NULL →
  runs_as (SetShaderMaterial tag) (material_part w tag) (publish ws0 w).
Proof.
  intros Hptr. rewrite <- (material_part_publish ws0).
  assert (m_pShaderManager (this (publish ws0 w)) ≠ NULL) as Hptr'
    by (by rewrite publish_this).
  generalize dependent (publish ws0 w). intros w' Hptr'.
  unfold runs_as, material_part.
  destruct (m_objectMaterials (this w')) as [|m l] eqn:E.
  - by apply SetShaderMaterial_empty.
  - unfold material_of. rewrite E, <- E.
    apply SetShaderMaterial_publish; [done|by rewrite E].
Qed.

Lemma runs_as_uv (ws0 : list (string * UniformValue)) (w : Machine) (u v : R) :
  m_pShaderManager (this w) ≠ NULL →
  runs_as (SetTextureUVScale u v) (uv_writes u v) (publish ws0 w).
Proof. intros Hptr. apply SetTextureUVScale_publish. by rewrite publish_this. Qed.

Lemma runs_as_color (ws0 : list (string * UniformValue)) (w : Machine)
    (r g b a : R) :
  m_pShaderManager (this w) ≠ NULL →
  runs_as (SetShaderColor r g b a) (color_writes r g b a) (publish ws0 w).
Proof. intros Hptr. apply SetShaderColor_publish. by rewrite publish_this. Qed.

Lemma routine_run (o : SceneObject) (w : Machine) :
  m_pShaderManager (this w) ≠ NULL →
  registry_ok (this w) →
  routine o w = Done (tt, after_routine o w).
Proof.
  intros Hptr Hok.
  change (draws_as (routine o) (routine_writes o w) (object_mesh o) w).
  change (routine_writes o w)
    with ([(g_ModelName, UMat4 (object_model o))]
          ++ match o with
             | Plane =>
                 material_part w "wood" ++ texture_writes w "plane"
                 ++ uv_writes 10 10
             | MugBody =>
                 texture_writes w "mug" ++ material_part w "glassy"
                 ++ uv_writes 2.25 2.25
             | MugHandle =>
                 texture_writes w "handle" ++ material_part w "glassy"
                 ++ uv_writes 1 1
             | MonitorScreen =>
                 texture_writes w "screen" ++ material_part w "glassy"
                 ++ uv_writes 1 1
             | MonitorBase =>
                 texture_writes w "base" ++ material_part w "metal"
                 ++ uv_writes 5 5
             | MonitorStand =>
                 texture_writes w "stand" ++ material_part w "metal"
                 ++ uv_writes 4 4
             | Mouse => color_writes 0.7 0.4 0.1 1
             | Keyboard => color_writes 0.7 0.4 0.1 1
             | Book1 => color_writes 0.5 0.8 1 1
             | Book2 => color_writes 0.7 0.4 0.1 1
             end).
  destruct o;
    (apply draws_as_seq; [by apply SetTransformations_publish|]);
    first
      [ apply draws_as_last; by apply runs_as_color
      | apply draws_as_seq_at; [by apply runs_as_material|];
        apply draws_as_seq_at; [by apply runs_as_texture|];
        apply draws_as_last; by apply runs_as_uv
      | apply draws_as_seq_at; [by apply runs_as_texture|];
        apply draws_as_seq_at; [by apply runs_as_material|];
        apply draws_as_last; by apply runs_as_uv ].
Qed.

(** ** A whole frame as a sequence of setter calls *)

Lemma shader_publish (ws : list (string * UniformValue)) :
  ∀ w w', shader w' = shader w → shader (publish ws w') = shader (publish ws w).
Proof.
  induction ws as [|[n v] ws IH]; intros w w' Hshader; [done|].
  change (publish ((n, v) :: ws) w')
    with (publish ws (with_shader (set_uniform n v) w')).
  change (publish ((n, v) :: ws) w)
    with (publish ws (with_shader (set_uniform n v) w)).
  apply IH. cbn. by rewrite Hshader.
Qed.

Lemma routine_writes_ext (o : SceneObject) (w w' : Machine) :
  this w' = this w →
  indeterminate w' = indeterminate w →
  routine_writes o w' = routine_writes o w.
Proof.
  intros Hthis Hind.
  assert (∀ tag, texture_writes w' tag = texture_writes w tag) as Htex
    by (intros tag; unfold texture_writes; by rewrite Hthis).
  assert (∀ tag, material_part w' tag = material_part w tag) as Hmat
    by (intros tag; unfold material_part, material_of, local_material;
        by rewrite Hthis, Hind).
  unfold routine_writes. destruct o; by rewrite ?Htex, ?Hmat.
Qed.

Lemma objects_run (w0 : Machine) (os : list SceneObject) :
  m_pShaderManager (this w0) ≠ NULL →
  registry_ok (this w0) →
  ∀ (pre : list SceneObject) (w : Machine),
    this w = this w0 →
    indeterminate w = indeterminate w0 →
    shader w
    = shader (publish (concat ((λ o, routine_writes o w0) <$> pre)) w0) →
    ∃ w',
      in_sequence (map routine os) w = Done (tt, w')
      ∧ this w' = this w0
      ∧ indeterminate w' = indeterminate w0
      ∧ gl w' = gl w
      ∧ disk w' = disk w
      ∧ shader w'
        = shader (publish (concat ((λ o, routine_writes o w0) <$> pre ++ os)) w0)
      ∧ drawn w'
        = drawn w
          ++ imap (λ n o, mkDrawCall (object_mesh o)
                     (uniforms (shader (publish
                        (concat ((λ o, routine_writes o w0)
                                   <$> pre ++ take (S n) os)) w0)))) os.
Proof.
  intros Hptr Hok. induction os as [|o os IH]; intros pre w Hthis Hind Hshader.
  - exists w. cbn. rewrite !app_nil_r. done.
  - assert (routine o w = Done (tt, after_routine o w)) as Hrun
      by (apply routine_run; by rewrite Hthis).
    assert (shader (after_routine o w)
            = shader (publish (concat ((λ o, routine_writes o w0)
                                         <$> (pre ++ [o]))) w0)) as Hshader1.
    { unfold after_routine. cbn [shader with_drawn].
      rewrite (routine_writes_ext o w0 w Hthis Hind).
      rewrite fmap_app, concat_app. cbn [fmap list_fmap concat].
      rewrite app_nil_r, publish_app. by apply shader_publish. }
    destruct (IH (pre ++ [o]) (after_routine o w))
      as (w' & Hrun' & Hthis' & Hind' & Hgl' & Hdisk' & Hshader' & Hdrawn').
    { unfold after_routine. cbn [this with_drawn]. by rewrite publish_this. }
    { unfold after_routine. cbn [indeterminate with_drawn].
      by destruct (publish_frame (routine_writes o w) w) as (_&_&_&_&->&_). }
    { exact Hshader1. }
    exists w'. split.
    { destruct os as [|o' os'].
      - cbn in Hrun' |- *. rewrite ret_run in Hrun'. injection Hrun' as <-.
        exact Hrun.
      - change (in_sequence (map routine (o :: o' :: os')))
          with (routine o ;; in_sequence (map routine (o' :: os'))).
        by rewrite (bind_Done _ _ _ _ _ Hrun). }
    split; [done|]. split; [done|].
    destruct (publish_frame (routine_writes o w) w)
      as (_ & Hgl1 & Hdisk1 & Hdrawn1 & _ & _).
    split; [rewrite Hgl'; unfold after_routine; by cbn [gl with_drawn]|].
    split; [rewrite Hdisk'; unfold after_routine; by cbn [disk with_drawn]|].
    split; [by rewrite Hshader', <- app_assoc|].
    rewrite Hdrawn'. unfold after_routine at 1. cbn [drawn with_drawn].
    rewrite Hdrawn1, <- app_assoc. f_equal. rewrite imap_cons. cbn [app].
    f_equal.
    + unfold routine_frame. f_equal.
      change (shader (publish (routine_writes o w) w))
        with (shader (after_routine o w)).
      rewrite Hshader1. reflexivity.
    + apply imap_ext. intros n o' Ho'. cbn. by rewrite <- app_assoc.
Qed.

(** A frame with a shader manager attached: the setter calls of the ten
    routines in order, one draw after each. *)
Lemma RenderScene_run (w : Machine) :
  m_pShaderManager (this w) ≠ NULL →
  registry_ok (this w) →
  ∃ w',
    RenderScene w = Done (tt, w')
    ∧ this w' = this w
    ∧ indeterminate w' = indeterminate w
    ∧ gl w' = gl w
    ∧ disk w' = disk w
    ∧ shader w' = shader (publish (frame_writes 10 w) w)
    ∧ drawn w' = drawn w ++ scene_frames w.
Proof.
  intros Hptr Hok.
  destruct (objects_run w render_order Hptr Hok [] w)
    as (w' & Hrun & Hthis & Hind & Hgl & Hdisk & Hshader & Hdrawn); [done..|].
  exists w'. split; [exact Hrun|]. split; [done|]. split; [done|].
  split; [done|]. split; [done|]. split; [exact Hshader|exact Hdrawn].
Qed.





Lemma frame_writes_names (w : Machine) (n : nat) :
  (frame_writes n w).*1 ⊆ frame_uniforms.
Proof.
  assert (∀ tag, (material_part w tag).*1 ⊆ frame_uniforms) as Hmat.
  { intros tag. unfold material_part.
    destruct (m_objectMaterials (this w)); [apply list_subseteq_nil|].
    intros k Hk. cbn in Hk.
    repeat (apply elem_of_cons in Hk; destruct Hk as [->|Hk];
            [apply (bool_decide_unpack _); vm_compute; exact I|]).
    by apply elem_of_nil in Hk. }
  assert (∀ o, (routine_writes o w).*1 ⊆ frame_uniforms) as Hroutine.
  { intros o k Hk. unfold routine_writes in Hk.
    rewrite fmap_cons in Hk. apply elem_of_cons in Hk.
    destruct Hk as [->|Hk]; [apply (bool_decide_unpack _); vm_compute; exact I|].
    destruct o; rewrite ?fmap_app in Hk;
      repeat (apply elem_of_app in Hk; destruct Hk as [Hk|Hk]);
      try (by eapply Hmat);
      cbn in Hk;
      repeat (apply elem_of_cons in Hk; destruct Hk as [->|Hk];
              [apply (bool_decide_unpack _); vm_compute; exact I|]);
      by apply elem_of_nil in Hk. }
  unfold frame_writes. induction (take n render_order) as [|o os IH].
  - apply list_subseteq_nil.
  - cbn [fmap list_fmap concat]. rewrite fmap_app. intros k Hk.
    apply elem_of_app in Hk. destruct Hk as [Hk|Hk]; [by eapply Hroutine|].
    by apply IH.
Qed.


(** X20. A frame writes none but its own uniforms: with a shader manager
    attached, [RenderScene] can change only "model", "bUseTexture",
    "objectTexture", "objectColor", "UVscale" and the five "material."
    uniforms. Every other uniform, the lighting set up beforehand among
    them, is left at its value, and so are the members of the class and
    OpenGL. *)
Theorem RenderScene_touches_only_frame_uniforms (w : Machine) :
  m_pShaderManager (this w) ≠ NULL →
  registry_ok (this w) →
  ∃ w',
    RenderScene w = Done (tt, w')
    ∧ this w' = this w
    ∧ gl w' = gl w
    ∧ ∀ k, k ∉ frame_uniforms →
           uniforms (shader w') !! k = uniforms (shader w) !! k.
Proof.
  intros Hptr Hok.
  destruct (RenderScene_run w Hptr Hok)
    as (w' & Hrun & Hthis & _ & Hgl & _ & Hshader & _).
  exists w'. split; [exact Hrun|]. split; [done|]. split; [done|].
  intros k Hk. rewrite Hshader, publish_lookup, last_write_None; [done|].
  intros Hin. by apply Hk, (frame_writes_names w 10).
Qed.


(** X22. Without a shader manager, once a material is defined, each of the
    six textured routines leaves defined behaviour (it reaches the
    unguarded call in [SetShaderMaterial]), while each of the four
    flat-coloured routines still completes, drawing its mesh and writing
    nothing. The frame as a whole is undefined: it starts with the plane. *)
Theorem routines_without_shader_manager (w : Machine) :
  m_pShaderManager (this w) = NULL →
  m_objectMaterials (this w) ≠ [] →
  (∀ o look, object_look o = inl look → routine o w = Undefined)
  ∧ (∀ o colour, object_look o = inr colour →
       routine o w
       = Done (tt, with_drawn
                     (λ d, d ++ [mkDrawCall (object_mesh o) (uniforms (shader w))])
                     w))
  ∧ RenderScene w = Undefined.
Proof.
  intros Hnull Hsome.
  destruct (null_setters w Hnull) as (Ht & Hc & Hx & Hu).
  pose proof (λ tag, SetShaderMaterial_null_dereference w tag Hnull Hsome) as Hm.
  assert (∀ o look, object_look o = inl look → routine o w = Undefined) as Htex.
  { intros o look Hlook.
    destruct o; try discriminate Hlook; unfold routine;
      [unfold RenderPlane|unfold RenderMugBody|unfold RenderMugHandle
      |unfold RenderMonitorScreen|unfold RenderMonitorBase
      |unfold RenderMonitorStand];
      rewrite (bind_Done _ _ _ _ _ (Ht _ _ _ _ _));
      rewrite ?(bind_Done _ _ _ _ _ (Hx _));
      by apply bind_Undefined. }
  split; [exact Htex|]. split.
  - intros o colour Hlook.
    destruct o; try discriminate Hlook; unfold routine;
      [unfold RenderMouse|unfold RenderKeyboard|unfold RenderBook1
      |unfold RenderBook2];
      rewrite (bind_Done _ _ _ _ _ (Ht _ _ _ _ _));
      by rewrite (bind_Done _ _ _ _ _ (Hc _ _ _ _)).
  - unfold RenderScene. apply bind_Undefined. by apply (Htex Plane _ eq_refl).
Qed.

(** ** Lights and the prepared scene *)

Lemma SetupSceneLights_run (w : Machine) :
  m_pShaderManager (this w) ≠ NULL →
  SetupSceneLights w = Done (tt, publish light_writes w).
Proof.
  intros Hptr. unfold SetupSceneLights. rewrite bind_run. cbn [get].
  rewrite not_NULL_decide by done.
  unfold setBoolValue, setVec3Value, setFloatValue, light_writes.
  repeat (apply call_shader_then; [by rewrite ?publish_this|]).
  rewrite call_shader_publish by (by rewrite ?publish_this). done.
Qed.

Lemma SetupSceneLights_null (w : Machine) :
  m_pShaderManager (this w) = NULL → SetupSceneLights w = Done (tt, w).
Proof.
  intros Hnull. unfold SetupSceneLights. rewrite bind_run. cbn [get].
  rewrite Hnull. by rewrite decide_False by (intros H; by apply H).
Qed.

Lemma light_writes_last (k : string) (v : UniformValue) :
  (k, v) ∈ light_writes →
  last_write k light_writes = Some v ∧ k ∉ frame_uniforms.
Proof.
  intros Hkv. unfold light_writes in Hkv.
  repeat (apply elem_of_cons in Hkv; destruct Hkv as [[= -> ->]|Hkv];
          [split; [reflexivity|];
           apply (bool_decide_unpack (_ ∉ frame_uniforms)); vm_compute; exact I|]).
  by apply elem_of_nil in Hkv.
Qed.

(** X23. The lighting is set once and survives every frame: with a shader
    manager attached, after [SetupSceneLights] followed by [RenderScene],
    "bUseLighting" and each of the twelve uniforms of the light sources 0
    and 1 still hold the value [SetupSceneLights] gave them. With a null
    shader manager [SetupSceneLights] changes nothing. *)
Theorem lighting_survives_a_frame (w : Machine) :
  registry_ok (this w) →
  (m_pShaderManager (this w) = NULL → SetupSceneLights w = Done (tt, w))
  ∧ (m_pShaderManager (this w) ≠ NULL →
     ∃ w1 w2,
       SetupSceneLights w = Done (tt, w1)
       ∧ writes (shader w1) = writes (shader w) ++ light_writes
       ∧ RenderScene w1 = Done (tt, w2)
       ∧ ∀ k v, (k, v) ∈ light_writes → uniforms (shader w2) !! k = Some v).
Proof.
  intros Hok. split; [apply SetupSceneLights_null|]. intros Hptr.
  destruct (RenderScene_run (publish light_writes w))
    as (w2 & Hrun & _ & _ & _ & _ & Hshader & _); [by rewrite publish_this..|].
  exists (publish light_writes w), w2.
  split; [by apply SetupSceneLights_run|]. split; [apply publish_frame|].
  split; [exact Hrun|]. intros k v Hkv.
  destruct (light_writes_last k v Hkv) as [Hlast Hout].
  rewrite Hshader, publish_lookup, last_write_None.
  - by rewrite publish_lookup, Hlast.
  - intros Hin. exact (Hout (frame_writes_names _ 10 k Hin)).
Qed.

Lemma PrepareScene_run (p : Program) :
  m_pShaderManager (this (machine p)) ≠ NULL →
  m_loadedTextures (this (machine p)) = 0 →
  6 ≤ Z.of_nat (length (m_textureIDs (this (machine p)))) →
  (∀ m0, m0 ∈ m_objectMaterials (this (machine p)) →
         OBJECT_MATERIAL.tag m0 ∉ OBJECT_MATERIAL.tag <$> scene_materials) →
  (∀ f t, (f, t) ∈ scene_loads →
          ∃ img, disk (machine p) !! f = Some img
                 ∧ (colorChannels img = 3 ∨ colorChannels img = 4)) →
  ∃ w',
    PrepareScene p
    = Done (tt, mkProgram w'
                  (m_basicMeshes p ++ [PlaneMesh; BoxMesh; CylinderMesh; TorusMesh;
                                       TaperedCylinderMesh; SphereMesh]))
    ∧ registry_ok (this w')
    ∧ m_pShaderManager (this w') ≠ NULL
    ∧ m_objectMaterials (this w')
      = m_objectMaterials (this (machine p)) ++ scene_materials
    ∧ drawn w' = drawn (machine p)
    ∧ (∀ k v, (k, v) ∈ light_writes → uniforms (shader w') !! k = Some v)
    ∧ (∀ i t, scene_loads.*2 !! i = Some t → slot_of (this w') t = Z.of_nat i)
    ∧ (∀ m, m ∈ scene_materials →
            material_part w' (OBJECT_MATERIAL.tag m) = material_writes m).
Proof.
  intros Hptr Hzero Hcap Hfree Hfiles.
  destruct (LoadSceneTextures_all_loaded (machine p) Hzero Hcap Hfiles)
    as (w1 & Hrun1 & Hok1 & Hcount1 & _ & Hslots & Hptr1 & Hmat1 & Hshader1
        & Hdrawn1 & _).
  assert (m_pShaderManager (this w1) ≠ NULL) as Hptr1' by (by rewrite Hptr1).
  pose proof (SetupSceneLights_run w1 Hptr1') as Hrun2.
  pose proof (DefineObjectMaterials_run (publish light_writes w1)) as Hrun3.
  eexists. split.
  { unfold PrepareScene.
    rewrite (bind_Done _ _ _ _ _ Hrun1), (bind_Done _ _ _ _ _ Hrun2), Hrun3.
    reflexivity. }
  cbn [this with_this m_pShaderManager m_textureIDs m_loadedTextures
       m_objectMaterials shader drawn].
  rewrite !publish_this.
  split; [exact Hok1|]. split; [done|]. split; [by rewrite Hmat1|].
  split.
  { rewrite <- Hdrawn1. apply (publish_frame light_writes w1). }
  split.
  { intros k v Hkv. rewrite publish_lookup.
    by rewrite (proj1 (light_writes_last k v Hkv)). }
  split; [exact Hslots|].
  intros m Hm. unfold material_part, material_of.
  cbn [this with_this m_objectMaterials]. rewrite publish_this, Hmat1.
  destruct (m_objectMaterials (this (machine p)) ++ scene_materials) eqn:E.
  { by destruct (m_objectMaterials (this (machine p))). }
  rewrite <- E, FindMaterial_scan_app, decide_False.
  - unfold scene_materials in Hm |- *.
    repeat (apply elem_of_cons in Hm; destruct Hm as [->|Hm]; [done|]).
    by apply elem_of_nil in Hm.
  - intros Hin. apply list_elem_of_fmap in Hin.
    destruct Hin as (m0 & Htag & Hm0). apply (Hfree m0 Hm0).
    rewrite <- Htag. apply list_elem_of_fmap. by exists m.
Qed.

(** The texture tag of every textured object is one of the tags of
    [LoadSceneTextures], and its material tag the tag of one of the
    materials of [DefineObjectMaterials]. *)
Lemma object_look_prepared (o : SceneObject) (textureTag materialTag : string)
    (uv : vec2) :
  object_look o = inl (textureTag, materialTag, uv) →
  (∃ i, (i < 6)%nat ∧ scene_loads.*2 !! i = Some textureTag)
  ∧ ∃ m, m ∈ scene_materials ∧ OBJECT_MATERIAL.tag m = materialTag.
Proof.
  intros Hlook.
  assert (woodMaterial ∈ scene_materials) as Hwood
    by (unfold scene_materials; repeat constructor).
  assert (screenMaterial ∈ scene_materials) as Hscreen
    by (unfold scene_materials; repeat constructor).
  assert (standMaterial ∈ scene_materials) as Hstand
    by (unfold scene_materials; repeat constructor).
  destruct o; try discriminate Hlook; injection Hlook as <- <- <-.
  - split; [exists 5%nat; split; [lia|reflexivity]|by exists woodMaterial].
  - split; [exists 1%nat; split; [lia|reflexivity]|by exists screenMaterial].
  - split; [exists 3%nat; split; [lia|reflexivity]|by exists screenMaterial].
  - split; [exists 2%nat; split; [lia|reflexivity]|by exists screenMaterial].
  - split; [exists 4%nat; split; [lia|reflexivity]|by exists standMaterial].
  - split; [exists 0%nat; split; [lia|reflexivity]|by exists standMaterial].
Qed.

(** X24. [PrepareScene] sets up everything a frame looks up. From a
    machine with a shader manager attached, an empty texture registry with
    room for six, no material under one of the scene's tags, and the six
    texture files decoding to supported images, it runs to completion and
    leaves: a well-formed registry in which the texture tag of every
    textured object resolves to a slot between 0 and 5; the five materials
    appended, so that the material tag of every textured object finds the
    values given in the source; "bUseLighting" true; and the mesh of every
    object among the loaded meshes. *)
Theorem PrepareScene_makes_every_lookup_succeed (p : Program) :
  m_pShaderManager (this (machine p)) ≠ NULL →
  m_loadedTextures (this (machine p)) = 0 →
  6 ≤ Z.of_nat (length (m_textureIDs (this (machine p)))) →
  (∀ m0, m0 ∈ m_objectMaterials (this (machine p)) →
         OBJECT_MATERIAL.tag m0 ∉ OBJECT_MATERIAL.tag <$> scene_materials) →
  (∀ f t, (f, t) ∈ scene_loads →
          ∃ img, disk (machine p) !! f = Some img
                 ∧ (colorChannels img = 3 ∨ colorChannels img = 4)) →
  ∃ p',
    PrepareScene p = Done (tt, p')
    ∧ registry_ok (this (machine p'))
    ∧ m_pShaderManager (this (machine p')) ≠ NULL
    ∧ m_objectMaterials (this (machine p'))
      = m_objectMaterials (this (machine p)) ++ scene_materials
    ∧ uniforms (shader (machine p')) !! g_UseLightingName = Some (UBool true)
    ∧ (∀ o, object_mesh o ∈ m_basicMeshes p')
    ∧ ∀ o textureTag materialTag uv,
        object_look o = inl (textureTag, materialTag, uv) →
        0 ≤ slot_of (this (machine p')) textureTag < 6
        ∧ ∃ m, m ∈ scene_materials
               ∧ OBJECT_MATERIAL.tag m = materialTag
               ∧ material_part (machine p') materialTag = material_writes m.
Proof.
  intros Hptr Hzero Hcap Hfree Hfiles.
  destruct (PrepareScene_run p Hptr Hzero Hcap Hfree Hfiles)
    as (w' & Hrun & Hok & Hptr' & Hmat & _ & Hlight & Hslots & Hfound).
  eexists. split; [exact Hrun|]. cbn [machine m_basicMeshes].
  split; [exact Hok|]. split; [exact Hptr'|]. split; [exact Hmat|]. split.
  { apply Hlight. unfold light_writes. left. }
  split.
  { intros o. apply elem_of_app. right.
    apply (bool_decide_unpack _). by destruct o. }
  intros o textureTag materialTag uv Hlook.
  destruct (object_look_prepared o _ _ _ Hlook)
    as [(i & Hi & Htag) (m & Hm & Hmtag)].
  split; [rewrite (Hslots i _ Htag); lia|].
  exists m. split; [exact Hm|]. split; [exact Hmtag|].
  rewrite <- Hmtag. by apply Hfound.
Qed.


(** * The further properties at concrete machines *)

Lemma setters_touch_only_their_uniforms_witness :
  can_render (this demo_machine)
  ∧ touches_only (SetShaderTexture "mug")
      [g_UseTextureName; g_TextureValueName] demo_machine
  ∧ touches_only (SetShaderMaterial "wood")
      ["material.ambientColor"; "material.ambientStrength";
       "material.diffuseColor"; "material.specularColor";
       "material.shininess"] demo_machine.
Proof.
  split; [split; [registry_ok_by_evaluation|left; attached_by_evaluation]|].
  destruct (setters_touch_only_their_uniforms demo_machine
              (Vec3 1 1 1) (Vec3 0 0 0) 0 0 0 1 1 1 1 1 1 "mug" "wood")
    as (_ & _ & Htexture & _ & Hmaterial).
  - split; [registry_ok_by_evaluation|left; attached_by_evaluation].
  - split; [exact Htexture|exact Hmaterial].
Defined.

Lemma SetShaderMaterial_publishes_first_match_witness :
  m_pShaderManager (this twice_glassy) ≠ NULL
  ∧ ∃ w',
      SetShaderMaterial "glassy" twice_glassy = Done (tt, w')
      ∧ uniforms (shader w') !! "material.shininess" = Some (UFloat 85).
Proof.
  split; [discriminate|].
  destruct (SetShaderMaterial_publishes_first_match twice_glassy "glassy"
              [woodMaterial] [OBJECT_MATERIAL.mk (Vec3 1 1 1) 1 (Vec3 1 1 1)
                                (Vec3 1 1 1) 1 "glassy"] screenMaterial)
    as (w' & Hrun & _ & _ & _ & _ & _ & Hshininess).
  - discriminate.
  - reflexivity.
  - intros m Hm. apply elem_of_cons in Hm. destruct Hm as [->|Hm];
      [discriminate|]. by apply elem_of_nil in Hm.
  - reflexivity.
  - exists w'. split; [exact Hrun|exact Hshininess].
Defined.

Lemma SetShaderMaterial_miss_publishes_indeterminate_witness :
  m_pShaderManager (this demo_machine) ≠ NULL
  ∧ m_objectMaterials (this demo_machine) ≠ []
  ∧ (∀ m, m ∈ m_objectMaterials (this demo_machine) →
          OBJECT_MATERIAL.tag m ≠ "plastic")
  ∧ ∃ w',
      SetShaderMaterial "plastic" demo_machine = Done (tt, w')
      ∧ writes (shader w')
        = writes (shader demo_machine)
          ++ material_writes (indeterminate demo_machine)
      ∧ this w' = this demo_machine.
Proof.
  assert (∀ m, m ∈ m_objectMaterials (this demo_machine) →
               OBJECT_MATERIAL.tag m ≠ "plastic") as Hmiss.
  { intros m Hm. vm_compute in Hm.
    repeat (apply elem_of_cons in Hm; destruct Hm as [->|Hm]; [discriminate|]).
    by apply elem_of_nil in Hm. }
  split; [attached_by_evaluation|]. split; [vm_compute; discriminate|].
  split; [exact Hmiss|].
  apply (SetShaderMaterial_miss_publishes_indeterminate demo_machine "plastic").
  - attached_by_evaluation.
  - vm_compute; discriminate.
  - exact Hmiss.
Defined.

Lemma SetShaderMaterial_null_undefined_witness :
  m_pShaderManager (this unattached_machine) = NULL
  ∧ m_objectMaterials (this unattached_machine) ≠ []
  ∧ SetShaderMaterial "wood" unattached_machine = Undefined.
Proof.
  split; [reflexivity|]. split; [vm_compute; discriminate|].
  apply (SetShaderMaterial_null_undefined unattached_machine "wood").
  - reflexivity.
  - vm_compute; discriminate.
Defined.

Lemma SetShaderTexture_publishes_slot_witness :
  m_pShaderManager (this demo_machine) ≠ NULL
  ∧ registry_ok (this demo_machine)
  ∧ ∃ w' slot,
      SetShaderTexture "mug" demo_machine = Done (tt, w')
      ∧ FindTextureSlot "mug" demo_machine = Done (slot, demo_machine)
      ∧ uniforms (shader w') !! g_TextureValueName = Some (USampler2D slot).
Proof.
  split; [attached_by_evaluation|]. split; [registry_ok_by_evaluation|].
  destruct (SetShaderTexture_publishes_slot demo_machine "mug")
    as (w' & slot & Hrun & Hfind & _ & Hsampler & _).
  - attached_by_evaluation.
  - registry_ok_by_evaluation.
  - exists w', slot. split; [exact Hrun|]. split; [exact Hfind|exact Hsampler].
Defined.

Lemma SetShaderTexture_then_SetShaderColor_keeps_sampler_witness :
  m_pShaderManager (this demo_machine) ≠ NULL
  ∧ registry_ok (this demo_machine)
  ∧ ∃ w' slot,
      (SetShaderTexture "mug" ;; SetShaderColor 0.5 0.8 1 1) demo_machine
      = Done (tt, w')
      ∧ FindTextureSlot "mug" demo_machine = Done (slot, demo_machine)
      ∧ uniforms (shader w') !! g_UseTextureName = Some (UInt 0)
      ∧ uniforms (shader w') !! g_TextureValueName = Some (USampler2D slot).
Proof.
  split; [attached_by_evaluation|]. split; [registry_ok_by_evaluation|].
  destruct (SetShaderTexture_then_SetShaderColor_keeps_sampler demo_machine
              0.5 0.8 1 1 "mug")
    as (w' & slot & Hrun & Hfind & Huse & Hsampler & _).
  - attached_by_evaluation.
  - registry_ok_by_evaluation.
  - exists w', slot. split; [exact Hrun|]. split; [exact Hfind|].
    split; [exact Huse|exact Hsampler].
Defined.

Lemma CreateGLTexture_unsupported_leaks_texture_witness :
  disk (fresh_machine shader_manager demo_disk) !! "gray.png"
  = Some (mk_stb_image 32 32 1)
  ∧ colorChannels (mk_stb_image 32 32 1) ≠ 3
  ∧ colorChannels (mk_stb_image 32 32 1) ≠ 4
  ∧ ∃ w' n,
      CreateGLTexture "gray.png" "gray" (fresh_machine shader_manager demo_disk)
      = Done (false, w')
      ∧ texture_names (gl w')
        = {[n]} ∪ texture_names (gl (fresh_machine shader_manager demo_disk)).
Proof.
  split; [reflexivity|]. split; [discriminate|]. split; [discriminate|].
  destruct (CreateGLTexture_unsupported_leaks_texture
              (fresh_machine shader_manager demo_disk) "gray.png" "gray"
              (mk_stb_image 32 32 1))
    as (w' & n & Hrun & _ & Hnames & _).
  - reflexivity.
  - discriminate.
  - discriminate.
  - exists w', n. split; [exact Hrun|exact Hnames].
Defined.

Lemma CreateGLTexture_succeeds_iff_supported_witness :
  0 ≤ m_loadedTextures (this (fresh_machine shader_manager mug_disk))
  < Z.of_nat (length (m_textureIDs (this (fresh_machine shader_manager mug_disk))))
  ∧ ∃ b w',
      CreateGLTexture "mug.jpg" "mug" (fresh_machine shader_manager mug_disk)
      = Done (b, w')
      ∧ (b = true ↔ ∃ img, disk (fresh_machine shader_manager mug_disk) !! "mug.jpg"
                           = Some img
                           ∧ (colorChannels img = 3 ∨ colorChannels img = 4)).
Proof.
  split; [vm_compute; by split|].
  destruct (CreateGLTexture_succeeds_iff_supported
              (fresh_machine shader_manager mug_disk) "mug.jpg" "mug")
    as (b & w' & Hrun & Hiff & _).
  - vm_compute; by split.
  - exists b, w'. split; [exact Hrun|exact Hiff].
Defined.

Lemma CreateGLTexture_registers_fresh_texture_witness :
  CreateGLTexture "mug.jpg" "mug" (fresh_machine shader_manager mug_disk)
  = Done (true, after (CreateGLTexture "mug.jpg" "mug")
                  (fresh_machine shader_manager mug_disk))
  ∧ ∃ n,
      m_textureIDs
        (this (after (CreateGLTexture "mug.jpg" "mug")
                 (fresh_machine shader_manager mug_disk)))
      !! Z.to_nat (m_loadedTextures (this (fresh_machine shader_manager mug_disk)))
      = Some (TEXTURE_INFO.mk (Z.pos n) "mug")
      ∧ (n ∉ texture_names (gl (fresh_machine shader_manager mug_disk))).
Proof.
  split; [vm_compute; reflexivity|].
  destruct (CreateGLTexture_registers_fresh_texture
              (fresh_machine shader_manager mug_disk)
              (after (CreateGLTexture "mug.jpg" "mug")
                 (fresh_machine shader_manager mug_disk)) "mug.jpg" "mug")
    as (img & n & formats & _ & _ & Hfresh & _ & _ & Hcell & _).
  - vm_compute; reflexivity.
  - exists n. split; [exact Hcell|exact Hfresh].
Defined.

Lemma CreateGLTexture_full_array_undefined_witness :
  disk full_machine !! "mug.jpg" = Some (mk_stb_image 64 64 3)
  ∧ (colorChannels (mk_stb_image 64 64 3) = 3
     ∨ colorChannels (mk_stb_image 64 64 3) = 4)
  ∧ m_loadedTextures (this full_machine)
    = Z.of_nat (length (m_textureIDs (this full_machine)))
  ∧ CreateGLTexture "mug.jpg" "mug" full_machine = Undefined.
Proof.
  split; [vm_compute; reflexivity|]. split; [left; reflexivity|].
  split; [vm_compute; reflexivity|].
  apply (CreateGLTexture_full_array_undefined full_machine "mug.jpg" "mug"
           (mk_stb_image 64 64 3)).
  - vm_compute; reflexivity.
  - left; reflexivity.
  - vm_compute; reflexivity.
Defined.

Lemma BindGLTextures_binds_each_slot_witness :
  registry_ok (this demo_machine)
  ∧ ∃ w',
      BindGLTextures demo_machine = Done (tt, w')
      ∧ gl_calls (gl w')
        = gl_calls (gl demo_machine) ++ bind_calls (registered (this demo_machine)) 0
      ∧ texture_names (gl w') = texture_names (gl demo_machine).
Proof.
  split; [registry_ok_by_evaluation|].
  destruct (BindGLTextures_binds_each_slot demo_machine)
    as (w' & Hrun & Hcalls & _ & Hnames & _).
  - registry_ok_by_evaluation.
  - exists w'. split; [exact Hrun|]. split; [exact Hcalls|exact Hnames].
Defined.



Lemma LoadSceneTextures_slots_witness :
  m_loadedTextures (this (machine scene_program)) = 0
  ∧ 6 ≤ Z.of_nat (length (m_textureIDs (this (machine scene_program))))
  ∧ (∀ f t, (f, t) ∈ scene_loads →
            ∃ img, disk (machine scene_program) !! f = Some img
                   ∧ (colorChannels img = 3 ∨ colorChannels img = 4))
  ∧ ∃ w',
      LoadSceneTextures (machine scene_program) = Done (tt, w')
      ∧ m_loadedTextures (this w') = 6
      ∧ FindTextureSlot "stand" w' = Done (0, w')
      ∧ FindTextureSlot "plane" w' = Done (5, w').
Proof.
  split; [reflexivity|]. split; [vm_compute; discriminate|].
  split; [scene_files_by_evaluation|].
  destruct (LoadSceneTextures_slots (machine scene_program))
    as (w' & Hrun & Hcount & _ & Hstand & _ & _ & _ & _ & Hplane).
  - reflexivity.
  - vm_compute; discriminate.
  - scene_files_by_evaluation.
  - exists w'. split; [exact Hrun|]. split; [exact Hcount|].
    split; [exact Hstand|exact Hplane].
Defined.

Lemma DefineObjectMaterials_then_FindMaterial_witness :
  (∀ m0, m0 ∈ m_objectMaterials (this (fresh_machine shader_manager ∅)) →
         OBJECT_MATERIAL.tag m0 ∉ OBJECT_MATERIAL.tag <$> scene_materials)
  ∧ woodMaterial ∈ scene_materials
  ∧ ∃ w',
      DefineObjectMaterials (fresh_machine shader_manager ∅) = Done (tt, w')
      ∧ FindMaterial "wood" screenMaterial w'
        = Done ((true, assign_values woodMaterial screenMaterial), w').
Proof.
  split; [no_material_by_evaluation|].
  split; [unfold scene_materials; repeat constructor|].
  destruct (DefineObjectMaterials_then_FindMaterial
              (fresh_machine shader_manager ∅) woodMaterial screenMaterial)
    as (w' & Hrun & Hfind & _).
  - no_material_by_evaluation.
  - unfold scene_materials; repeat constructor.
  - exists w'. split; [exact Hrun|exact Hfind].
Defined.

Lemma DestroyGLTextures_keeps_registry_and_names_witness :
  registry_ok (this demo_machine)
  ∧ ∃ w' (names : list positive),
      DestroyGLTextures demo_machine = Done (tt, w')
      ∧ gl_calls (gl w')
        = gl_calls (gl demo_machine) ++ ((λ x, glGenTextures (Z.pos x)) <$> names)
      ∧ texture_names (gl demo_machine) ⊆ texture_names (gl w')
      ∧ m_loadedTextures (this w') = m_loadedTextures (this demo_machine).
Proof.
  split; [registry_ok_by_evaluation|].
  destruct (DestroyGLTextures_keeps_registry_and_names demo_machine)
    as (w' & names & Hrun & Hcalls & _ & Hnames & _ & Hcount & _).
  - registry_ok_by_evaluation.
  - exists w', names. split; [exact Hrun|]. split; [exact Hcalls|].
    split; [exact Hnames|exact Hcount].
Defined.



Lemma RenderScene_touches_only_frame_uniforms_witness :
  m_pShaderManager (this demo_machine) ≠ NULL
  ∧ registry_ok (this demo_machine)
  ∧ ∃ w',
      RenderScene demo_machine = Done (tt, w')
      ∧ this w' = this demo_machine
      ∧ uniforms (shader w') !! g_UseLightingName
        = uniforms (shader demo_machine) !! g_UseLightingName.
Proof.
  split; [attached_by_evaluation|]. split; [registry_ok_by_evaluation|].
  destruct (RenderScene_touches_only_frame_uniforms demo_machine)
    as (w' & Hrun & Hthis & _ & Hkeep).
  - attached_by_evaluation.
  - registry_ok_by_evaluation.
  - exists w'. split; [exact Hrun|]. split; [exact Hthis|].
    apply Hkeep. apply (bool_decide_unpack (_ ∉ frame_uniforms)).
    vm_compute. exact I.
Defined.


Lemma routines_without_shader_manager_witness :
  m_pShaderManager (this unattached_machine) = NULL
  ∧ m_objectMaterials (this unattached_machine) ≠ []
  ∧ RenderPlane unattached_machine = Undefined
  ∧ RenderScene unattached_machine = Undefined.
Proof.
  split; [reflexivity|]. split; [vm_compute; discriminate|].
  destruct (routines_without_shader_manager unattached_machine)
    as (Htextured & _ & Hscene).
  - reflexivity.
  - vm_compute; discriminate.
  - split; [exact (Htextured Plane _ eq_refl)|exact Hscene].
Defined.

Lemma lighting_survives_a_frame_witness :
  registry_ok (this demo_machine)
  ∧ m_pShaderManager (this demo_machine) ≠ NULL
  ∧ ∃ w1 w2,
      SetupSceneLights demo_machine = Done (tt, w1)
      ∧ RenderScene w1 = Done (tt, w2)
      ∧ uniforms (shader w2) !! g_UseLightingName = Some (UBool true).
Proof.
  split; [registry_ok_by_evaluation|]. split; [attached_by_evaluation|].
  destruct (lighting_survives_a_frame demo_machine) as [_ Hattached].
  - registry_ok_by_evaluation.
  - destruct Hattached as (w1 & w2 & Hrun1 & _ & Hrun2 & Hlights);
      [attached_by_evaluation|].
    exists w1, w2. split; [exact Hrun1|]. split; [exact Hrun2|].
    apply Hlights. unfold light_writes. left.
Defined.

Lemma PrepareScene_makes_every_lookup_succeed_witness :
  m_pShaderManager (this (machine scene_program)) ≠ NULL
  ∧ m_loadedTextures (this (machine scene_program)) = 0
  ∧ 6 ≤ Z.of_nat (length (m_textureIDs (this (machine scene_program))))
  ∧ (∀ m0, m0 ∈ m_objectMaterials (this (machine scene_program)) →
           OBJECT_MATERIAL.tag m0 ∉ OBJECT_MATERIAL.tag <$> scene_materials)
  ∧ (∀ f t, (f, t) ∈ scene_loads →
            ∃ img, disk (machine scene_program) !! f = Some img
                   ∧ (colorChannels img = 3 ∨ colorChannels img = 4))
  ∧ ∃ p',
      PrepareScene scene_program = Done (tt, p')
      ∧ registry_ok (this (machine p'))
      ∧ m_objectMaterials (this (machine p')) = scene_materials
      ∧ 0 ≤ slot_of (this (machine p')) "plane" < 6.
Proof.
  split; [discriminate|]. split; [reflexivity|].
  split; [vm_compute; discriminate|]. split; [no_material_by_evaluation|].
  split; [scene_files_by_evaluation|].
  destruct (PrepareScene_makes_every_lookup_succeed scene_program)
    as (p' & Hrun & Hok & _ & Hmaterials & _ & _ & Hlooks).
  - discriminate.
  - reflexivity.
  - vm_compute; discriminate.
  - no_material_by_evaluation.
  - scene_files_by_evaluation.
  - exists p'. split; [exact Hrun|]. split; [exact Hok|].
    split; [exact Hmaterials|].
    exact (proj1 (Hlooks Plane "plane" "wood" (Vec2 10 10) eq_refl)).
Defined.

